(** * Display calibration and colour generator: a shallow embedding

    This development embeds [CalibratorApp.py] in Rocq and checks the
    properties its specification states about it.

    Layout:
    - Part I   the slice of the Python runtime the program relies on
               (text, binary64 floats, insertion-ordered dicts, exceptions);
    - Part II  the program itself, function by function;
    - Part III lemmas and the verified properties;
    - Part IV  further properties of the code.

    Conventions.
    - A Python [str] is a [string]; its characters are read as the code points
      U+0000..U+00FF.
    - A Python [float] is an IEEE-754 binary64 value, represented by
      [spec_float] with the operations of [SpecFloat] at precision 53 and
      maximal exponent 1024.
    - A Python [dict] is an association list in insertion order with pairwise
      distinct keys.
    - Code that can raise returns a [result]; handlers that also touch the
      widgets or the files run in the monad [M]. *)

From Stdlib Require Import ZArith List String Ascii Bool Lia.
From Stdlib Require Import SpecFloat DecimalString HexadecimalString.
Import ListNotations.

Local Open Scope string_scope.
Local Open Scope Z_scope.

(* ===================================================================== *)
(** * Part I.  The Python runtime                                         *)
(* ===================================================================== *)

(** ** Exceptions *)

Inductive exn : Type :=
| ValueError
| OverflowError
| KeyError
| AttributeError
| TclError.

Inductive result (A : Type) : Type :=
| Ok (a : A)
| Raise (e : exn).

Arguments Ok {A} a.
Arguments Raise {A} e.

Definition rbind {A B : Type} (r : result A) (k : A -> result B) : result B :=
  match r with
  | Ok a => k a
  | Raise e => Raise e
  end.

Declare Scope result_scope.
Delimit Scope result_scope with result.
Notation "x <- r ;; k" := (rbind r (fun x => k))
  (at level 61, r at next level, right associativity) : result_scope.

(** ** Text *)

Module PyStr.

Definition code (c : ascii) : N := N_of_ascii c.

(** [str.isspace] on one character (code points below 256). *)
Definition isspace (c : ascii) : bool :=
  let n := code c in
  (((9 <=? n) && (n <=? 13)) || ((28 <=? n) && (n <=? 32))
   || (n =? 133) || (n =? 160))%N.

(** [c.lower()] and [c.upper()].  The three characters whose upper case
    leaves the modelled range (U+00B5, U+00DF, U+00FF) are left in place;
    none of them maps to an ASCII letter in Python either. *)
Definition lower_char (c : ascii) : ascii :=
  let n := code c in
  if (((65 <=? n) && (n <=? 90))
      || ((192 <=? n) && (n <=? 222) && negb (n =? 215)))%N
  then ascii_of_N (n + 32) else c.

Definition upper_char (c : ascii) : ascii :=
  let n := code c in
  if (((97 <=? n) && (n <=? 122))
      || ((224 <=? n) && (n <=? 254) && negb (n =? 247)))%N
  then ascii_of_N (n - 32) else c.

Fixpoint map_chars (f : ascii -> ascii) (s : string) : string :=
  match s with
  | EmptyString => EmptyString
  | String c s' => String (f c) (map_chars f s')
  end.

Definition lower (s : string) : string := map_chars lower_char s.
Definition upper (s : string) : string := map_chars upper_char s.

(** [s.capitalize()]: first character upper-cased, the rest lower-cased. *)
Definition capitalize (s : string) : string :=
  match s with
  | EmptyString => EmptyString
  | String c s' => String (upper_char c) (lower s')
  end.

Fixpoint lstrip (s : string) : string :=
  match s with
  | EmptyString => EmptyString
  | String c s' => if isspace c then lstrip s' else s
  end.

Fixpoint rstrip (s : string) : string :=
  match s with
  | EmptyString => EmptyString
  | String c s' =>
      match rstrip s' with
      | EmptyString => if isspace c then EmptyString else String c EmptyString
      | r => String c r
      end
  end.

(** [s.strip()] *)
Definition strip (s : string) : string := rstrip (lstrip s).

(** [s.split(sep)] for a one-character separator. *)
Fixpoint split (sep : ascii) (s : string) : list string :=
  match s with
  | EmptyString => [EmptyString]
  | String c s' =>
      if Ascii.eqb c sep then EmptyString :: split sep s'
      else match split sep s' with
           | [] => [String c EmptyString]
           | p :: ps => String c p :: ps
           end
  end.

Definition LF : ascii := ascii_of_N 10.
Definition CR : ascii := ascii_of_N 13.

(** Text-mode reading: ["\r\n"] and a lone ["\r"] arrive as ["\n"]. *)
Fixpoint universal_newlines (s : string) : string :=
  match s with
  | EmptyString => EmptyString
  | String c s' =>
      if Ascii.eqb c CR then
        match s' with
        | String c' s'' =>
            if Ascii.eqb c' LF then String LF (universal_newlines s'')
            else String LF (universal_newlines s')
        | EmptyString => String LF EmptyString
        end
      else String c (universal_newlines s')
  end.

(** The lines of a text, each with its terminating ["\n"] when it has one. *)
Fixpoint splitlines_keepends (s : string) : list string :=
  match s with
  | EmptyString => []
  | String c s' =>
      if Ascii.eqb c LF then String LF EmptyString :: splitlines_keepends s'
      else match splitlines_keepends s' with
           | [] => [String c EmptyString]
           | l :: ls => String c l :: ls
           end
  end.

(** [f.readlines()] and [for line in f] on a file opened with mode ['r']. *)
Definition readlines (content : string) : list string :=
  splitlines_keepends (universal_newlines content).

(** [f.writelines(lines)] *)
Definition writelines (lines : list string) : string :=
  String.concat "" lines.

(** [x in [...]] for strings. *)
Definition mem (x : string) (l : list string) : bool :=
  existsb (String.eqb x) l.

Definition NL : string := String LF EmptyString.

End PyStr.

(** ** Numbers: [int] and binary64 [float] *)

Module PyFloat.

Definition float : Type := spec_float.

Definition prec : Z := 53.
Definition emax : Z := 1024.

Definition fadd : float -> float -> float := SFadd prec emax.
Definition fsub : float -> float -> float := SFsub prec emax.
Definition fdiv : float -> float -> float := SFdiv prec emax.

Definition fzero : float := S754_zero false.

Definition is_finite (x : float) : bool :=
  match x with
  | S754_zero _ | S754_finite _ _ _ => true
  | S754_infinity _ | S754_nan => false
  end.

(** [x <= y] and [x < y] on floats (false as soon as one side is a NaN). *)
Definition fle : float -> float -> bool := SFleb.
Definition flt : float -> float -> bool := SFltb.

(** [float(z)] for an [int]: correctly rounded; [OverflowError] when the
    integer is beyond the range of a binary64. *)
Definition of_int (z : Z) : result float :=
  match binary_normalize prec emax z 0 false with
  | S754_infinity _ => Raise OverflowError
  | f => Ok f
  end.

(** The integer nearest to [num / den], ties to the even one
    ([0 <= num], [0 < den]). *)
Definition round_half_even (num den : Z) : Z :=
  let q := num / den in
  let r := num mod den in
  match 2 * r ?= den with
  | Lt => q
  | Gt => q + 1
  | Eq => if Z.even q then q else q + 1
  end.

(** [round(x)] with one argument, on a float: an [int]. *)
Definition round (x : float) : result Z :=
  match x with
  | S754_nan => Raise ValueError
  | S754_infinity _ => Raise OverflowError
  | S754_zero _ => Ok 0
  | S754_finite s m e =>
      Ok (cond_Zopp s
            (if 0 <=? e then Zpos m * 2 ^ e
             else round_half_even (Zpos m) (2 ^ (- e))))
  end.

(** *** Decimal text to float *)

(** The binary64 nearest to [± m * 10^e] ([0 <= m]); ties to even. *)
Definition of_decimal (neg : bool) (m e : Z) : float :=
  if m =? 0 then S754_zero neg
  else if 0 <=? e then binary_normalize prec emax (cond_Zopp neg (m * 10 ^ e)) 0 neg
  else
    let '(q, e', l) := SFdiv_core_binary prec emax m 0 (10 ^ (- e)) 0 in
    binary_round_aux prec emax neg q e' l.

Definition digit_of (c : ascii) : option Z :=
  let n := N_of_ascii c in
  if ((48 <=? n) && (n <=? 57))%N then Some (Z.of_N n - 48) else None.

(** The rest of a digit part, after one digit: [(["_"] digit)*]. *)
Fixpoint read_digits_tail (s : string) : list Z * string :=
  match s with
  | EmptyString => ([], EmptyString)
  | String c s' =>
      match digit_of c with
      | Some d => let '(ds, r) := read_digits_tail s' in (d :: ds, r)
      | None =>
          if Ascii.eqb c "_" then
            match s' with
            | String c2 s'' =>
                match digit_of c2 with
                | Some d => let '(ds, r) := read_digits_tail s'' in (d :: ds, r)
                | None => ([], s)
                end
            | EmptyString => ([], s)
            end
          else ([], s)
      end
  end.

(** [digitpart ::= digit (["_"] digit)*]; no digits when [s] does not start
    with one. *)
Definition read_digitpart (s : string) : list Z * string :=
  match s with
  | String c s' =>
      match digit_of c with
      | Some d => let '(ds, r) := read_digits_tail s' in (d :: ds, r)
      | None => ([], s)
      end
  | EmptyString => ([], s)
  end.

Definition digits_value (ds : list Z) : Z :=
  fold_left (fun acc d => 10 * acc + d) ds 0.

Definition read_sign (s : string) : bool * string :=
  match s with
  | String "-" s' => (true, s')
  | String "+" s' => (false, s')
  | _ => (false, s)
  end.

(** [exponent ::= ("e" | "E") [sign] digitpart]; [None] when an exponent
    marker is not followed by digits. *)
Definition read_exponent (s : string) : option (Z * string) :=
  match s with
  | String c s' =>
      if Ascii.eqb c "e" || Ascii.eqb c "E" then
        let '(neg, s1) := read_sign s' in
        match read_digitpart s1 with
        | ([], _) => None
        | (ds, r) => Some (cond_Zopp neg (digits_value ds), r)
        end
      else Some (0, s)
  | EmptyString => Some (0, s)
  end.

(** [floatnumber ::= ([digitpart] "." digitpart | digitpart ["."]) [exponent]] *)
Definition read_floatnumber (neg : bool) (s : string) : result float :=
  let '(ip, r1) := read_digitpart s in
  let '(fp, r2) :=
    match r1 with
    | String "." r => read_digitpart r
    | _ => ([], r1)
    end in
  match (ip ++ fp)%list with
  | [] => Raise ValueError
  | ds =>
      match read_exponent r2 with
      | Some (ex, EmptyString) =>
          Ok (of_decimal neg (digits_value ds) (ex - Z.of_nat (List.length fp)))
      | _ => Raise ValueError
      end
  end.

(** The whitespace [float] ignores around a number: the ASCII whitespace
    (tab to carriage return, and the space) and the two whitespace
    characters above U+007F (U+0085 and U+00A0), which [float] reads as
    spaces. The separators U+001C..U+001F are whitespace for [str.strip] but
    not for [float], which rejects a text that holds one. *)
Definition float_space (c : ascii) : bool :=
  let n := N_of_ascii c in
  (((9 <=? n) && (n <=? 13)) || (n =? 32) || (n =? 133) || (n =? 160))%N.

Fixpoint lstrip_spaces (s : string) : string :=
  match s with
  | EmptyString => EmptyString
  | String c s' => if float_space c then lstrip_spaces s' else s
  end.

Fixpoint rstrip_spaces (s : string) : string :=
  match s with
  | EmptyString => EmptyString
  | String c s' =>
      match rstrip_spaces s' with
      | EmptyString => if float_space c then EmptyString else String c EmptyString
      | r => String c r
      end
  end.

(** [float(s)] for a string: surrounding whitespace is ignored, then
    [[sign] (floatnumber | "inf" | "infinity" | "nan")], the words in any
    letter case; [ValueError] otherwise. *)
Definition float_of_str (s : string) : result float :=
  let '(neg, body) := read_sign (rstrip_spaces (lstrip_spaces s)) in
  let word := PyStr.lower body in
  if String.eqb word "inf" || String.eqb word "infinity" then Ok (S754_infinity neg)
  else if String.eqb word "nan" then Ok S754_nan
  else read_floatnumber neg body.

(** *** Float to text *)

Definition dec (n : Z) : string :=
  DecimalString.NilZero.string_of_uint (N.to_uint (Z.to_N n)).

Definition sign_str (neg : bool) : string := if neg then "-" else "".

Fixpoint zeros (n : nat) : string :=
  match n with
  | O => ""
  | S n' => String "0" (zeros n')
  end.

(** [format(x, ".1f")]: one digit after the point, correctly rounded. *)
Definition format_1f (x : float) : string :=
  match x with
  | S754_nan => "nan"
  | S754_infinity s => sign_str s ++ "inf"
  | S754_zero s => sign_str s ++ "0.0"
  | S754_finite s m e =>
      let t := if 0 <=? e then Zpos m * 2 ^ e * 10
               else round_half_even (Zpos m * 10) (2 ^ (- e)) in
      sign_str s ++ dec (t / 10) ++ "." ++ dec (t mod 10)
  end.

(** [x < 10^k] for [x = num / den]. *)
Definition below_pow10 (num den k : Z) : bool :=
  if 0 <=? k then num <? den * 10 ^ k else num * 10 ^ (- k) <? den.

(** The least [k >= k0] with [num / den < 10^k]. *)
Fixpoint decimal_point (fuel : nat) (num den k : Z) : Z :=
  match fuel with
  | O => k
  | S f => if below_pow10 num den k then k else decimal_point f num den (k + 1)
  end.

Fixpoint rstrip_zeros (s : string) : string :=
  match s with
  | EmptyString => EmptyString
  | String c s' =>
      match rstrip_zeros s' with
      | EmptyString => if Ascii.eqb c "0" then EmptyString else String c EmptyString
      | r => String c r
      end
  end.

(** The shortest digit string that reads back as [x = ± num / den], with at
    least [n] significant digits; of two candidates the nearer one. The
    result is the digits and the position of the decimal point. *)
Fixpoint shortest_digits (fuel : nat) (x : float) (neg : bool)
    (num den k : Z) (n : Z) : string * Z :=
  let '(a, b) := if 0 <=? n - k then (num * 10 ^ (n - k), den)
                 else (num, den * 10 ^ (k - n)) in
  let lo := a / b in
  let r := a mod b in
  let hi := lo + 1 in
  let ok d :=
    match SFcompare (of_decimal neg d (k - n)) x with
    | Some Eq => true
    | _ => false
    end in
  let pick d :=
    let ds := dec d in
    (rstrip_zeros ds, k + Z.of_nat (String.length ds) - n) in
  let nearer :=
    match 2 * r ?= b with
    | Lt => lo
    | Gt => hi
    | Eq => if Z.even lo then lo else hi
    end in
  match fuel with
  | O => pick nearer
  | S f =>
      if ok lo && ok hi then pick nearer
      else if ok lo then pick lo
      else if ok hi then pick hi
      else shortest_digits f x neg num den k (n + 1)
  end.

(** [repr(x)] (and [str(x)], and [f"{x}"]). *)
Definition repr (x : float) : string :=
  match x with
  | S754_nan => "nan"
  | S754_infinity s => sign_str s ++ "inf"
  | S754_zero s => sign_str s ++ "0.0"
  | S754_finite s m e =>
      let '(num, den) := if 0 <=? e then (Zpos m * 2 ^ e, 1)
                         else (Zpos m, 2 ^ (- e)) in
      let k := decimal_point 640 num den (-324) in
      let '(ds, decpt) := shortest_digits 16 x s num den k 1 in
      let nd := Z.of_nat (String.length ds) in
      sign_str s ++
      (if (decpt <=? -4) || (16 <? decpt) then
         let ex := decpt - 1 in
         String.substring 0 1 ds
         ++ (if 1 <? nd then "." ++ String.substring 1 (String.length ds - 1)%nat ds else "")
         ++ "e" ++ (if ex <? 0 then "-" else "+")
         ++ (if Z.abs ex <? 10 then "0" else "") ++ dec (Z.abs ex)
       else if decpt <=? 0 then
         "0." ++ zeros (Z.to_nat (- decpt)) ++ ds
       else if nd <=? decpt then
         ds ++ zeros (Z.to_nat (decpt - nd)) ++ ".0"
       else
         String.substring 0 (Z.to_nat decpt) ds ++ "."
         ++ String.substring (Z.to_nat decpt) (String.length ds - Z.to_nat decpt)%nat ds)
  end.

(** [format(z, "02x")] for an [int]. *)
Definition format_02x (z : Z) : string :=
  let body := HexadecimalString.NilZero.string_of_uint (N.to_hex_uint (Z.to_N (Z.abs z))) in
  if z <? 0 then "-" ++ zeros (1 - String.length body)%nat ++ body
  else zeros (2 - String.length body)%nat ++ body.

End PyFloat.

(** A number is an [int] or a [float]; arithmetic between the two converts
    the [int] first. *)
Inductive pynum : Type :=
| PyInt (z : Z)
| PyFloat (f : PyFloat.float).

Definition py_add (x y : pynum) : result pynum :=
  match x, y with
  | PyInt a, PyInt b => Ok (PyInt (a + b))
  | PyInt a, PyFloat g => (f <- PyFloat.of_int a ;; Ok (PyFloat (PyFloat.fadd f g)))%result
  | PyFloat f, PyInt b => (g <- PyFloat.of_int b ;; Ok (PyFloat (PyFloat.fadd f g)))%result
  | PyFloat f, PyFloat g => Ok (PyFloat (PyFloat.fadd f g))
  end.

Definition py_sub (x y : pynum) : result pynum :=
  match x, y with
  | PyInt a, PyInt b => Ok (PyInt (a - b))
  | PyInt a, PyFloat g => (f <- PyFloat.of_int a ;; Ok (PyFloat (PyFloat.fsub f g)))%result
  | PyFloat f, PyInt b => (g <- PyFloat.of_int b ;; Ok (PyFloat (PyFloat.fsub f g)))%result
  | PyFloat f, PyFloat g => Ok (PyFloat (PyFloat.fsub f g))
  end.

(** [int(round(x))] *)
Definition py_int_round (x : pynum) : result Z :=
  match x with
  | PyInt z => Ok z
  | PyFloat f => PyFloat.round f
  end.

(** A small integer as a float literal: [F 100] is [100.0]. *)
Definition F (z : Z) : PyFloat.float :=
  binary_normalize PyFloat.prec PyFloat.emax z 0 false.

(** ** Dictionaries *)

Module Dict.

Definition t (V : Type) : Type := list (string * V).

Section Ops.
Context {V : Type}.

(** [d.get(k)] *)
Fixpoint get (k : string) (d : t V) : option V :=
  match d with
  | [] => None
  | (k', v) :: d' => if String.eqb k k' then Some v else get k d'
  end.

(** [d[k] = v]: an existing key keeps its place, a new one goes last. *)
Fixpoint set (k : string) (v : V) (d : t V) : t V :=
  match d with
  | [] => [(k, v)]
  | (k', v') :: d' =>
      if String.eqb k k' then (k', v) :: d' else (k', v') :: set k v d'
  end.

(** [d.get(k, default)] *)
Definition get_default (k : string) (default : V) (d : t V) : V :=
  match get k d with
  | Some v => v
  | None => default
  end.

(** [k in d] *)
Definition contains (k : string) (d : t V) : bool :=
  match get k d with
  | Some _ => true
  | None => false
  end.

(** [d.keys()] *)
Definition keys (d : t V) : list string := map fst d.

End Ops.
End Dict.

(** ** Files, standard output, and the handler monad *)

Inductive path : Type :=
| CALIBRATION_FILE
| CCT_FILE (name : string).

Record calib : Type := mk_calib {
  white_balance : PyFloat.float;
  tint : PyFloat.float
}.

Record profile : Type := mk_profile {
  temperature : string;
  wb_correction : PyFloat.float;
  tint_correction : PyFloat.float
}.

Inductive message : Type :=
| ErrorParsingCalibrationLine (line : string) (e : exn)
| MonitorCalibrationSaved (calibration_values : Dict.t calib)
| ProfileChangesSaved.

(** What the program sees and leaves of the outside world: the calibration
    file (absent or its text), the files of the profile directory by name
    (none when that directory is missing or empty: directories themselves
    are not recorded), every [write] performed so far (oldest first) and the
    printed lines. *)
Record env : Type := mk_env {
  calibration_file : option string;
  cct_files : Dict.t string;
  writes : list (path * string);
  stdout : list message
}.

Definition print (m : message) (w : env) : env :=
  mk_env (calibration_file w) (cct_files w) (writes w) (stdout w ++ [m]).

Definition read_file (p : path) (w : env) : option string :=
  match p with
  | CALIBRATION_FILE => calibration_file w
  | CCT_FILE name => Dict.get name (cct_files w)
  end.

(** [open(p, 'w')] followed by writing [content]. *)
Definition write_file (p : path) (content : string) (w : env) : env :=
  match p with
  | CALIBRATION_FILE =>
      mk_env (Some content) (cct_files w) (writes w ++ [(p, content)]) (stdout w)
  | CCT_FILE name =>
      mk_env (calibration_file w) (Dict.set name content (cct_files w))
             (writes w ++ [(p, content)]) (stdout w)
  end.

(** A computation over a state [S] that returns an [A] or raises; the state
    reached when an exception is raised is kept. *)
Definition M (S A : Type) : Type := S -> result A * S.

Definition ret {S A : Type} (a : A) : M S A := fun s => (Ok a, s).

Definition raise {S A : Type} (e : exn) : M S A := fun s => (Raise e, s).

Definition bind {S A B : Type} (c : M S A) (k : A -> M S B) : M S B :=
  fun s =>
    match c s with
    | (Ok a, s') => k a s'
    | (Raise e, s') => (Raise e, s')
    end.

Definition gets {S A : Type} (f : S -> A) : M S A := fun s => (Ok (f s), s).

Definition modify {S : Type} (f : S -> S) : M S unit := fun s => (Ok tt, f s).

Definition lift {S A : Type} (r : result A) : M S A := fun s => (r, s).

Declare Scope monad_scope.
Delimit Scope monad_scope with monad.
Notation "x <- c ;; k" := (bind c (fun x => k))
  (at level 61, c at next level, right associativity) : monad_scope.
Notation "c ;; k" := (bind c (fun _ => k))
  (at level 61, right associativity) : monad_scope.

(* ===================================================================== *)
(** * Part II.  The program                                               *)
(* ===================================================================== *)

Import PyStr PyFloat.

(** Brightness levels for monitor calibration (name, base value). *)
Definition brightness_levels : list (string * Z) :=
  [ ("black", 0); ("dark gray", 64); ("gray", 128);
    ("light gray", 192); ("white", 255) ].

(** Test colours for stage two (display name -> base value). *)
Definition test_color_values : Dict.t Z :=
  [ ("Black", 0); ("Dark Gray", 64); ("Gray", 128);
    ("Light Gray", 192); ("White", 255) ].

(** [clamp(value, min_val=0, max_val=255)] *)
Definition clamp (value : pynum) (min_val max_val : Z) : result Z :=
  (r <- py_int_round value ;;
   Ok (Z.max min_val (Z.min r max_val)))%result.

(** The three assignments of [compute_color]: [r], [g] and [b]. *)
Definition compute_channels (base wb tint : pynum) : result (Z * Z * Z) :=
  (x <- py_add base wb ;;
   r <- clamp x 0 255 ;;
   y <- py_add base tint ;;
   g <- clamp y 0 255 ;;
   z <- py_sub base wb ;;
   b <- clamp z 0 255 ;;
   Ok (r, g, b))%result.

(** The [return] of [compute_color]: [f'#{r:02x}{g:02x}{b:02x}']. *)
Definition hex_color (rgb : Z * Z * Z) : string :=
  let '(r, g, b) := rgb in
  "#" ++ format_02x r ++ format_02x g ++ format_02x b.

Definition compute_color (base wb tint : pynum) : result string :=
  (rgb <- compute_channels base wb tint ;;
   Ok (hex_color rgb))%result.

(** One iteration body of the loop of [load_calibration_data], inside the
    [try]: the two unpackings and the two conversions. *)
Definition parse_calibration_line (line : string) : result (string * calib) :=
  match split ":" line with
  | [level; params] =>
      match split "," params with
      | [wb; tint] =>
          (w <- float_of_str wb ;;
           t <- float_of_str tint ;;
           Ok (lower (strip level), mk_calib w t))%result
      | _ => Raise ValueError
      end
  | _ => Raise ValueError
  end.

(** The [for line in f] loop of [load_calibration_data]; [out] collects what
    the handler of the [try] prints. *)
Fixpoint load_calibration_lines (lines : list string)
    (calibration_values : Dict.t calib) (out : list message)
  : Dict.t calib * list message :=
  match lines with
  | [] => (calibration_values, out)
  | line :: rest =>
      let line := strip line in
      if String.eqb line "" then load_calibration_lines rest calibration_values out
      else
        match parse_calibration_line line with
        | Ok (level, values) =>
            load_calibration_lines rest (Dict.set level values calibration_values) out
        | Raise e =>
            load_calibration_lines rest calibration_values
              (out ++ [ErrorParsingCalibrationLine line e])
        end
  end.

Definition load_calibration_data : M env (Dict.t calib) :=
  fun w =>
    match calibration_file w with
    | Some content =>
        let '(calibration_values, out) :=
          load_calibration_lines (readlines content) [] [] in
        (Ok calibration_values, fold_left (fun w m => print m w) out w)
    | None => (Ok [], w)
    end.

(** One [f.write] of [save_calibration_data]. *)
Definition calibration_line (entry : string * calib) : string :=
  let '(level, values) := entry in
  level ++ ":" ++ repr (white_balance values) ++ "," ++ repr (tint values) ++ NL.

Definition calibration_text (calibration_values : Dict.t calib) : string :=
  String.concat "" (map calibration_line calibration_values).

Definition save_calibration_data (calibration_values : Dict.t calib) : M env unit :=
  fun w =>
    (Ok tt,
     print (MonitorCalibrationSaved calibration_values)
       (write_file CALIBRATION_FILE (calibration_text calibration_values) w)).

(** ** Calibration stage *)

Module CalibrationApp.

(** The object's attributes, the two widgets the code touches ([root]'s
    background, the overlay and its two scales), the argument
    [finish_callback] was called with, and the outside world. The wizard
    does not know its callback: [finished] records the call, and [main]
    below runs the callback it passes, [run_stage_two], on the window and
    the world found here. From then on the main window is the callback's,
    and [root_bg] is the background the wizard left. *)
Record t : Type := mk {
  root_bg : string;
  overlay_title : string;
  overlay_alive : bool;
  calibration_values : Dict.t calib;
  current_index : nat;
  current_level : string;
  current_base : Z;
  current_wb : float;
  current_tint : float;
  wb_scale : float;
  tint_scale : float;
  finished : option (Dict.t calib);
  world : env
}.

Definition set_root_bg (c : string) (s : t) : t :=
  mk c (overlay_title s) (overlay_alive s) (calibration_values s)
     (current_index s) (current_level s) (current_base s) (current_wb s)
     (current_tint s) (wb_scale s) (tint_scale s) (finished s) (world s).

Definition set_overlay_title (x : string) (s : t) : t :=
  mk (root_bg s) x (overlay_alive s) (calibration_values s)
     (current_index s) (current_level s) (current_base s) (current_wb s)
     (current_tint s) (wb_scale s) (tint_scale s) (finished s) (world s).

Definition set_overlay_alive (x : bool) (s : t) : t :=
  mk (root_bg s) (overlay_title s) x (calibration_values s)
     (current_index s) (current_level s) (current_base s) (current_wb s)
     (current_tint s) (wb_scale s) (tint_scale s) (finished s) (world s).

Definition set_calibration_values (x : Dict.t calib) (s : t) : t :=
  mk (root_bg s) (overlay_title s) (overlay_alive s) x
     (current_index s) (current_level s) (current_base s) (current_wb s)
     (current_tint s) (wb_scale s) (tint_scale s) (finished s) (world s).

Definition set_current_index (x : nat) (s : t) : t :=
  mk (root_bg s) (overlay_title s) (overlay_alive s) (calibration_values s)
     x (current_level s) (current_base s) (current_wb s)
     (current_tint s) (wb_scale s) (tint_scale s) (finished s) (world s).

Definition set_current_level_base (l : string) (b : Z) (s : t) : t :=
  mk (root_bg s) (overlay_title s) (overlay_alive s) (calibration_values s)
     (current_index s) l b (current_wb s)
     (current_tint s) (wb_scale s) (tint_scale s) (finished s) (world s).

Definition set_current_wb (x : float) (s : t) : t :=
  mk (root_bg s) (overlay_title s) (overlay_alive s) (calibration_values s)
     (current_index s) (current_level s) (current_base s) x
     (current_tint s) (wb_scale s) (tint_scale s) (finished s) (world s).

Definition set_current_tint (x : float) (s : t) : t :=
  mk (root_bg s) (overlay_title s) (overlay_alive s) (calibration_values s)
     (current_index s) (current_level s) (current_base s) (current_wb s)
     x (wb_scale s) (tint_scale s) (finished s) (world s).

Definition set_wb_scale (x : float) (s : t) : t :=
  mk (root_bg s) (overlay_title s) (overlay_alive s) (calibration_values s)
     (current_index s) (current_level s) (current_base s) (current_wb s)
     (current_tint s) x (tint_scale s) (finished s) (world s).

Definition set_tint_scale (x : float) (s : t) : t :=
  mk (root_bg s) (overlay_title s) (overlay_alive s) (calibration_values s)
     (current_index s) (current_level s) (current_base s) (current_wb s)
     (current_tint s) (wb_scale s) x (finished s) (world s).

Definition set_finished (x : option (Dict.t calib)) (s : t) : t :=
  mk (root_bg s) (overlay_title s) (overlay_alive s) (calibration_values s)
     (current_index s) (current_level s) (current_base s) (current_wb s)
     (current_tint s) (wb_scale s) (tint_scale s) x (world s).

Definition set_world (x : env) (s : t) : t :=
  mk (root_bg s) (overlay_title s) (overlay_alive s) (calibration_values s)
     (current_index s) (current_level s) (current_base s) (current_wb s)
     (current_tint s) (wb_scale s) (tint_scale s) (finished s) x.

(** Run a module-level function, which only touches the outside world. *)
Definition in_world {A : Type} (c : M env A) : M t A :=
  fun s => let '(r, w) := c (world s) in (r, set_world w s).

Definition title_of (level : string) : string :=
  "Calibration: " ++ capitalize level.

Definition update_background : M t unit :=
  (base <- gets current_base ;;
   wb <- gets current_wb ;;
   tint <- gets current_tint ;;
   color <- lift (compute_color (PyInt base) (PyFloat wb) (PyFloat tint)) ;;
   modify (set_root_bg color))%monad.

(** [float(val)] under [try ... except ValueError: 0.0]. *)
Definition float_or_zero (val : string) : result float :=
  match float_of_str val with
  | Ok v => Ok v
  | Raise ValueError => Ok fzero
  | Raise e => Raise e
  end.

Definition on_wb_change (val : string) : M t unit :=
  (v <- lift (float_or_zero val) ;;
   modify (set_current_wb v) ;;
   update_background)%monad.

Definition on_tint_change (val : string) : M t unit :=
  (v <- lift (float_or_zero val) ;;
   modify (set_current_tint v) ;;
   update_background)%monad.

Definition on_next : M t unit :=
  (level <- gets current_level ;;
   wb <- gets current_wb ;;
   tint <- gets current_tint ;;
   modify (fun s => set_calibration_values
                      (Dict.set level (mk_calib wb tint) (calibration_values s)) s) ;;
   modify (fun s => set_current_index (S (current_index s)) s) ;;
   i <- gets current_index ;;
   if (i <? List.length brightness_levels)%nat then
     let '(level', base') := nth i brightness_levels ("", 0) in
     modify (set_current_level_base level' base') ;;
     modify (set_current_wb fzero) ;;
     modify (set_current_tint fzero) ;;
     modify (set_wb_scale fzero) ;;
     modify (set_tint_scale fzero) ;;
     modify (set_overlay_title (title_of level')) ;;
     update_background
   else
     cv <- gets calibration_values ;;
     in_world (save_calibration_data cv) ;;
     modify (set_overlay_alive false) ;;
     cv' <- gets calibration_values ;;
     modify (set_finished (Some cv')))%monad.

(** [__init__] up to the creation of the overlay; [create_controls] sets both
    scales to [0.0]. The constructor runs [update_background] first, which
    cannot fail on the first level with zero corrections. *)
Definition init (w : env) : t :=
  let '(level, base) := nth 0%nat brightness_levels ("", 0) in
  let s0 := mk "" (title_of level) true [] 0%nat level base fzero fzero
               fzero fzero None w in
  snd (update_background s0).

(** What the user can do with the overlay: move either scale (Tk passes the
    new value to the [command] as text) or press "Next". *)
Inductive event : Type :=
| MoveWb (val : string)
| MoveTint (val : string)
| PressNext.

Definition shown (val : string) (old : float) : float :=
  match float_of_str val with
  | Ok v => v
  | Raise _ => old
  end.

(** One turn of the Tk main loop: a destroyed overlay delivers nothing, and
    an exception escaping a callback is reported and dropped. A moved scale
    shows the value its text denotes. *)
Definition dispatch (ev : event) (s : t) : t :=
  if overlay_alive s then
    match ev with
    | MoveWb val => snd (on_wb_change val (set_wb_scale (shown val (wb_scale s)) s))
    | MoveTint val => snd (on_tint_change val (set_tint_scale (shown val (tint_scale s)) s))
    | PressNext => snd (on_next s)
    end
  else s.

Definition run (evs : list event) (s : t) : t :=
  fold_left (fun s ev => dispatch ev s) evs s.

End CalibrationApp.

(** ** Second stage *)

Module StageTwoUI.

(** The Tk variables, the attribute [phone_profiles] ([None] until
    [load_phone_profiles] first assigns it), the labels of the profile menu,
    the background of the main window, and the outside world. *)
Record t : Type := mk {
  root_bg : string;
  calibration_data : Dict.t calib;
  test_color_var : string;
  phone_file_var : string;
  phone_profile_var : string;
  phone_temp_var : string;
  user_wb_var : float;
  user_tint_var : float;
  phone_profiles : option (Dict.t profile);
  phone_profile_menu : list string;
  world : env
}.

Definition set_root_bg (x : string) (s : t) : t :=
  mk x (calibration_data s) (test_color_var s) (phone_file_var s)
     (phone_profile_var s) (phone_temp_var s) (user_wb_var s) (user_tint_var s)
     (phone_profiles s) (phone_profile_menu s) (world s).

Definition set_phone_profile_var (x : string) (s : t) : t :=
  mk (root_bg s) (calibration_data s) (test_color_var s) (phone_file_var s)
     x (phone_temp_var s) (user_wb_var s) (user_tint_var s)
     (phone_profiles s) (phone_profile_menu s) (world s).

Definition set_phone_temp_var (x : string) (s : t) : t :=
  mk (root_bg s) (calibration_data s) (test_color_var s) (phone_file_var s)
     (phone_profile_var s) x (user_wb_var s) (user_tint_var s)
     (phone_profiles s) (phone_profile_menu s) (world s).

Definition set_user_wb_var (x : float) (s : t) : t :=
  mk (root_bg s) (calibration_data s) (test_color_var s) (phone_file_var s)
     (phone_profile_var s) (phone_temp_var s) x (user_tint_var s)
     (phone_profiles s) (phone_profile_menu s) (world s).

Definition set_user_tint_var (x : float) (s : t) : t :=
  mk (root_bg s) (calibration_data s) (test_color_var s) (phone_file_var s)
     (phone_profile_var s) (phone_temp_var s) (user_wb_var s) x
     (phone_profiles s) (phone_profile_menu s) (world s).

Definition set_phone_profiles (x : option (Dict.t profile)) (s : t) : t :=
  mk (root_bg s) (calibration_data s) (test_color_var s) (phone_file_var s)
     (phone_profile_var s) (phone_temp_var s) (user_wb_var s) (user_tint_var s)
     x (phone_profile_menu s) (world s).

Definition set_phone_profile_menu (x : list string) (s : t) : t :=
  mk (root_bg s) (calibration_data s) (test_color_var s) (phone_file_var s)
     (phone_profile_var s) (phone_temp_var s) (user_wb_var s) (user_tint_var s)
     (phone_profiles s) x (world s).

Definition set_world (x : env) (s : t) : t :=
  mk (root_bg s) (calibration_data s) (test_color_var s) (phone_file_var s)
     (phone_profile_var s) (phone_temp_var s) (user_wb_var s) (user_tint_var s)
     (phone_profiles s) (phone_profile_menu s) x.

(** Reading the attribute [self.phone_profiles]. *)
Definition get_phone_profiles : M t (Dict.t profile) :=
  fun s =>
    match phone_profiles s with
    | Some d => (Ok d, s)
    | None => (Raise AttributeError, s)
    end.

(** The temperature correction of [update_background]: zero unless the
    text is a number, then [(temp_val - 6500) / 100.0]. *)
Definition phone_temp_corr_of (temp_str : string) : float :=
  if negb (String.eqb (upper temp_str) "NA") && negb (String.eqb temp_str "") then
    match float_of_str temp_str with
    | Ok temp_val => fdiv (fsub temp_val (F 6500)) (F 100)
    | Raise _ => fzero
    end
  else fzero.

Definition update_background : M t unit :=
  (test_color_name <- gets test_color_var ;;
   let base := Dict.get_default test_color_name 128 test_color_values in
   calibration_data <- gets calibration_data ;;
   let calib := Dict.get_default (lower test_color_name)
                  (mk_calib fzero fzero) calibration_data in
   let monitor_wb := white_balance calib in
   let monitor_tint := tint calib in
   temp <- gets phone_temp_var ;;
   let temp_str := strip temp in
   let phone_temp_corr := phone_temp_corr_of temp_str in
   user_wb <- gets user_wb_var ;;
   user_tint <- gets user_tint_var ;;
   let final_wb := fadd (fadd monitor_wb phone_temp_corr) user_wb in
   let final_tint := fadd monitor_tint user_tint in
   final_color <- lift (compute_color (PyInt base) (PyFloat final_wb) (PyFloat final_tint)) ;;
   modify (set_root_bg final_color))%monad.

(** The two ends of both sliders: [tk.Scale(..., from_=-50.0, to=50.0,
    resolution=0.1, variable=...)]. *)
Definition scale_from : float := F (-50).
Definition scale_to : float := F 50.

(** [var.set(x)] on the [DoubleVar] of a slider, as the value the variable
    then holds. The scale keeps its variable between its two ends: a value
    beyond an end is brought back to that end, a value between them stays.
    ([resolution] rounds what the slider shows, not the variable.) Tcl does
    not take a NaN for a number: the assignment raises [TclError]. *)
Definition scale_set (x : float) : result float :=
  match x with
  | S754_nan => Raise TclError
  | _ =>
      Ok (if flt x scale_from then scale_from
          else if flt scale_to x then scale_to
          else x)
  end.

Definition on_phone_profile_change (value : string) : M t unit :=
  (profiles <- get_phone_profiles ;;
   match Dict.get value profiles with
   | Some profile =>
       wb <- lift (scale_set (wb_correction profile)) ;;
       modify (set_user_wb_var wb) ;;
       tint <- lift (scale_set (tint_correction profile)) ;;
       modify (set_user_tint_var tint) ;;
       modify (set_phone_temp_var (temperature profile))
   | None => ret tt
   end ;;
   update_background)%monad.

(** [float(x) if x not in ["", "NA"] else 0.0] *)
Definition correction_of (x : string) : result float :=
  if negb (mem x [""; "NA"]) then float_of_str x else Ok fzero.

(** The first four parts of a profile line, or [None] when the line has
    fewer: [parts = [part.strip() for part in line.split("|")]]. *)
Definition profile_parts (line : string) : option (string * string * string * string) :=
  match map strip (split "|" line) with
  | a :: b :: c :: d :: _ => Some (a, b, c, d)
  | _ => None
  end.

(** The [for line in f] loop of [load_phone_profiles]; it fills
    [self.phone_profiles] in place. *)
Fixpoint load_profile_lines (lines : list string) : M t unit :=
  match lines with
  | [] => ret tt
  | line :: rest =>
      let line := strip line in
      if String.eqb line "" then load_profile_lines rest
      else
        match profile_parts line with
        | None => load_profile_lines rest
        | Some (profile_name, temperature, wb_corr, tint_corr) =>
            (wb <- lift (correction_of wb_corr) ;;
             tint <- lift (correction_of tint_corr) ;;
             profiles <- get_phone_profiles ;;
             modify (set_phone_profiles
                       (Some (Dict.set profile_name (mk_profile temperature wb tint) profiles))) ;;
             load_profile_lines rest)%monad
        end
  end.

Definition load_phone_profiles (filename : string) : M t unit :=
  (modify (set_phone_profiles (Some [])) ;;
   w <- gets world ;;
   match read_file (CCT_FILE filename) w with
   | Some content =>
       load_profile_lines (readlines content) ;;
       profiles <- get_phone_profiles ;;
       modify (set_phone_profile_menu (Dict.keys profiles)) ;;
       match Dict.keys profiles with
       | first_profile :: _ =>
           modify (set_phone_profile_var first_profile) ;;
           on_phone_profile_change first_profile
       | [] => modify (set_phone_profile_var "No profiles")
       end
   | None => ret tt
   end)%monad.

Definition on_test_color_change (value : string) : M t unit := update_background.

Definition on_phone_file_change (value : string) : M t unit :=
  (load_phone_profiles value ;; update_background)%monad.

Definition on_slider_change (value : string) : M t unit := update_background.

(** The rewritten line of [on_save_changes]. *)
Definition new_profile_line (profile_name temperature new_wb new_tint : string) : string :=
  profile_name ++ " | " ++ temperature ++ " | " ++ new_wb ++ " | " ++ new_tint ++ NL.

(** [self.phone_profiles[name][...] = ...] for the three keys in turn. *)
Definition update_profile (profile_name temperature new_wb new_tint : string) : M t unit :=
  (profiles <- get_phone_profiles ;;
   match Dict.get profile_name profiles with
   | None => raise KeyError
   | Some p =>
       modify (set_phone_profiles
                 (Some (Dict.set profile_name
                          (mk_profile temperature (wb_correction p) (tint_correction p))
                          profiles))) ;;
       wb <- lift (float_of_str new_wb) ;;
       modify (set_phone_profiles
                 (Some (Dict.set profile_name
                          (mk_profile temperature wb (tint_correction p))
                          profiles))) ;;
       tint <- lift (float_of_str new_tint) ;;
       modify (set_phone_profiles
                 (Some (Dict.set profile_name
                          (mk_profile temperature wb tint)
                          profiles)))
   end)%monad.

(** The [for line in lines] loop of [on_save_changes]; the result is
    [new_lines]. *)
Fixpoint save_lines (selected_profile : string) (lines : list string)
    (new_lines : list string) : M t (list string) :=
  match lines with
  | [] => ret new_lines
  | line :: rest =>
      let line_strip := strip line in
      if String.eqb line_strip "" then save_lines selected_profile rest new_lines
      else
        match profile_parts line_strip with
        | None => save_lines selected_profile rest (new_lines ++ [line])
        | Some (profile_name, _, _, _) =>
            if String.eqb profile_name selected_profile then
              (temp <- gets phone_temp_var ;;
               let temperature := strip temp in
               wb <- gets user_wb_var ;;
               let new_wb := format_1f wb in
               tint <- gets user_tint_var ;;
               let new_tint := format_1f tint in
               let new_line := new_profile_line profile_name temperature new_wb new_tint in
               update_profile profile_name temperature new_wb new_tint ;;
               save_lines selected_profile rest (new_lines ++ [new_line]))%monad
            else save_lines selected_profile rest (new_lines ++ [line])
        end
  end.

Definition on_save_changes : M t unit :=
  (phone_file <- gets phone_file_var ;;
   if String.eqb phone_file "" || mem phone_file ["No files found"] then ret tt
   else
     w <- gets world ;;
     let lines := match read_file (CCT_FILE phone_file) w with
                  | Some content => readlines content
                  | None => []
                  end in
     selected_profile <- gets phone_profile_var ;;
     new_lines <- save_lines selected_profile lines [] ;;
     modify (fun s => set_world (write_file (CCT_FILE phone_file) (writelines new_lines) (world s)) s) ;;
     modify (fun s => set_world (print ProfileChangesSaved (world s)) s))%monad.

End StageTwoUI.

(** ** Window placement, start-up and the main program *)

(** [str(z)] for an [int]. *)
Definition str_int (z : Z) : string :=
  if z <? 0 then "-" ++ dec (- z) else dec z.

(** The two assignments of [CalibrationApp.center_overlay]: [x] and [y],
    from the sizes Tk reports for the screen and the overlay. *)
Definition overlay_position (screen_width screen_height overlay_width overlay_height : Z)
  : Z * Z :=
  let x := (screen_width - overlay_width) / 2 in
  let y := (screen_height - overlay_height) / 2 in
  (x, y).

(** The geometry [center_overlay] gives the overlay: [f"+{x}+{y}"]. *)
Definition center_overlay (screen_width screen_height overlay_width overlay_height : Z)
  : string :=
  let '(x, y) := overlay_position screen_width screen_height
                   overlay_width overlay_height in
  "+" ++ str_int x ++ "+" ++ str_int y.

(** [s.endswith(suffix)] *)
Definition ends_with (suffix s : string) : bool :=
  (String.length suffix <=? String.length s)%nat &&
  String.eqb
    (String.substring (String.length s - String.length suffix)
       (String.length suffix) s)
    suffix.

(** [glob.glob(os.path.join(CCT_SETTINGS_DIR, "*.txt"))], by base name, on
    the names of the directory in listing order: a name matches when it ends
    in [".txt"] and does not start with a dot. *)
Definition glob_txt (names : list string) : list string :=
  filter (fun name =>
            ends_with ".txt" name &&
            negb (match name with
                  | String "." _ => true
                  | _ => false
                  end)) names.

Definition set_phone_file_var (x : string) (s : StageTwoUI.t) : StageTwoUI.t :=
  StageTwoUI.mk (StageTwoUI.root_bg s) (StageTwoUI.calibration_data s)
    (StageTwoUI.test_color_var s) x (StageTwoUI.phone_profile_var s)
    (StageTwoUI.phone_temp_var s) (StageTwoUI.user_wb_var s)
    (StageTwoUI.user_tint_var s) (StageTwoUI.phone_profiles s)
    (StageTwoUI.phone_profile_menu s) (StageTwoUI.world s).

Module StageTwoSetup.

(** The settings screen together with what [StageTwoUI] keeps outside its
    variables: the labels of the file menu, whether the panel and the main
    window still exist, and the title and full-screen flag of the main
    window. *)
Record t : Type := mk {
  ui : StageTwoUI.t;
  phone_file_menu : list string;
  panel_alive : bool;
  root_alive : bool;
  root_title : string;
  root_fullscreen : bool
}.

Definition set_ui (x : StageTwoUI.t) (s : t) : t :=
  mk x (phone_file_menu s) (panel_alive s) (root_alive s) (root_title s)
     (root_fullscreen s).

Definition set_phone_file_menu (x : list string) (s : t) : t :=
  mk (ui s) x (panel_alive s) (root_alive s) (root_title s) (root_fullscreen s).

(** Run a method that only touches the variables of the screen. *)
Definition in_ui {A : Type} (c : M StageTwoUI.t A) : M t A :=
  fun s => let '(r, u) := c (ui s) in (r, set_ui u s).

(** [load_phone_files]. Its first statement creates the directory
    [CCT_Settings] when it is missing: [env] holds the files of that
    directory by name and content and does not tell a missing directory
    from one without files, so this step adds nothing to it; no file is
    created. *)
Definition load_phone_files : M t unit :=
  (w <- gets (fun s => StageTwoUI.world (ui s)) ;;
   let file_names := glob_txt (Dict.keys (cct_files w)) in
   modify (set_phone_file_menu file_names) ;;
   match file_names with
   | first :: _ =>
       in_ui (modify (set_phone_file_var first)) ;;
       in_ui (StageTwoUI.load_phone_profiles first)
   | [] => in_ui (modify (set_phone_file_var "No files found"))
   end)%monad.

(** [StageTwoUI.__init__] on a main window whose background is [root_bg] and
    whose title and full-screen flag are as given: the variables at their
    initial values, both option menus with their single empty entry, then
    [load_phone_files] and [update_background]. *)
Definition init (root_bg root_title : string) (root_fullscreen : bool)
    (calibration_data : Dict.t calib) (w : env) : result unit * t :=
  let u := StageTwoUI.mk root_bg calibration_data "Gray"
             "Select Phone Profile File" "Select Phone Profile" "NA"
             fzero fzero None [""] w in
  (load_phone_files ;;
   in_ui StageTwoUI.update_background)%monad
    (mk u [""] true true root_title root_fullscreen).

Definition on_finish_setup : M t unit :=
  modify (fun s => mk (ui s) (phone_file_menu s) false false (root_title s)
                      (root_fullscreen s)).

End StageTwoSetup.

(** [run_stage_two(root, calibration_data)]: leave full-screen mode, title
    the window, build the settings screen. *)
Definition run_stage_two (root_bg : string) (calibration_data : Dict.t calib)
    (w : env) : result unit * StageTwoSetup.t :=
  StageTwoSetup.init root_bg "Color Generator - Stage Two" false calibration_data w.

(** Where the program stands once [main] has started it and the wizard, when
    it runs, has received the given events: still calibrating; in the second
    stage with the main loop running (the construction of the screen
    returned, or it raised inside the finish callback, where Tk reports the
    exception and goes on); or stopped by an exception that left [main]
    before the main loop was entered. *)
Inductive program : Type :=
| Calibrating (c : CalibrationApp.t)
| StageTwo (r : result unit) (s : StageTwoSetup.t)
| Crashed (e : exn) (w : env).

(** [os.path.exists(CALIBRATION_FILE) and os.path.getsize(CALIBRATION_FILE) > 0] *)
Definition has_calibration (w : env) : bool :=
  match calibration_file w with
  | Some content => negb (String.eqb content "")
  | None => false
  end.

(** [main()]: with a calibration file that is not empty, load it and go to
    the second stage, where an exception of [run_stage_two] leaves [main]
    before [root.mainloop()]; otherwise run the wizard, whose last "Next"
    calls [run_stage_two] through the finish callback, on the main window as
    the wizard left it. The background of the fresh main window is written
    [""]. *)
Definition main (w : env) (evs : list CalibrationApp.event) : program :=
  if has_calibration w then
    match load_calibration_data w with
    | (Ok calibration_data, w') =>
        match run_stage_two "" calibration_data w' with
        | (Ok tt, s) => StageTwo (Ok tt) s
        | (Raise e, s) => Crashed e (StageTwoUI.world (StageTwoSetup.ui s))
        end
    | (Raise e, w') => Crashed e w'
    end
  else
    let c := CalibrationApp.run evs (CalibrationApp.init w) in
    match CalibrationApp.finished c with
    | Some calib_data =>
        let '(r, s) := run_stage_two (CalibrationApp.root_bg c) calib_data
                         (CalibrationApp.world c) in
        StageTwo r s
    | None => Calibrating c
    end.

(** ** Vocabulary of the statements *)

(** Every character of [s] satisfies [p]. *)
Fixpoint all_chars (p : ascii -> bool) (s : string) : bool :=
  match s with
  | EmptyString => true
  | String c s' => p c && all_chars p s'
  end.

Definition is_not (x : ascii) (c : ascii) : bool := negb (Ascii.eqb c x).

(** No line break inside. *)
Definition one_line (s : string) : bool :=
  all_chars (fun c => is_not LF c && is_not CR c) s.

(** No leading and no trailing whitespace. *)
Definition stripped (s : string) : bool :=
  String.eqb (lstrip s) s && String.eqb (rstrip s) s.

(** A level name that survives the calibration file: lower case, stripped,
    on one line and free of the separator [":"]. *)
Definition plain_level (s : string) : bool :=
  String.eqb (lower s) s && stripped s && one_line s && all_chars (is_not ":") s.

(** [repr(x)] reads back as [x]. *)
Definition reads_back (x : float) : Prop :=
  float_of_str (repr x) = Ok x.

(** [lo <= x <= hi] for the range of the scales. *)
Definition within (lo hi : Z) (x : float) : bool :=
  fle (F lo) x && fle x (F hi).

Definition calib_within (lo hi : Z) (c : calib) : bool :=
  within lo hi (white_balance c) && within lo hi (tint c).

(** An [int], or a float that is neither an infinity nor a NaN. *)
Definition real (x : pynum) : bool :=
  match x with
  | PyInt _ => true
  | PyFloat f => is_finite f
  end.

Definition in_8bit (z : Z) : Prop := 0 <= z <= 255.

(** The outcome of a handler that ends by configuring the background with
    the colour [c] computes to, or raises what computing it raises. *)
Definition paints (c : result string) (s : StageTwoUI.t)
  : result unit * StageTwoUI.t :=
  match c with
  | Ok color => (Ok tt, StageTwoUI.set_root_bg color s)
  | Raise e => (Raise e, s)
  end.

(** The names of the five levels, in wizard order. *)
Definition level_names : list string := map fst brightness_levels.

(** How many times "Next" is pressed in a run of events. *)
Definition presses (evs : list CalibrationApp.event) : nat :=
  List.length (filter (fun ev => match ev with
                                 | CalibrationApp.PressNext => true
                                 | _ => false
                                 end) evs).

(** The text a scale passes to its [command] denotes a value in the range
    [from_ = -50.0 .. to = 50.0] the scale was created with. *)
Definition in_scale_range (val : string) : bool :=
  match float_of_str val with
  | Ok v => within (-50) 50 v
  | Raise _ => true
  end.

Definition event_in_range (ev : CalibrationApp.event) : bool :=
  match ev with
  | CalibrationApp.MoveWb val | CalibrationApp.MoveTint val => in_scale_range val
  | CalibrationApp.PressNext => true
  end.

Definition all_within (lo hi : Z) (d : Dict.t calib) : bool :=
  forallb (fun entry => calib_within lo hi (snd entry)) d.

(** The state [on_next] leaves at a level that is not the last one, up to
    the repaint: the record stored, the index advanced, corrections and
    scales back at [0.0]. *)
Definition advanced (s : CalibrationApp.t) : CalibrationApp.t :=
  let i := S (CalibrationApp.current_index s) in
  let '(level', base') := nth i brightness_levels ("", 0) in
  CalibrationApp.mk
    (CalibrationApp.root_bg s)
    (CalibrationApp.title_of level')
    (CalibrationApp.overlay_alive s)
    (Dict.set (CalibrationApp.current_level s)
       (mk_calib (CalibrationApp.current_wb s) (CalibrationApp.current_tint s))
       (CalibrationApp.calibration_values s))
    i level' base' fzero fzero fzero fzero
    (CalibrationApp.finished s)
    (CalibrationApp.world s).

(** The state [on_next] leaves at the last level: the record stored, the
    file written, the overlay destroyed, the callback called. *)
Definition completed (s : CalibrationApp.t) : CalibrationApp.t :=
  let cv := Dict.set (CalibrationApp.current_level s)
              (mk_calib (CalibrationApp.current_wb s) (CalibrationApp.current_tint s))
              (CalibrationApp.calibration_values s) in
  CalibrationApp.mk
    (CalibrationApp.root_bg s)
    (CalibrationApp.overlay_title s)
    false
    cv
    (S (CalibrationApp.current_index s))
    (CalibrationApp.current_level s)
    (CalibrationApp.current_base s)
    (CalibrationApp.current_wb s)
    (CalibrationApp.current_tint s)
    (CalibrationApp.wb_scale s)
    (CalibrationApp.tint_scale s)
    (Some cv)
    (print (MonitorCalibrationSaved cv)
       (write_file CALIBRATION_FILE (calibration_text cv) (CalibrationApp.world s))).

(** What holds of the wizard after [n] presses of "Next", started in the
    world [w]: the first [n] levels are recorded, in order; before the fifth
    press the world is untouched and the overlay shows level [n]; from the
    fifth press on the file holds the five records, written once. *)
Definition wizard_inv (w : env) (n : nat) (s : CalibrationApp.t) : Prop :=
  Dict.keys (CalibrationApp.calibration_values s) = firstn n level_names /\
  if (n <? 5)%nat then
    CalibrationApp.overlay_alive s = true /\
    CalibrationApp.current_index s = n /\
    CalibrationApp.current_level s = nth n level_names "" /\
    CalibrationApp.world s = w /\
    CalibrationApp.finished s = None
  else
    CalibrationApp.overlay_alive s = false /\
    CalibrationApp.finished s = Some (CalibrationApp.calibration_values s) /\
    CalibrationApp.world s =
      print (MonitorCalibrationSaved (CalibrationApp.calibration_values s))
        (write_file CALIBRATION_FILE
           (calibration_text (CalibrationApp.calibration_values s)) w).

(** Both current corrections and every stored record are within the range
    of the scales. *)
Definition range_inv (s : CalibrationApp.t) : Prop :=
  within (-50) 50 (CalibrationApp.current_wb s) = true /\
  within (-50) 50 (CalibrationApp.current_tint s) = true /\
  all_within (-50) 50 (CalibrationApp.calibration_values s) = true.

(** A line [on_save_changes] drops: nothing but whitespace. *)
Definition is_blank (line : string) : bool := String.eqb (strip line) "".

(** A line [on_save_changes] rewrites: four parts or more, the first one
    being the selected profile. *)
Definition names_profile (selected line : string) : bool :=
  match StageTwoUI.profile_parts (strip line) with
  | Some (profile_name, _, _, _) => String.eqb profile_name selected
  | None => false
  end.

(** The line written for the selected profile on the screen [s]. *)
Definition saved_line (s : StageTwoUI.t) : string :=
  StageTwoUI.new_profile_line (StageTwoUI.phone_profile_var s)
    (strip (StageTwoUI.phone_temp_var s))
    (format_1f (StageTwoUI.user_wb_var s))
    (format_1f (StageTwoUI.user_tint_var s)).

(** What [on_save_changes] writes for a line it keeps. *)
Definition rewritten (s : StageTwoUI.t) (line : string) : string :=
  if names_profile (StageTwoUI.phone_profile_var s) line then saved_line s else line.

(** The lines of the selected profile file, none when it does not exist. *)
Definition profile_file_lines (s : StageTwoUI.t) : list string :=
  match read_file (CCT_FILE (StageTwoUI.phone_file_var s)) (StageTwoUI.world s) with
  | Some content => readlines content
  | None => []
  end.

Fixpoint char_in (c : ascii) (s : string) : bool :=
  match s with
  | EmptyString => false
  | String x s' => Ascii.eqb c x || char_in c s'
  end.

(** The characters [repr] and [format(x, ".1f")] can produce: digits, the
    point, the exponent marker, the signs and the letters of [inf] and
    [nan]. *)
Definition float_char (c : ascii) : bool := char_in c "0123456789.e+-infa".

Definition digit_char (c : ascii) : bool := char_in c "0123456789".

(** A calibration record that survives the file: a plain level name and
    two numbers whose [repr] reads back. *)
Definition survives (entry : string * calib) : Prop :=
  plain_level (fst entry) = true /\
  reads_back (white_balance (snd entry)) /\
  reads_back (tint (snd entry)).

(** A line of the calibration file without its line end. *)
Definition calibration_body (entry : string * calib) : string :=
  fst entry ++ ":" ++ repr (white_balance (snd entry)) ++ ","
  ++ repr (tint (snd entry)).

(** Lines as [readlines] yields them: each is a text without line break
    followed by a line end, except that the last one may lack the line end
    (and is then not empty). *)
Definition terminated (l : string) : Prop :=
  exists body, l = body ++ NL /\ one_line body = true.

Definition unterminated (l : string) : Prop :=
  l <> "" /\ one_line l = true.

Fixpoint lines_ok (ls : list string) : Prop :=
  match ls with
  | [] => True
  | l :: rest => (terminated l \/ (unterminated l /\ rest = [])) /\ lines_ok rest
  end.

(** The profile [name] is in [phone_profiles] with the record [p]. *)
Definition holds_profile (name : string) (p : profile) (s : StageTwoUI.t) : Prop :=
  exists d, StageTwoUI.phone_profiles s = Some d /\ Dict.get name d = Some p.

(** A field that survives the profile file: free of the separator ["|"]
    and of line breaks. *)
Definition plain_field (x : string) : bool :=
  all_chars (is_not "|") x && one_line x.

(** The record [on_save_changes] stores for the selected profile on the
    screen [s]: the entry's text and the two sliders at one decimal. *)
Definition saved_record (s : StageTwoUI.t) (p : profile) : Prop :=
  temperature p = strip (StageTwoUI.phone_temp_var s) /\
  float_of_str (format_1f (StageTwoUI.user_wb_var s)) = Ok (wb_correction p) /\
  float_of_str (format_1f (StageTwoUI.user_tint_var s)) = Ok (tint_correction p).

(** ** Sample data

    Concrete inputs on which the statements below are exercised. *)

Definition empty_env : env := mk_env None [] [] [].

Definition sample_profiles : Dict.t profile :=
  [ ("Pixel", mk_profile "6600" (F 3) (F 4));
    ("Legacy", mk_profile "NA" fzero fzero) ].

(** Gray selected, a stored monitor record for gray, the entry showing
    [" 6600 "], the sliders at 3.0 and 4.0. *)
Definition sample_stage_two : StageTwoUI.t :=
  StageTwoUI.mk "" [("gray", mk_calib (F 2) (F (-1)))] "Gray" "phones.txt"
    "Pixel" " 6600 " (F 3) (F 4) (Some sample_profiles) ["Pixel"; "Legacy"]
    empty_env.

(** The same screen with ["na"] in the temperature entry. *)
Definition sample_stage_two_na : StageTwoUI.t :=
  StageTwoUI.set_phone_temp_var "na" sample_stage_two.

(** A session of the wizard: two adjustments and five presses of "Next". *)
Definition sample_session : list CalibrationApp.event :=
  [ CalibrationApp.MoveWb "12.5"; CalibrationApp.PressNext;
    CalibrationApp.MoveTint "-3.0"; CalibrationApp.PressNext;
    CalibrationApp.PressNext; CalibrationApp.PressNext;
    CalibrationApp.PressNext ].

(** A profile file with a blank line between its two records, and the
    sample screen looking at it. *)
Definition sample_profile_text : string :=
  "Pixel | 6600 | 3.0 | 4.0" ++ NL ++ NL ++ "Legacy | NA | NA | NA" ++ NL.

Definition sample_stage_two_file : StageTwoUI.t :=
  StageTwoUI.set_world (mk_env None [("phones.txt", sample_profile_text)] [] [])
    sample_stage_two.

(** The calibration the sample session of the wizard ends with. *)
Definition sample_calibration : Dict.t calib :=
  [ ("black", mk_calib (fdiv (F 25) (F 2)) fzero);
    ("dark gray", mk_calib fzero (F (-3)));
    ("gray", mk_calib fzero fzero);
    ("light gray", mk_calib fzero fzero);
    ("white", mk_calib fzero fzero) ].


(** ** Vocabulary of the further properties *)

Definition hex_digit_char (c : ascii) : bool := char_in c "0123456789abcdef".

(** [-x] on a float. *)
Definition fneg (x : float) : float := SFopp x.

(** The integers of one byte, for properties decided by enumeration. *)
Definition byte_values : list Z := map Z.of_nat (seq 0 256).

Definition format_02x_ok (z : Z) : bool :=
  Nat.eqb (String.length (format_02x z)) 2 && all_chars hex_digit_char (format_02x z).

Definition neutral_ok (b : Z) : bool :=
  forallb (fun signs : bool * bool =>
             match compute_channels (PyInt b) (PyFloat (S754_zero (fst signs)))
                     (PyFloat (S754_zero (snd signs))) with
             | Ok (r, g, b') => Z.eqb r b && Z.eqb g b && Z.eqb b' b
             | Raise _ => false
             end)
          [(false, false); (false, true); (true, false); (true, true)].

(** The preview shows the current corrections: whenever the colour of the
    current level and corrections can be computed, it is the background. *)
Definition preview_ok (s : CalibrationApp.t) : Prop :=
  forall c,
    compute_color (PyInt (CalibrationApp.current_base s))
      (PyFloat (CalibrationApp.current_wb s))
      (PyFloat (CalibrationApp.current_tint s)) = Ok c ->
    CalibrationApp.root_bg s = c.

(** What a scale callback stores for the text [val]: its number, or [0.0]
    when [float] rejects it. *)
Definition reported (val : string) : float :=
  match float_of_str val with
  | Ok v => v
  | Raise _ => fzero
  end.

(** The events of one level of the wizard: both scales moved, then "Next". *)
Definition level_events (entry : string * string) : list CalibrationApp.event :=
  [ CalibrationApp.MoveWb (fst entry); CalibrationApp.MoveTint (snd entry);
    CalibrationApp.PressNext ].

Definition reported_calib (entry : string * string) : calib :=
  mk_calib (reported (fst entry)) (reported (snd entry)).

(** The texts the scales report in the sample session, level by level. *)
Definition sample_entries : list (string * string) :=
  [ ("12.5", "0.0"); ("0.0", "-3.0"); ("0.0", "0.0"); ("oops", "0.0"); ("0.0", "0.0") ].

(** What [load_calibration_data] prints for a text: one message for each
    line that is not blank and fails to parse, in order. *)
Definition rejected_lines (content : string) : list message :=
  flat_map (fun line =>
              let line := strip line in
              if String.eqb line "" then []
              else match parse_calibration_line line with
                   | Ok _ => []
                   | Raise e => [ErrorParsingCalibrationLine line e]
                   end)
           (readlines content).

(** The line does not set the record of [level]. *)
Definition other_level (level line : string) : Prop :=
  forall c, parse_calibration_line (strip line) <> Ok (level, c).

(** A calibration file whose level is written with capitals and padding,
    followed by a later line for the same level. *)
Definition sample_calibration_text : string :=
  " Gray : 1.5, 2" ++ NL ++ "what?" ++ NL ++ "white:0.5,0" ++ NL ++ "GRAY:3,4" ++ NL.

(** A calibration file whose second line ends a number with the separator
    U+001C, which [strip] removes at the end of a line but [float] does not
    accept inside it. *)
Definition separator_line : string :=
  "gray:9" ++ String (ascii_of_N 28) ",9".

Definition separator_calibration_text : string :=
  "gray:1,2" ++ NL ++ separator_line ++ NL.


(** A computation of the settings screen that does not read the background
    of the main window: started on another background it returns the same
    result and reaches the same state up to the background. *)
Definition bg_blind {A : Type} (c : M StageTwoUI.t A) : Prop :=
  forall x s, exists y,
    c (StageTwoUI.set_root_bg x s) =
    (fst (c s), StageTwoUI.set_root_bg y (snd (c s))).

(** ** Positions of the scales *)

(** The float nearest to [n / 10]: what [float] makes of a text with one
    decimal, and so what a scale with [resolution=0.1] reports. *)
Definition tenth (n : Z) : float := of_decimal (n <? 0) (Z.abs n) (-1).

(** The positions of a scale created with [from_=-50.0, to=50.0,
    resolution=0.1]: -50.0, -49.9, ..., 50.0. *)
Definition scale_steps : list Z := map (fun i => Z.of_nat i - 500) (seq 0 1001).

Definition scale_position (x : float) : Prop :=
  exists n, -500 <= n <= 500 /\ x = tenth n.

(** A calibration record as the wizard stores it: one of the five levels
    with two positions of the scales. *)
Definition scale_record (entry : string * calib) : Prop :=
  In (fst entry) level_names /\
  scale_position (white_balance (snd entry)) /\
  scale_position (tint (snd entry)).

Definition float_eqb (x y : float) : bool :=
  match x, y with
  | S754_zero a, S754_zero b => Bool.eqb a b
  | S754_infinity a, S754_infinity b => Bool.eqb a b
  | S754_nan, S754_nan => true
  | S754_finite a m e, S754_finite b m' e' =>
      Bool.eqb a b && Pos.eqb m m' && Z.eqb e e'
  | _, _ => false
  end.

(** [repr] with the search for the decimal point started at [k0]; it is
    [repr] for a number that is not below [10^(k0 - 1)]. *)
Definition repr_from (fuel : nat) (k0 : Z) (x : float) : string :=
  match x with
  | S754_nan => "nan"
  | S754_infinity s => sign_str s ++ "inf"
  | S754_zero s => sign_str s ++ "0.0"
  | S754_finite s m e =>
      let '(num, den) := if 0 <=? e then (Zpos m * 2 ^ e, 1)
                         else (Zpos m, 2 ^ (- e)) in
      let k := decimal_point fuel num den k0 in
      let '(ds, decpt) := shortest_digits 16 x s num den k 1 in
      let nd := Z.of_nat (String.length ds) in
      sign_str s ++
      (if (decpt <=? -4) || (16 <? decpt) then
         let ex := decpt - 1 in
         String.substring 0 1 ds
         ++ (if 1 <? nd then "." ++ String.substring 1 (String.length ds - 1)%nat ds else "")
         ++ "e" ++ (if ex <? 0 then "-" else "+")
         ++ (if Z.abs ex <? 10 then "0" else "") ++ dec (Z.abs ex)
       else if decpt <=? 0 then
         "0." ++ zeros (Z.to_nat (- decpt)) ++ ds
       else if nd <=? decpt then
         ds ++ zeros (Z.to_nat (decpt - nd)) ++ ".0"
       else
         String.substring 0 (Z.to_nat decpt) ds ++ "."
         ++ String.substring (Z.to_nat decpt) (String.length ds - Z.to_nat decpt)%nat ds)
  end.

(** Not below [10^-5] in absolute value, or not a finite non-zero number. *)
Definition not_tiny (x : float) : bool :=
  match x with
  | S754_finite s m e =>
      let '(num, den) := if 0 <=? e then (Zpos m * 2 ^ e, 1)
                         else (Zpos m, 2 ^ (- e)) in
      negb (below_pow10 num den (-5))
  | _ => true
  end.

(** Decided by evaluation: [x] is not tiny and its [repr] reads back. *)
Definition reads_back_near (x : float) : bool :=
  not_tiny x &&
  match float_of_str (repr_from 320 (-4) x) with
  | Ok y => float_eqb y x
  | Raise _ => false
  end.

(* ===================================================================== *)
(** * Part III.  Properties                                               *)
(* ===================================================================== *)

(** ** Text lemmas *)

Section TextLemmas.

Lemma append_nil_r (s : string) : s ++ "" = s.
Proof. induction s as [|c s IH]; simpl; [reflexivity | now rewrite IH]. Qed.

Lemma append_assoc (a b c : string) : (a ++ b) ++ c = a ++ (b ++ c).
Proof. induction a as [|x a IH]; simpl; [reflexivity | now rewrite IH]. Qed.

Lemma all_chars_app p a b :
  all_chars p (a ++ b) = all_chars p a && all_chars p b.
Proof.
  induction a as [|c a IH]; simpl; [reflexivity|].
  now rewrite IH, andb_assoc.
Qed.

Lemma all_chars_impl (p q : ascii -> bool) s :
  (forall c, p c = true -> q c = true) ->
  all_chars p s = true -> all_chars q s = true.
Proof.
  intros Hpq. induction s as [|c s IH]; simpl; [reflexivity|].
  intros H. apply andb_true_iff in H as [Hc Hs].
  now rewrite (Hpq _ Hc), IH.
Qed.

Lemma rstrip_cons_nonspace c s :
  isspace c = false -> rstrip (String c s) = String c (rstrip s).
Proof. intros Hc. simpl. rewrite Hc. now destruct (rstrip s). Qed.

Lemma rstrip_app_nonspace a c b :
  isspace c = false -> rstrip (a ++ String c b) = a ++ String c (rstrip b).
Proof.
  intros Hc. induction a as [|x a IH]; simpl app.
  - simpl append. now apply rstrip_cons_nonspace.
  - change (String x a ++ String c b) with (String x (a ++ String c b)).
    cbn [rstrip]. rewrite IH.
    destruct a; reflexivity.
Qed.

Lemma lstrip_app_nonspace a c b :
  isspace c = false -> lstrip (a ++ String c b) = lstrip a ++ String c b.
Proof.
  intros Hc. induction a as [|x a IH]; simpl.
  - now rewrite Hc.
  - destruct (isspace x); [exact IH | reflexivity].
Qed.

Lemma rstrip_all_space s : all_chars isspace s = true -> rstrip s = "".
Proof.
  induction s as [|c s IH]; simpl; [reflexivity|].
  intros H. apply andb_true_iff in H as [Hc Hs].
  now rewrite (IH Hs), Hc.
Qed.

Lemma lstrip_all_space s : all_chars isspace s = true -> lstrip s = "".
Proof.
  induction s as [|c s IH]; simpl; [reflexivity|].
  intros H. apply andb_true_iff in H as [Hc Hs].
  now rewrite Hc, (IH Hs).
Qed.

Lemma rstrip_app_space a b :
  all_chars isspace b = true -> rstrip (a ++ b) = rstrip a.
Proof.
  intros Hb. induction a as [|x a IH]; simpl.
  - now apply rstrip_all_space.
  - now rewrite IH.
Qed.

Lemma lstrip_space_app a b :
  all_chars isspace a = true -> lstrip (a ++ b) = lstrip b.
Proof.
  induction a as [|x a IH]; simpl; [reflexivity|].
  intros H. apply andb_true_iff in H as [Hx Ha]. now rewrite Hx, IH.
Qed.

Lemma lstrip_idem s : lstrip (lstrip s) = lstrip s.
Proof.
  induction s as [|c s IH]; simpl; [reflexivity|].
  destruct (isspace c) eqn:Hc; [exact IH | simpl; now rewrite Hc].
Qed.

Lemma rstrip_cons c s :
  rstrip s <> "" -> rstrip (String c s) = String c (rstrip s).
Proof. intros H. simpl. now destruct (rstrip s). Qed.

Lemma rstrip_idem s : rstrip (rstrip s) = rstrip s.
Proof.
  induction s as [|c s IH]; simpl; [reflexivity|].
  destruct (rstrip s) as [|d r] eqn:Hr.
  - destruct (isspace c) eqn:Hc; simpl; [reflexivity | now rewrite Hc].
  - rewrite rstrip_cons by (rewrite IH; discriminate).
    now rewrite IH.
Qed.

(** Stripping on the right does not disturb what [lstrip] looks at. *)
Lemma lstrip_rstrip s : lstrip (rstrip s) = rstrip (lstrip s).
Proof.
  induction s as [|c s IH]; simpl; [reflexivity|].
  destruct (isspace c) eqn:Hc.
  - destruct (rstrip s) as [|d r] eqn:Hr.
    + simpl in IH. now rewrite <- IH.
    + simpl. rewrite Hc. exact IH.
  - simpl. destruct (rstrip s) as [|d r] eqn:Hr; simpl; now rewrite Hc.
Qed.

Lemma strip_idem s : strip (strip s) = strip s.
Proof.
  unfold strip.
  now rewrite (lstrip_rstrip (lstrip s)), lstrip_idem, rstrip_idem.
Qed.

End TextLemmas.

(** ** Colour arithmetic *)

Section Colour.

Lemma clamp_bounds value lo hi r :
  lo <= hi -> clamp value lo hi = Ok r -> lo <= r <= hi.
Proof.
  unfold clamp. destruct (py_int_round value) as [z|e]; simpl; [|discriminate].
  intros Hlh H. injection H as <-. lia.
Qed.

Lemma clamp_returns value lo hi :
  real value = true -> exists r, clamp value lo hi = Ok r.
Proof.
  unfold clamp. destruct value as [z|f]; simpl.
  - intros _. eexists. reflexivity.
  - destruct f; simpl; intros H; try discriminate; eexists; reflexivity.
Qed.

(** A channel of [compute_color]: the clamped sum or difference. *)
Lemma compute_channels_split base wb tint r g b :
  compute_channels base wb tint = Ok (r, g, b) <->
  (x <- py_add base wb ;; clamp x 0 255)%result = Ok r /\
  (y <- py_add base tint ;; clamp y 0 255)%result = Ok g /\
  (z <- py_sub base wb ;; clamp z 0 255)%result = Ok b.
Proof.
  unfold compute_channels.
  destruct (py_add base wb) as [x|e1]; simpl; [|split; [discriminate | intros (H & _); discriminate]].
  destruct (clamp x 0 255) as [r0|e1]; simpl; [|split; [discriminate | intros (H & _); discriminate]].
  destruct (py_add base tint) as [y|e2]; simpl; [|split; [discriminate | intros (_ & H & _); discriminate]].
  destruct (clamp y 0 255) as [g0|e2]; simpl; [|split; [discriminate | intros (_ & H & _); discriminate]].
  destruct (py_sub base wb) as [z|e3]; simpl; [|split; [discriminate | intros (_ & _ & H); discriminate]].
  destruct (clamp z 0 255) as [b0|e3]; simpl; [|split; [discriminate | intros (_ & _ & H); discriminate]].
  split.
  - intros H. injection H as <- <- <-. auto.
  - intros (H1 & H2 & H3). injection H1 as <-. injection H2 as <-. injection H3 as <-.
    reflexivity.
Qed.

End Colour.

(** C2. Whatever the base value and the two corrections, inside or outside
    [-50, 50]: each channel [compute_color] produces lies in [0, 255]; and it
    does produce the three channels as soon as the two sums and the
    difference it clamps are real numbers. *)
Theorem compute_color_channels_8bit (base wb tint : pynum) :
  (forall r g b, compute_channels base wb tint = Ok (r, g, b) ->
     in_8bit r /\ in_8bit g /\ in_8bit b) /\
  (forall x y z,
     py_add base wb = Ok x -> py_add base tint = Ok y -> py_sub base wb = Ok z ->
     real x = true -> real y = true -> real z = true ->
     exists r g b,
       compute_channels base wb tint = Ok (r, g, b) /\
       compute_color base wb tint = Ok (hex_color (r, g, b))).
Proof.
  split.
  - intros r g b H. apply compute_channels_split in H as (Hr & Hg & Hb).
    unfold in_8bit.
    destruct (py_add base wb) as [x|]; [|discriminate].
    destruct (py_add base tint) as [y|]; [|discriminate].
    destruct (py_sub base wb) as [z|]; [|discriminate].
    simpl in Hr, Hg, Hb.
    apply clamp_bounds in Hr; [|lia].
    apply clamp_bounds in Hg; [|lia].
    apply clamp_bounds in Hb; [|lia].
    auto.
  - intros x y z Hx Hy Hz Rx Ry Rz.
    destruct (clamp_returns x 0 255 Rx) as [r Hr].
    destruct (clamp_returns y 0 255 Ry) as [g Hg].
    destruct (clamp_returns z 0 255 Rz) as [b Hb].
    exists r, g, b.
    unfold compute_color, compute_channels.
    rewrite Hx, Hy, Hz. simpl. rewrite Hr. simpl. rewrite Hg. simpl. rewrite Hb.
    simpl. split; reflexivity.
Qed.

(** The property at base 255 with corrections 1000 and -500, far outside the
    range of the scales: the colour is pure red. *)
Lemma compute_color_channels_8bit_witness :
  compute_color (PyInt 255) (PyFloat (F 1000)) (PyFloat (F (-500))) = Ok "#ff0000"
  /\ in_8bit 255 /\ in_8bit 0 /\ in_8bit 0.
Proof.
  split; [reflexivity|].
  apply (proj1 (compute_color_channels_8bit
                  (PyInt 255) (PyFloat (F 1000)) (PyFloat (F (-500)))) 255 0 0).
  reflexivity.
Defined.

(** C3. The red channel is [clamp(base + wb)], the green one
    [clamp(base + tint)] and the blue one [clamp(base - wb)], and the result
    is their two-digit hexadecimal rendering; hence green does not depend on
    the white balance, red and blue do not depend on the tint, and on
    integers red clamps [base + wb] where blue clamps [base - wb]. *)
Theorem compute_color_channel_formulas (base wb tint : pynum) :
  (forall r g b,
     compute_channels base wb tint = Ok (r, g, b) <->
     (x <- py_add base wb ;; clamp x 0 255)%result = Ok r /\
     (y <- py_add base tint ;; clamp y 0 255)%result = Ok g /\
     (z <- py_sub base wb ;; clamp z 0 255)%result = Ok b) /\
  (forall r g b,
     compute_channels base wb tint = Ok (r, g, b) ->
     compute_color base wb tint = Ok ("#" ++ format_02x r ++ format_02x g ++ format_02x b)) /\
  (forall wb' r g b r' g' b',
     compute_channels base wb tint = Ok (r, g, b) ->
     compute_channels base wb' tint = Ok (r', g', b') -> g' = g) /\
  (forall tint' r g b r' g' b',
     compute_channels base wb tint = Ok (r, g, b) ->
     compute_channels base wb tint' = Ok (r', g', b') -> r' = r /\ b' = b) /\
  (forall bz wz, base = PyInt bz -> wb = PyInt wz ->
     forall r g b, compute_channels base wb tint = Ok (r, g, b) ->
     r = Z.max 0 (Z.min (bz + wz) 255) /\ b = Z.max 0 (Z.min (bz - wz) 255)).
Proof.
  split; [intros; apply compute_channels_split|].
  split.
  { intros r g b H. unfold compute_color. rewrite H. reflexivity. }
  split.
  { intros wb' r g b r' g' b' H H'.
    apply compute_channels_split in H as (_ & Hg & _).
    apply compute_channels_split in H' as (_ & Hg' & _).
    congruence. }
  split.
  { intros tint' r g b r' g' b' H H'.
    apply compute_channels_split in H as (Hr & _ & Hb).
    apply compute_channels_split in H' as (Hr' & _ & Hb').
    split; congruence. }
  intros bz wz -> -> r g b H.
  apply compute_channels_split in H as (Hr & _ & Hb).
  simpl in Hr, Hb. unfold clamp in Hr, Hb. simpl in Hr, Hb.
  injection Hr as <-. injection Hb as <-. auto.
Qed.

(** The formulas at gray (128) with white balance +10 and tint -5. *)
Lemma compute_color_channel_formulas_witness :
  compute_color (PyInt 128) (PyFloat (F 10)) (PyFloat (F (-5))) = Ok "#8a7b76".
Proof.
  apply (proj1 (proj2 (compute_color_channel_formulas
                         (PyInt 128) (PyFloat (F 10)) (PyFloat (F (-5))))) 138 123 118).
  reflexivity.
Defined.

(** ** The settings screen: background colour *)

Section Background.

Import StageTwoUI.

(** [update_background] in one equation. *)
Lemma update_background_eq (s : t) :
  update_background s =
  paints
    (compute_color
       (PyInt (Dict.get_default (test_color_var s) 128 test_color_values))
       (PyFloat
          (fadd (fadd (white_balance
                         (Dict.get_default (lower (test_color_var s))
                            (mk_calib fzero fzero) (calibration_data s)))
                      (phone_temp_corr_of (strip (phone_temp_var s))))
                (user_wb_var s)))
       (PyFloat
          (fadd (tint (Dict.get_default (lower (test_color_var s))
                         (mk_calib fzero fzero) (calibration_data s)))
                (user_tint_var s))))
    s.
Proof.
  unfold update_background, bind, gets, lift, modify, paints.
  match goal with |- context [compute_color ?a ?b ?c] =>
    destruct (compute_color a b c) end; reflexivity.
Qed.

Lemma upper_char_N c : upper_char c = "N"%char -> c = "N"%char \/ c = "n"%char.
Proof.
  destruct c as [[] [] [] [] [] [] [] []]; vm_compute; intros H;
    try discriminate H; auto.
Qed.

Lemma upper_char_A c : upper_char c = "A"%char -> c = "A"%char \/ c = "a"%char.
Proof.
  destruct c as [[] [] [] [] [] [] [] []]; vm_compute; intros H;
    try discriminate H; auto.
Qed.

(** The four spellings of ["NA"] are the only strings [upper] sends to it. *)
Lemma upper_NA s :
  upper s = "NA" -> s = "NA" \/ s = "Na" \/ s = "nA" \/ s = "na".
Proof.
  destruct s as [|c1 [|c2 [|c3 s]]]; simpl; try discriminate.
  intros H. injection H as H1 H2.
  destruct (upper_char_N _ H1) as [-> | ->], (upper_char_A _ H2) as [-> | ->]; auto.
Qed.

Lemma float_of_str_NA s : upper s = "NA" -> float_of_str s = Raise ValueError.
Proof.
  intros H. destruct (upper_NA s H) as [-> | [-> | [-> | ->]]]; reflexivity.
Qed.

(** A text that [float] accepts yields the linear correction. *)
Lemma phone_temp_corr_numeric ts v :
  float_of_str ts = Ok v ->
  phone_temp_corr_of ts = fdiv (fsub v (F 6500)) (F 100).
Proof.
  intros H. unfold phone_temp_corr_of.
  destruct (String.eqb (upper ts) "NA") eqn:Hna.
  - apply String.eqb_eq, float_of_str_NA in Hna. congruence.
  - destruct (String.eqb ts "") eqn:He.
    + apply String.eqb_eq in He. subst ts. discriminate H.
    + simpl. now rewrite H.
Qed.

Lemma phone_temp_corr_absent ts :
  ts = "" \/ upper ts = "NA" \/ (exists e, float_of_str ts = Raise e) ->
  phone_temp_corr_of ts = fzero.
Proof.
  unfold phone_temp_corr_of. intros [-> | [H | [e H]]].
  - reflexivity.
  - rewrite H. reflexivity.
  - rewrite H. now destruct (_ && _).
Qed.

(** Adding [0.0] changes a float at most in the sign of a zero. *)
Lemma fadd_zero_r m : m <> S754_zero true -> fadd m fzero = m.
Proof. destruct m as [[]| | |]; intros H; try reflexivity. now elim H. Qed.

Lemma fadd_zero_then m u :
  fadd (fadd m fzero) u = fadd m u \/
  (exists s1 s2, fadd (fadd m fzero) u = S754_zero s1 /\ fadd m u = S754_zero s2).
Proof.
  destruct m as [[]| | |]; try (left; reflexivity).
  destruct u as [[]| [] | |]; try (left; reflexivity);
    right; eexists; eexists; split; reflexivity.
Qed.

(** The colour does not see the sign of a zero white balance. *)
Lemma compute_color_zero_sign b s1 s2 tint :
  compute_color (PyInt b) (PyFloat (S754_zero s1)) tint =
  compute_color (PyInt b) (PyFloat (S754_zero s2)) tint.
Proof.
  unfold compute_color, compute_channels. simpl py_add. simpl py_sub.
  destruct (of_int b) as [f|e]; [|reflexivity].
  cbn [rbind].
  assert (Hadd : clamp (PyFloat (fadd f (S754_zero s1))) 0 255 =
                 clamp (PyFloat (fadd f (S754_zero s2))) 0 255)
    by (destruct f as [[]| | |], s1, s2; reflexivity).
  assert (Hsub : clamp (PyFloat (fsub f (S754_zero s1))) 0 255 =
                 clamp (PyFloat (fsub f (S754_zero s2))) 0 255)
    by (destruct f as [[]| | |], s1, s2; reflexivity).
  now rewrite Hadd, Hsub.
Qed.

Lemma compute_color_plus_zero b m u tint :
  compute_color (PyInt b) (PyFloat (fadd (fadd m fzero) u)) tint =
  compute_color (PyInt b) (PyFloat (fadd m u)) tint.
Proof.
  destruct (fadd_zero_then m u) as [-> | (s1 & s2 & -> & ->)];
    [reflexivity | apply compute_color_zero_sign].
Qed.

End Background.

(** C1. With the selected test colour of base value [b], the monitor record
    [(mwb, mt)] stored for it and a temperature text that denotes the number
    [t], [update_background] sets the background to
    [compute_color(b, mwb + (t - 6500) / 100 + uwb, mt + ut)], where [uwb] and
    [ut] are the two user sliders (and raises what that computation raises). *)
Theorem update_background_formula
    (s : StageTwoUI.t) (b : Z) (mwb mt t : float) :
  Dict.get (StageTwoUI.test_color_var s) test_color_values = Some b ->
  Dict.get (lower (StageTwoUI.test_color_var s)) (StageTwoUI.calibration_data s)
    = Some (mk_calib mwb mt) ->
  float_of_str (strip (StageTwoUI.phone_temp_var s)) = Ok t ->
  StageTwoUI.update_background s =
  paints
    (compute_color (PyInt b)
       (PyFloat (fadd (fadd mwb (fdiv (fsub t (F 6500)) (F 100)))
                      (StageTwoUI.user_wb_var s)))
       (PyFloat (fadd mt (StageTwoUI.user_tint_var s))))
    s.
Proof.
  intros Hb Hc Ht. rewrite update_background_eq.
  unfold Dict.get_default. rewrite Hb, Hc. simpl white_balance. simpl tint.
  now rewrite (phone_temp_corr_numeric _ _ Ht).
Qed.

(** The formula on the sample screen: 6600 K adds 1.0 to the white balance,
    so red is 128 + 6, green 128 + 3 and blue 128 - 6. *)
Lemma update_background_formula_witness :
  StageTwoUI.update_background sample_stage_two =
  (Ok tt, StageTwoUI.set_root_bg "#86837a" sample_stage_two).
Proof.
  rewrite (update_background_formula sample_stage_two 128 (F 2) (F (-1)) (F 6600));
    reflexivity.
Defined.

(** C7. When the temperature text is empty, is ["NA"] in any letter case, or
    is not accepted by [float], the temperature correction is exactly [0.0]
    and the background is the colour computed from the monitor record and
    the two sliders alone. *)
Theorem update_background_without_temperature (s : StageTwoUI.t) :
  let ts := strip (StageTwoUI.phone_temp_var s) in
  let name := StageTwoUI.test_color_var s in
  let base := Dict.get_default name 128 test_color_values in
  let calib := Dict.get_default (lower name) (mk_calib fzero fzero)
                 (StageTwoUI.calibration_data s) in
  ts = "" \/ upper ts = "NA" \/ (exists e, float_of_str ts = Raise e) ->
  StageTwoUI.phone_temp_corr_of ts = fzero /\
  StageTwoUI.update_background s =
  paints
    (compute_color (PyInt base)
       (PyFloat (fadd (white_balance calib) (StageTwoUI.user_wb_var s)))
       (PyFloat (fadd (tint calib) (StageTwoUI.user_tint_var s))))
    s.
Proof.
  intros ts name base calib H.
  pose proof (phone_temp_corr_absent ts H) as Hz.
  split; [exact Hz|].
  rewrite update_background_eq. fold ts. rewrite Hz.
  fold name. fold base. fold calib.
  now rewrite compute_color_plus_zero.
Qed.

(** With ["na"] in the entry the sample screen shows 128 + (2 + 3) for red,
    128 + 3 for green and 128 - 5 for blue. *)
Lemma update_background_without_temperature_witness :
  StageTwoUI.phone_temp_corr_of "na" = fzero /\
  StageTwoUI.update_background sample_stage_two_na =
  (Ok tt, StageTwoUI.set_root_bg "#85837b" sample_stage_two_na).
Proof.
  apply (update_background_without_temperature sample_stage_two_na).
  right. left. reflexivity.
Defined.

(** ** The settings screen: selecting a profile *)

Lemma paints_keeps_vars c s :
  StageTwoUI.user_wb_var (snd (paints c s)) = StageTwoUI.user_wb_var s /\
  StageTwoUI.user_tint_var (snd (paints c s)) = StageTwoUI.user_tint_var s /\
  StageTwoUI.phone_temp_var (snd (paints c s)) = StageTwoUI.phone_temp_var s /\
  StageTwoUI.phone_profiles (snd (paints c s)) = StageTwoUI.phone_profiles s /\
  StageTwoUI.world (snd (paints c s)) = StageTwoUI.world s.
Proof. destruct c; simpl; auto. Qed.







(** ** Loading profiles and calibration data *)

(** C6. A profile line with four parts whose correction is not a number
    makes [load_phone_profiles] raise [ValueError]: the line before it has
    been loaded, the well-formed line after it never is. *)
Theorem load_phone_profiles_raises_on_bad_number :
  let content :=
    "Good | 6500 | 1.0 | 2.0" ++ NL ++
    "Bad | 6500 | abc | 1.0" ++ NL ++
    "After | 5000 | 0.5 | 0.5" ++ NL in
  let s := StageTwoUI.set_world (mk_env None [("phones.txt", content)] [] [])
             sample_stage_two in
  fst (StageTwoUI.load_phone_profiles "phones.txt" s) = Raise ValueError /\
  StageTwoUI.phone_profiles (snd (StageTwoUI.load_phone_profiles "phones.txt" s))
  = Some [("Good", mk_profile "6500" (F 1) (F 2))].
Proof. vm_compute. split; reflexivity. Qed.

(** The sibling loader never raises: its loop catches every exception. *)
Lemma load_calibration_data_returns (w : env) :
  exists calibration_values, fst (load_calibration_data w) = Ok calibration_values.
Proof.
  unfold load_calibration_data. destruct (calibration_file w) as [content|].
  - destruct (load_calibration_lines _ _ _) as [cv out]. now exists cv.
  - now exists [].
Qed.

(** A calibration line that fails to parse is printed and skipped. *)
Lemma load_calibration_lines_skips line rest cv out e :
  strip line <> "" ->
  parse_calibration_line (strip line) = Raise e ->
  load_calibration_lines (line :: rest) cv out =
  load_calibration_lines rest cv (out ++ [ErrorParsingCalibrationLine (strip line) e]).
Proof.
  intros Hne Hp. simpl. rewrite Hp.
  destruct (String.eqb_spec (strip line) ""); [contradiction | reflexivity].
Qed.

(** Blank profile lines and lines with fewer than four parts are skipped. *)
Lemma load_profile_lines_skips line rest :
  strip line = "" \/ StageTwoUI.profile_parts (strip line) = None ->
  StageTwoUI.load_profile_lines (line :: rest) = StageTwoUI.load_profile_lines rest.
Proof.
  intros [H | H]; simpl; rewrite H; [reflexivity|].
  now destruct (String.eqb (strip line) "").
Qed.

(** ** The calibration wizard *)

Section Wizard.

Import CalibrationApp.

Lemma wizard_update_background_eq (s : t) :
  update_background s =
  match compute_color (PyInt (current_base s)) (PyFloat (current_wb s))
          (PyFloat (current_tint s)) with
  | Ok c => (Ok tt, set_root_bg c s)
  | Raise e => (Raise e, s)
  end.
Proof.
  unfold update_background, bind, gets, lift, modify.
  destruct (compute_color _ _ _); reflexivity.
Qed.

(** [float] raises nothing but [ValueError]. *)
Lemma float_of_str_raises val e : float_of_str val = Raise e -> e = ValueError.
Proof.
  unfold float_of_str, read_floatnumber.
  repeat match goal with
         | |- context [let '(_, _) := ?x in _] => destruct x
         | |- context [match ?x with _ => _ end] => destruct x
         | |- context [if ?x then _ else _] => destruct x
         end; intros H; try discriminate H; now injection H.
Qed.

Lemma float_or_zero_returns val :
  exists v, float_or_zero val = Ok v /\ (float_of_str val = Ok v \/ v = fzero).
Proof.
  unfold float_or_zero. destruct (float_of_str val) as [v|e] eqn:H.
  - exists v. auto.
  - rewrite (float_of_str_raises _ _ H). exists fzero. auto.
Qed.

(** On each level of the wizard, zero corrections paint without error. *)
Lemma compute_color_level i :
  (i < 5)%nat ->
  exists c, compute_color (PyInt (snd (nth i brightness_levels ("", 0))))
              (PyFloat fzero) (PyFloat fzero) = Ok c.
Proof.
  intros Hi.
  do 5 (destruct i as [|i]; [eexists; reflexivity|]). lia.
Qed.

Lemma on_next_advances (s : t) :
  (S (current_index s) < 5)%nat ->
  exists c, on_next s = (Ok tt, set_root_bg c (advanced s)).
Proof.
  intros Hi.
  destruct (compute_color_level _ Hi) as [c Hc]. exists c.
  unfold on_next, advanced.
  cbv beta iota zeta delta [bind gets modify].
  cbn [current_index set_current_index set_calibration_values].
  change (List.length brightness_levels) with 5%nat.
  destruct (Nat.ltb_spec (S (current_index s)) 5) as [_|Hge]; [|lia].
  destruct (nth (S (current_index s)) brightness_levels ("", 0)) as [level' base'] eqn:Hn.
  cbv beta iota zeta delta [bind gets modify].
  rewrite wizard_update_background_eq.
  cbn [current_base current_wb current_tint set_overlay_title set_tint_scale
       set_wb_scale set_current_tint set_current_wb set_current_level_base
       set_current_index set_calibration_values root_bg overlay_title overlay_alive
       calibration_values current_index current_level wb_scale tint_scale finished world].
  cbn [snd] in Hc. rewrite Hc. reflexivity.
Qed.

Lemma on_next_completes (s : t) :
  (5 <= S (current_index s))%nat ->
  on_next s = (Ok tt, completed s).
Proof.
  intros Hi.
  unfold on_next, completed.
  cbv beta iota zeta delta [bind gets modify].
  cbn [current_index set_current_index set_calibration_values].
  change (List.length brightness_levels) with 5%nat.
  destruct (Nat.ltb_spec (S (current_index s)) 5) as [Hlt|_]; [lia|].
  reflexivity.
Qed.

(** Moving a scale changes the correction it drives, the value it shows and
    the background, nothing else. *)
Lemma dispatch_move_wb val (s : t) :
  overlay_alive s = true ->
  exists v x bg,
    (float_of_str val = Ok v \/ v = fzero) /\
    dispatch (MoveWb val) s =
    mk bg (overlay_title s) true (calibration_values s)
       (current_index s) (current_level s) (current_base s) v
       (current_tint s) x (tint_scale s) (finished s) (world s).
Proof.
  intros Ha. unfold dispatch. rewrite Ha.
  destruct (float_or_zero_returns val) as (v & Hv & Hor).
  exists v. unfold on_wb_change.
  cbv beta iota zeta delta [bind lift modify]. rewrite Hv.
  rewrite wizard_update_background_eq.
  destruct (compute_color _ _ _); eexists; eexists; (split; [exact Hor|]);
    unfold set_root_bg, set_current_wb, set_current_tint, set_wb_scale, set_tint_scale;
    cbn [snd root_bg overlay_title overlay_alive calibration_values current_index
         current_level current_base current_wb current_tint wb_scale tint_scale
         finished world];
    rewrite Ha; reflexivity.
Qed.

Lemma dispatch_move_tint val (s : t) :
  overlay_alive s = true ->
  exists v x bg,
    (float_of_str val = Ok v \/ v = fzero) /\
    dispatch (MoveTint val) s =
    mk bg (overlay_title s) true (calibration_values s)
       (current_index s) (current_level s) (current_base s) (current_wb s)
       v (wb_scale s) x (finished s) (world s).
Proof.
  intros Ha. unfold dispatch. rewrite Ha.
  destruct (float_or_zero_returns val) as (v & Hv & Hor).
  exists v. unfold on_tint_change.
  cbv beta iota zeta delta [bind lift modify]. rewrite Hv.
  rewrite wizard_update_background_eq.
  destruct (compute_color _ _ _); eexists; eexists; (split; [exact Hor|]);
    unfold set_root_bg, set_current_wb, set_current_tint, set_wb_scale, set_tint_scale;
    cbn [snd root_bg overlay_title overlay_alive calibration_values current_index
         current_level current_base current_wb current_tint wb_scale tint_scale
         finished world];
    rewrite Ha; reflexivity.
Qed.

End Wizard.

Section WizardInvariant.

Import CalibrationApp.

Lemma keys_set_fresh {V} k (v : V) d :
  ~ In k (Dict.keys d) -> Dict.keys (Dict.set k v d) = (Dict.keys d ++ [k])%list.
Proof.
  induction d as [|[k' v'] d IH]; simpl; intros H; [reflexivity|].
  destruct (String.eqb_spec k k') as [->|Hne]; [tauto|].
  simpl. f_equal. apply IH. tauto.
Qed.

Lemma next_level_fresh n :
  (n < 5)%nat ->
  ~ In (nth n level_names "") (firstn n level_names) /\
  (firstn n level_names ++ [nth n level_names ""])%list = firstn (S n) level_names.
Proof.
  intros Hn.
  do 5 (destruct n as [|n];
        [split; [cbv; intuition discriminate | reflexivity]|]).
  lia.
Qed.

Lemma wizard_inv_init w : wizard_inv w 0 (init w).
Proof. unfold wizard_inv. simpl. auto 6. Qed.

Lemma wizard_inv_move w n ev s :
  match ev with PressNext => False | _ => True end ->
  wizard_inv w n s -> wizard_inv w n (dispatch ev s).
Proof.
  intros Hev (Hk & H). unfold wizard_inv.
  destruct (n <? 5)%nat eqn:Hn.
  - destruct H as (Ha & Hi & Hl & Hw & Hf).
    destruct ev as [val|val|]; [| |contradiction].
    + destruct (dispatch_move_wb val s Ha) as (v & x & bg & _ & ->).
      simpl. auto 6.
    + destruct (dispatch_move_tint val s Ha) as (v & x & bg & _ & ->).
      simpl. auto 6.
  - destruct H as (Ha & H). unfold dispatch. rewrite Ha. auto.
Qed.

Lemma wizard_inv_next w n s :
  wizard_inv w n s -> wizard_inv w (Nat.min 5 (S n)) (dispatch PressNext s).
Proof.
  intros (Hk & H). unfold wizard_inv.
  destruct (Nat.ltb_spec n 5) as [Hn|Hn].
  - destruct H as (Ha & Hi & Hl & Hw & Hf).
    destruct (next_level_fresh n Hn) as (Hfresh & Hnext).
    unfold dispatch. rewrite Ha.
    destruct (Nat.eq_dec n 4) as [->|Hn4].
    + rewrite on_next_completes by lia.
      unfold completed. cbn [snd calibration_values overlay_alive finished world].
      rewrite Hl, Hw.
      change (Nat.min 5 5) with 5%nat. change (5 <? 5)%nat with false.
      split; [|auto].
      rewrite keys_set_fresh by (rewrite Hk; exact Hfresh).
      now rewrite Hk, Hnext.
    + destruct (on_next_advances s) as [c ->]; [lia|].
      replace (Nat.min 5 (S n)) with (S n) by lia.
      destruct (Nat.ltb_spec (S n) 5) as [_|Hge]; [|lia].
      unfold advanced. rewrite Hi.
      destruct (nth (S n) brightness_levels ("", 0)) as [level' base'] eqn:Hnth.
      cbn [snd set_root_bg calibration_values overlay_alive finished world
           current_index current_level].
      rewrite Hl. rewrite keys_set_fresh by (rewrite Hk; exact Hfresh).
      rewrite Hk, Hnext.
      repeat split; auto.
      unfold level_names.
      change "" with (fst ("", 0)).
      rewrite map_nth, Hnth. reflexivity.
  - destruct H as (Ha & Hf & Hw). unfold dispatch. rewrite Ha. cbv iota.
    replace (Nat.min 5 (S n)) with 5%nat by lia.
    change (5 <? 5)%nat with false.
    rewrite firstn_all2 in Hk by (simpl; lia).
    rewrite firstn_all2 by (simpl; lia). auto.
Qed.

Lemma wizard_inv_run w evs : forall n s,
  wizard_inv w n s ->
  wizard_inv w (Nat.min 5 (n + presses evs)) (run evs s).
Proof.
  induction evs as [|ev evs IH]; intros n s H.
  - change (run [] s) with s. change (presses []) with 0%nat.
    rewrite Nat.add_0_r.
    destruct (Nat.le_gt_cases n 5) as [Hle|Hgt].
    + replace (Nat.min 5 n) with n by lia. exact H.
    + destruct H as (Hk & H). unfold wizard_inv in *.
      replace (Nat.min 5 n) with 5%nat by lia.
      destruct (Nat.ltb_spec n 5); [lia|].
      change (5 <? 5)%nat with false.
      rewrite firstn_all2 in Hk by (simpl; lia).
      rewrite firstn_all2 by (simpl; lia). auto.
  - change (run (ev :: evs) s) with (run evs (dispatch ev s)).
    destruct ev as [val|val|].
    + change (presses (MoveWb val :: evs)) with (presses evs).
      apply IH. now apply wizard_inv_move.
    + change (presses (MoveTint val :: evs)) with (presses evs).
      apply IH. now apply wizard_inv_move.
    + change (presses (PressNext :: evs)) with (S (presses evs)).
      apply wizard_inv_next in H.
      apply IH in H.
      replace (Nat.min 5 (n + S (presses evs)))
        with (Nat.min 5 (Nat.min 5 (S n) + presses evs)) by lia.
      exact H.
Qed.

End WizardInvariant.

(** C10. At a level that is not the last one, [on_next] stores the current
    pair of corrections under the current level, leaves the outside world
    (hence every file) as it was and puts both corrections and both scales
    back to [0.0]. Over any run of the wizard, nothing is written before the
    fifth press of "Next"; from the fifth press on the calibration file has
    been written exactly once, with the text of [calibration_values], whose
    keys are then exactly the five level names. *)
Theorem wizard_saves_once :
  (forall s : CalibrationApp.t,
     (S (CalibrationApp.current_index s) < List.length brightness_levels)%nat ->
     fst (CalibrationApp.on_next s) = Ok tt /\
     CalibrationApp.calibration_values (snd (CalibrationApp.on_next s)) =
       Dict.set (CalibrationApp.current_level s)
         (mk_calib (CalibrationApp.current_wb s) (CalibrationApp.current_tint s))
         (CalibrationApp.calibration_values s) /\
     CalibrationApp.world (snd (CalibrationApp.on_next s)) = CalibrationApp.world s /\
     CalibrationApp.current_wb (snd (CalibrationApp.on_next s)) = fzero /\
     CalibrationApp.current_tint (snd (CalibrationApp.on_next s)) = fzero /\
     CalibrationApp.wb_scale (snd (CalibrationApp.on_next s)) = fzero /\
     CalibrationApp.tint_scale (snd (CalibrationApp.on_next s)) = fzero) /\
  (forall (w : env) (evs : list CalibrationApp.event),
     let s := CalibrationApp.run evs (CalibrationApp.init w) in
     ((presses evs < 5)%nat ->
        CalibrationApp.world s = w /\
        CalibrationApp.overlay_alive s = true /\
        Dict.keys (CalibrationApp.calibration_values s)
          = firstn (presses evs) level_names) /\
     ((5 <= presses evs)%nat ->
        writes (CalibrationApp.world s) =
          (writes w ++ [(CALIBRATION_FILE,
                         calibration_text (CalibrationApp.calibration_values s))])%list /\
        calibration_file (CalibrationApp.world s) =
          Some (calibration_text (CalibrationApp.calibration_values s)) /\
        Dict.keys (CalibrationApp.calibration_values s) =
          ["black"; "dark gray"; "gray"; "light gray"; "white"] /\
        CalibrationApp.finished s = Some (CalibrationApp.calibration_values s))).
Proof.
  split.
  - intros s Hi. change (List.length brightness_levels) with 5%nat in Hi.
    destruct (on_next_advances s Hi) as [c ->].
    unfold advanced.
    destruct (nth (S (CalibrationApp.current_index s)) brightness_levels ("", 0)).
    simpl. auto 8.
  - intros w evs s.
    pose proof (wizard_inv_run w evs 0 (CalibrationApp.init w) (wizard_inv_init w))
      as (Hk & H).
    fold s in Hk, H. rewrite Nat.add_0_l in Hk, H.
    split; intros Hp.
    + replace (Nat.min 5 (presses evs)) with (presses evs) in Hk, H by lia.
      destruct (Nat.ltb_spec (presses evs) 5) as [_|Hge]; [|lia].
      destruct H as (Ha & _ & _ & Hw & _). auto.
    + replace (Nat.min 5 (presses evs)) with 5%nat in Hk, H by lia.
      change (5 <? 5)%nat with false in H. cbv iota in H.
      destruct H as (_ & Hf & Hw).
      rewrite Hw. simpl. auto.
Qed.

(** The sample session: the file is written once, at the fifth press, with
    the five levels in order. *)
Lemma wizard_saves_once_witness :
  writes (CalibrationApp.world (CalibrationApp.run sample_session
                                  (CalibrationApp.init empty_env))) =
  [(CALIBRATION_FILE,
    "black:12.5,0.0" ++ NL ++ "dark gray:0.0,-3.0" ++ NL ++ "gray:0.0,0.0" ++ NL
    ++ "light gray:0.0,0.0" ++ NL ++ "white:0.0,0.0" ++ NL)]
  /\ fst (CalibrationApp.on_next (CalibrationApp.init empty_env)) = Ok tt.
Proof.
  split.
  - destruct (proj2 wizard_saves_once empty_env sample_session) as [_ H].
    destruct H as (Hw & _); [vm_compute; lia|].
    rewrite Hw. vm_compute. reflexivity.
  - apply (proj1 wizard_saves_once (CalibrationApp.init empty_env)).
    vm_compute. lia.
Defined.

(** ** Range of the calibration records *)

Section Range.

Import CalibrationApp.

Lemma all_within_set lo hi k c d :
  calib_within lo hi c = true ->
  all_within lo hi d = true ->
  all_within lo hi (Dict.set k c d) = true.
Proof.
  intros Hc. induction d as [|[k' c'] d IH]; simpl.
  - intros _. now rewrite Hc.
  - intros H. apply andb_true_iff in H as [H1 H2].
    destruct (String.eqb k k'); simpl.
    + now rewrite Hc, H2.
    + now rewrite H1, IH.
Qed.

Lemma in_scale_range_value val v :
  in_scale_range val = true ->
  float_of_str val = Ok v \/ v = fzero ->
  within (-50) 50 v = true.
Proof.
  unfold in_scale_range. intros H [Hv | ->]; [now rewrite Hv in H | reflexivity].
Qed.

Lemma range_inv_init w : range_inv (init w).
Proof. unfold range_inv. simpl. auto. Qed.

Lemma range_inv_dispatch ev s :
  event_in_range ev = true -> range_inv s -> range_inv (dispatch ev s).
Proof.
  intros Hev (Hwb & Htint & Hall).
  destruct (overlay_alive s) eqn:Ha;
    [|unfold dispatch; rewrite Ha; unfold range_inv; auto].
  destruct ev as [val|val|].
  - destruct (dispatch_move_wb val s Ha) as (v & x & bg & Hv & ->).
    unfold range_inv. simpl. split; [|auto].
    exact (in_scale_range_value val v Hev Hv).
  - destruct (dispatch_move_tint val s Ha) as (v & x & bg & Hv & ->).
    unfold range_inv. simpl. split; [auto|]. split; [|auto].
    exact (in_scale_range_value val v Hev Hv).
  - assert (Hset : all_within (-50) 50
                     (Dict.set (current_level s) (mk_calib (current_wb s) (current_tint s))
                        (calibration_values s)) = true).
    { apply all_within_set; [|exact Hall].
      unfold calib_within. simpl. now rewrite Hwb, Htint. }
    unfold dispatch. rewrite Ha.
    destruct (Nat.lt_ge_cases (S (current_index s)) 5) as [Hlt|Hge].
    + destruct (on_next_advances s Hlt) as [c ->].
      unfold advanced.
      destruct (nth (S (current_index s)) brightness_levels ("", 0)).
      unfold range_inv. simpl. auto.
    + rewrite (on_next_completes s Hge).
      unfold range_inv, completed. simpl. auto.
Qed.

Lemma range_inv_run evs : forall s,
  forallb event_in_range evs = true -> range_inv s -> range_inv (run evs s).
Proof.
  induction evs as [|ev evs IH]; intros s Hevs Hs; [exact Hs|].
  simpl in Hevs. apply andb_true_iff in Hevs as [Hev Hevs].
  change (run (ev :: evs) s) with (run evs (dispatch ev s)).
  apply IH; [exact Hevs|]. now apply range_inv_dispatch.
Qed.

Lemma in_dict_set {V} k (v : V) k' v' d :
  In (k, v) (Dict.set k' v' d) -> (k, v) = (k', v') \/ In (k, v) d.
Proof.
  induction d as [|[k0 v0] d IH]; simpl.
  - intros [H|[]]. left. now symmetry.
  - destruct (String.eqb_spec k' k0) as [->|Hne]; simpl.
    + intros [H|H]; [left; now symmetry | auto].
    + intros [H|H]; [auto|]. destruct (IH H); auto.
Qed.

(** Every record the loader returns is what some line of the file parses
    to; the loader adds no check of its own. *)
Lemma load_calibration_lines_provenance lines : forall cv out cv' out' level c,
  load_calibration_lines lines cv out = (cv', out') ->
  In (level, c) cv' ->
  In (level, c) cv \/
  exists line, In line lines /\ parse_calibration_line (strip line) = Ok (level, c).
Proof.
  induction lines as [|line rest IH]; intros cv out cv' out' level c Hload Hin.
  - simpl in Hload. injection Hload as <- <-. auto.
  - simpl in Hload.
    destruct (String.eqb (strip line) "").
    + destruct (IH _ _ _ _ _ _ Hload Hin) as [H | (l & Hl & Hp)]; [auto|].
      right. exists l. simpl. auto.
    + destruct (parse_calibration_line (strip line)) as [[level0 values]|e] eqn:Hparse.
      * destruct (IH _ _ _ _ _ _ Hload Hin) as [H | (l & Hl & Hp)].
        -- apply in_dict_set in H as [H|H]; [|auto].
           injection H as -> ->. right. exists line. simpl. auto.
        -- right. exists l. simpl. auto.
      * destruct (IH _ _ _ _ _ _ Hload Hin) as [H | (l & Hl & Hp)]; [auto|].
        right. exists l. simpl. auto.
Qed.

End Range.

(** C8 does not hold as specified: a calibration file may hold any
    number, and [load_calibration_data] returns it unchecked. *)
Lemma load_calibration_data_out_of_range :
  fst (load_calibration_data (mk_env (Some ("gray:100.0,0.0" ++ NL)) [] [] []))
  = Ok [("gray", mk_calib (F 100) fzero)]
  /\ calib_within (-50) 50 (mk_calib (F 100) fzero) = false.
Proof. split; reflexivity. Qed.

(** C8, amended. Every record the wizard holds has both offsets within
    [-50, 50], provided each value a scale reports lies in the range the
    scale was created with; and every record [load_calibration_data] returns
    carries exactly the two numbers some line of the file denotes. *)
Theorem calibration_records_in_range :
  (forall (w : env) (evs : list CalibrationApp.event),
     forallb event_in_range evs = true ->
     let s := CalibrationApp.run evs (CalibrationApp.init w) in
     all_within (-50) 50 (CalibrationApp.calibration_values s) = true /\
     within (-50) 50 (CalibrationApp.current_wb s) = true /\
     within (-50) 50 (CalibrationApp.current_tint s) = true) /\
  (forall (w : env) (cv : Dict.t calib) (level : string) (c : calib),
     fst (load_calibration_data w) = Ok cv ->
     In (level, c) cv ->
     exists content line,
       calibration_file w = Some content /\
       In line (readlines content) /\
       parse_calibration_line (strip line) = Ok (level, c)).
Proof.
  split.
  - intros w evs Hevs s.
    destruct (range_inv_run evs (CalibrationApp.init w) Hevs (range_inv_init w))
      as (Hwb & Htint & Hall).
    auto.
  - intros w cv level c Hload Hin.
    unfold load_calibration_data in Hload.
    destruct (calibration_file w) as [content|] eqn:Hfile.
    + destruct (load_calibration_lines (readlines content) [] []) as [cv' out] eqn:Hl.
      simpl in Hload. injection Hload as ->.
      destruct (load_calibration_lines_provenance _ _ _ _ _ _ _ Hl Hin)
        as [[] | (line & Hline & Hp)].
      exists content, line. auto.
    + simpl in Hload. injection Hload as <-. destruct Hin.
Qed.

(** The sample session keeps every record within the range. *)
Lemma calibration_records_in_range_witness :
  all_within (-50) 50
    (CalibrationApp.calibration_values
       (CalibrationApp.run sample_session (CalibrationApp.init empty_env))) = true.
Proof.
  apply (proj1 calibration_records_in_range empty_env sample_session).
  vm_compute. reflexivity.
Defined.

(** ** Saving a profile *)

Section SaveChanges.

Import StageTwoUI.

(** [update_profile] touches [phone_profiles] and nothing else, whether it
    returns or raises. *)
Lemma update_profile_only n tmp w ti (s : t) :
  exists x, snd (update_profile n tmp w ti s) = set_phone_profiles x s.
Proof.
  destruct s as [bg cd tc pf pp pt uw ut profs menu wld].
  unfold update_profile, get_phone_profiles.
  cbv beta iota zeta delta [bind modify lift raise].
  cbn [phone_profiles].
  destruct profs as [d|]; [|eexists; reflexivity].
  destruct (Dict.get n d) as [p|]; [|eexists; reflexivity].
  destruct (float_of_str w); [|eexists; reflexivity].
  destruct (float_of_str ti); eexists; reflexivity.
Qed.

Lemma save_lines_spec sel lines : forall acc (s : t) r s1,
  save_lines sel lines acc s = (Ok r, s1) ->
  phone_profile_var s = sel ->
  (exists x, s1 = set_phone_profiles x s) /\
  r = (acc ++ map (rewritten s) (filter (fun l => negb (is_blank l)) lines))%list.
Proof.
  induction lines as [|line rest IH]; intros acc s r s1 Hrun Hsel.
  - simpl in Hrun. injection Hrun as <- <-. split.
    + exists (phone_profiles s). now destruct s.
    + simpl. now rewrite app_nil_r.
  - simpl in Hrun. unfold is_blank at 1. simpl filter. fold (is_blank line).
    unfold is_blank at 1.
    destruct (String.eqb (strip line) "") eqn:Hblank; simpl negb; cbv iota.
    + now apply IH.
    + simpl map. unfold rewritten at 1. unfold names_profile. rewrite Hsel.
      destruct (profile_parts (strip line)) as [[[[name p2] p3] p4]|].
      * destruct (String.eqb name sel) eqn:Hname.
        -- apply String.eqb_eq in Hname. subst name.
           cbv beta iota zeta delta [bind gets] in Hrun.
           destruct (update_profile_only sel (strip (phone_temp_var s))
                       (format_1f (user_wb_var s)) (format_1f (user_tint_var s)) s)
             as [x Hx].
           destruct (update_profile sel (strip (phone_temp_var s))
                       (format_1f (user_wb_var s)) (format_1f (user_tint_var s)) s)
             as [[[]|e] s2]; [|discriminate Hrun].
           simpl in Hx. subst s2.
           apply IH in Hrun; [|exact Hsel].
           destruct Hrun as ((y & ->) & ->). split.
           ++ exists y. reflexivity.
           ++ rewrite <- app_assoc. simpl. unfold saved_line. rewrite Hsel.
              reflexivity.
        -- apply IH in Hrun; [|exact Hsel].
           destruct Hrun as (Hx & ->). split; [exact Hx|].
           now rewrite <- app_assoc.
      * apply IH in Hrun; [|exact Hsel].
        destruct Hrun as (Hx & ->). split; [exact Hx|].
        now rewrite <- app_assoc.
Qed.

Lemma get_set_same {V} k (v : V) d : Dict.get k (Dict.set k v d) = Some v.
Proof.
  induction d as [|[k' v'] d IH]; simpl.
  - now rewrite String.eqb_refl.
  - destruct (String.eqb k k') eqn:H; simpl; rewrite H; [reflexivity | exact IH].
Qed.

Lemma get_set_other {V} k k' (v : V) d :
  k' <> k -> Dict.get k' (Dict.set k v d) = Dict.get k' d.
Proof.
  intros Hne. induction d as [|[k0 v0] d IH]; simpl.
  - destruct (String.eqb_spec k' k); [contradiction | reflexivity].
  - destruct (String.eqb_spec k k0) as [->|Hk]; simpl.
    + destruct (String.eqb_spec k' k0); [contradiction | reflexivity].
    + now rewrite IH.
Qed.

End SaveChanges.

(** C9 does not hold as specified: a blank line of the file is not the
    selected profile's line, yet it is not written back. Here the selected
    line is even rewritten to the very text it had. *)
Lemma on_save_changes_drops_blank_lines :
  In NL (readlines sample_profile_text) /\
  names_profile "Pixel" NL = false /\
  fst (StageTwoUI.on_save_changes sample_stage_two_file) = Ok tt /\
  read_file (CCT_FILE "phones.txt")
    (StageTwoUI.world (snd (StageTwoUI.on_save_changes sample_stage_two_file)))
  = Some ("Pixel | 6600 | 3.0 | 4.0" ++ NL ++ "Legacy | NA | NA | NA" ++ NL).
Proof. vm_compute. repeat split; auto. Qed.

(** C9, amended. When [on_save_changes] completes on a selected file, that
    file holds the non-blank lines of its previous text, in order: each line
    naming the selected profile replaced by the line built from the profile
    name, the entry and the two sliders, every other one unchanged. Blank
    lines are dropped. No other file is touched. *)
Theorem on_save_changes_frame (s s' : StageTwoUI.t) :
  StageTwoUI.on_save_changes s = (Ok tt, s') ->
  StageTwoUI.phone_file_var s <> "" ->
  StageTwoUI.phone_file_var s <> "No files found" ->
  read_file (CCT_FILE (StageTwoUI.phone_file_var s)) (StageTwoUI.world s') =
    Some (writelines (map (rewritten s)
                        (filter (fun l => negb (is_blank l)) (profile_file_lines s)))) /\
  calibration_file (StageTwoUI.world s') = calibration_file (StageTwoUI.world s) /\
  (forall other, other <> StageTwoUI.phone_file_var s ->
     read_file (CCT_FILE other) (StageTwoUI.world s') =
     read_file (CCT_FILE other) (StageTwoUI.world s)).
Proof.
  intros Hrun Hne Hnf.
  unfold StageTwoUI.on_save_changes in Hrun.
  cbv beta iota zeta delta [bind gets] in Hrun.
  destruct (String.eqb_spec (StageTwoUI.phone_file_var s) ""); [contradiction|].
  unfold mem, existsb in Hrun.
  destruct (String.eqb_spec (StageTwoUI.phone_file_var s) "No files found");
    [contradiction|].
  cbn [orb] in Hrun.
  fold (profile_file_lines s) in Hrun.
  destruct (StageTwoUI.save_lines (StageTwoUI.phone_profile_var s)
              (profile_file_lines s) [] s) as [[new_lines|e] s1] eqn:Hsave;
    [|discriminate Hrun].
  apply save_lines_spec in Hsave; [|reflexivity].
  destruct Hsave as ((x & ->) & ->).
  cbv beta iota zeta delta [modify] in Hrun.
  injection Hrun as <-.
  simpl. rewrite get_set_same. split; [reflexivity|]. split; [reflexivity|].
  intros other Hother. now apply get_set_other.
Qed.

(** On the sample file the blank line goes and the two records stay. *)
Lemma on_save_changes_frame_witness :
  read_file (CCT_FILE "phones.txt")
    (StageTwoUI.world (snd (StageTwoUI.on_save_changes sample_stage_two_file)))
  = Some ("Pixel | 6600 | 3.0 | 4.0" ++ NL ++ "Legacy | NA | NA | NA" ++ NL).
Proof.
  refine (proj1 (on_save_changes_frame sample_stage_two_file
                   (snd (StageTwoUI.on_save_changes sample_stage_two_file)) _ _ _)).
  - vm_compute. reflexivity.
  - discriminate.
  - discriminate.
Defined.

(** ** The text of numbers *)

Section NumberText.

Lemma digit_is_float_char c : digit_char c = true -> float_char c = true.
Proof.
  destruct c as [[] [] [] [] [] [] [] []]; vm_compute; intros H;
    (reflexivity || discriminate H).
Qed.

Lemma float_char_plain c :
  float_char c = true ->
  isspace c = false /\ is_not ":" c = true /\ is_not "," c = true /\
  is_not "|" c = true /\ is_not LF c = true /\ is_not CR c = true.
Proof.
  destruct c as [[] [] [] [] [] [] [] []]; vm_compute; intros H;
    (discriminate H || auto 6).
Qed.

Lemma digits_of_uint u :
  all_chars digit_char (DecimalString.NilEmpty.string_of_uint u) = true.
Proof. induction u; simpl; auto. Qed.

Lemma digits_of_dec n : all_chars digit_char (dec n) = true.
Proof.
  unfold dec, DecimalString.NilZero.string_of_uint.
  destruct (N.to_uint (Z.to_N n)) eqn:E; try reflexivity;
    rewrite <- E; apply digits_of_uint.
Qed.

Lemma digits_of_zeros n : all_chars digit_char (zeros n) = true.
Proof. induction n; simpl; auto. Qed.

Lemma all_chars_substring p n m s :
  all_chars p s = true -> all_chars p (String.substring n m s) = true.
Proof.
  revert n m. induction s as [|c s IH]; intros n m H.
  - destruct n, m; reflexivity.
  - simpl in H. apply andb_true_iff in H as [Hc Hs].
    destruct n as [|n].
    + destruct m as [|m]; [reflexivity|]. simpl. now rewrite Hc, IH.
    + simpl. now apply IH.
Qed.

Lemma all_chars_rstrip_zeros p s :
  all_chars p s = true -> all_chars p (rstrip_zeros s) = true.
Proof.
  induction s as [|c s IH]; simpl; [reflexivity|].
  intros H. apply andb_true_iff in H as [Hc Hs].
  specialize (IH Hs).
  destruct (rstrip_zeros s).
  - destruct (Ascii.eqb c "0"); simpl; [reflexivity | now rewrite Hc].
  - simpl in *. now rewrite Hc, IH.
Qed.

Lemma digits_of_shortest fuel : forall x neg num den k n,
  all_chars digit_char (fst (shortest_digits fuel x neg num den k n)) = true.
Proof.
  induction fuel as [|f IH]; intros x neg num den k n; simpl;
    repeat match goal with
           | |- context [if ?b then _ else _] => destruct b
           | |- context [match ?c with Eq => _ | Lt => _ | Gt => _ end] => destruct c
           end;
    simpl; try apply all_chars_rstrip_zeros; try apply digits_of_dec; apply IH.
Qed.

Ltac float_chars :=
  repeat (rewrite all_chars_app; apply andb_true_iff; split);
  first [ reflexivity
        | apply all_chars_substring; assumption
        | assumption
        | apply (all_chars_impl digit_char); [exact digit_is_float_char|];
          first [apply digits_of_dec | apply digits_of_zeros] ].

Lemma float_chars_of_format_1f x : all_chars float_char (format_1f x) = true.
Proof.
  destruct x as [[]|[]| |s m e]; try reflexivity.
  unfold format_1f. destruct s; unfold sign_str; float_chars.
Qed.

Lemma float_chars_of_repr x : all_chars float_char (repr x) = true.
Proof.
  destruct x as [[]|[]| |s m e]; try reflexivity.
  unfold repr.
  destruct (if 0 <=? e then _ else _) as [num den].
  pose proof (digits_of_shortest 16 (S754_finite s m e) s num den
                (decimal_point 640 num den (-324)) 1) as Hds.
  destruct (shortest_digits _ _ _ _ _ _ _) as [ds decpt].
  cbn [fst] in Hds.
  apply (all_chars_impl _ _ _ digit_is_float_char) in Hds.
  assert (Hsign : all_chars float_char (sign_str s) = true) by now destruct s.
  rewrite all_chars_app, Hsign. cbn [andb].
  repeat match goal with
         | |- context [if ?b then _ else _] => destruct b
         end; float_chars.
Qed.

End NumberText.

(** ** Lines and fields *)

Section LinesAndFields.

Lemma is_not_eqb x c : is_not x c = true -> Ascii.eqb c x = false.
Proof. unfold is_not. now destruct (Ascii.eqb c x). Qed.

Lemma split_no_sep sep a :
  all_chars (is_not sep) a = true -> split sep a = [a].
Proof.
  induction a as [|c a IH]; simpl; [reflexivity|].
  intros H. apply andb_true_iff in H as [Hc Ha].
  now rewrite (is_not_eqb _ _ Hc), (IH Ha).
Qed.

Lemma split_app_sep sep a b :
  all_chars (is_not sep) a = true ->
  split sep (a ++ String sep b) = a :: split sep b.
Proof.
  induction a as [|c a IH]; simpl.
  - intros _. now rewrite Ascii.eqb_refl.
  - intros H. apply andb_true_iff in H as [Hc Ha].
    now rewrite (is_not_eqb _ _ Hc), (IH Ha).
Qed.

Lemma split_nonempty sep s : split sep s <> [].
Proof.
  destruct s as [|c s]; simpl; [discriminate|].
  destruct (Ascii.eqb c sep); [discriminate|].
  destruct (split sep s); discriminate.
Qed.

(** The parts of a split are free of the separator and inherit whatever
    holds of every character of the text. *)
Lemma split_parts p sep s :
  all_chars p s = true ->
  Forall (fun part => all_chars p part = true /\ all_chars (is_not sep) part = true)
         (split sep s).
Proof.
  induction s as [|c s IH]; simpl.
  - intros _. constructor; auto.
  - intros H. apply andb_true_iff in H as [Hc Hs]. specialize (IH Hs).
    destruct (Ascii.eqb c sep) eqn:Hsep.
    + constructor; auto.
    + destruct (split sep s) as [|part parts]; constructor.
      * simpl. unfold is_not. rewrite Hc, Hsep. simpl. auto.
      * constructor.
      * inversion IH as [|? ? [H1 H2] ?]; subst. simpl.
        unfold is_not at 1. rewrite Hc, Hsep, H1, H2. auto.
      * inversion IH; subst; assumption.
Qed.

Lemma universal_newlines_id s :
  all_chars (is_not CR) s = true -> universal_newlines s = s.
Proof.
  induction s as [|c s IH]; simpl; [reflexivity|].
  intros H. apply andb_true_iff in H as [Hc Hs].
  now rewrite (is_not_eqb _ _ Hc), (IH Hs).
Qed.

Lemma splitlines_app b rest :
  all_chars (is_not LF) b = true ->
  splitlines_keepends (b ++ String LF rest) = (b ++ NL) :: splitlines_keepends rest.
Proof.
  induction b as [|c b IH]; simpl.
  - intros _. reflexivity.
  - intros H. apply andb_true_iff in H as [Hc Hb].
    now rewrite (is_not_eqb _ _ Hc), (IH Hb).
Qed.

Lemma rstrip_nonspace s :
  all_chars (fun c => negb (isspace c)) s = true -> rstrip s = s.
Proof.
  induction s as [|c s IH]; simpl; [reflexivity|].
  intros H. apply andb_true_iff in H as [Hc Hs].
  rewrite (IH Hs). apply negb_true_iff in Hc. rewrite Hc. now destruct s.
Qed.

Lemma all_chars_lstrip p s : all_chars p s = true -> all_chars p (lstrip s) = true.
Proof.
  induction s as [|c s IH]; simpl; [reflexivity|].
  intros H. apply andb_true_iff in H as [Hc Hs].
  destruct (isspace c); [auto | simpl; now rewrite Hc, Hs].
Qed.

Lemma all_chars_rstrip p s : all_chars p s = true -> all_chars p (rstrip s) = true.
Proof.
  induction s as [|c s IH]; simpl; [reflexivity|].
  intros H. apply andb_true_iff in H as [Hc Hs]. specialize (IH Hs).
  destruct (rstrip s).
  - destruct (isspace c); simpl; [reflexivity | now rewrite Hc].
  - simpl in *. now rewrite Hc, IH.
Qed.

Lemma all_chars_strip p s : all_chars p s = true -> all_chars p (strip s) = true.
Proof. intros H. now apply all_chars_rstrip, all_chars_lstrip. Qed.

Lemma lstrip_app_keep a b : lstrip a <> "" -> lstrip (a ++ b) = lstrip a ++ b.
Proof.
  induction a as [|c a IH]; simpl; [intros H; now elim H|].
  destruct (isspace c); [exact IH | reflexivity].
Qed.

Lemma lstrip_empty_all_space a : lstrip a = "" -> all_chars isspace a = true.
Proof.
  induction a as [|c a IH]; simpl; [reflexivity|].
  destruct (isspace c); [exact IH | discriminate].
Qed.

(** Trailing whitespace, a line end in particular, does not survive
    [strip]. *)
Lemma strip_app_space a b : all_chars isspace b = true -> strip (a ++ b) = strip a.
Proof.
  intros Hb. unfold strip.
  destruct (lstrip a) as [|c r] eqn:Ha.
  - rewrite lstrip_space_app by now apply lstrip_empty_all_space.
    now rewrite (lstrip_all_space b Hb).
  - rewrite lstrip_app_keep by (rewrite Ha; discriminate).
    rewrite Ha. now apply rstrip_app_space.
Qed.


Lemma strip_lstrip s : strip (lstrip s) = strip s.
Proof. unfold strip. now rewrite lstrip_idem. Qed.




End LinesAndFields.

(** ** The calibration file read back *)

Section CalibrationRoundTrip.

Lemma concat_cons x xs : String.concat "" (x :: xs) = x ++ String.concat "" xs.
Proof.
  destruct xs as [|y ys]; simpl; [now rewrite append_nil_r | reflexivity].
Qed.

Lemma calibration_line_body entry :
  calibration_line entry = calibration_body entry ++ NL.
Proof.
  destruct entry as [level c]. unfold calibration_line, calibration_body.
  simpl fst. simpl snd.
  now rewrite !append_assoc.
Qed.

Lemma plain_level_facts level :
  plain_level level = true ->
  lower level = level /\ lstrip level = level /\ rstrip level = level /\
  one_line level = true /\ all_chars (is_not ":") level = true.
Proof.
  unfold plain_level, stripped. intros H.
  apply andb_true_iff in H as [H Hcolon].
  apply andb_true_iff in H as [H Hone].
  apply andb_true_iff in H as [Hlow H].
  apply andb_true_iff in H as [Hl Hr].
  apply String.eqb_eq in Hlow, Hl, Hr. auto.
Qed.

Lemma one_line_facts s :
  one_line s = true ->
  all_chars (is_not LF) s = true /\ all_chars (is_not CR) s = true.
Proof.
  unfold one_line. intros H. split.
  - apply (all_chars_impl _ _ _ (fun c Hc => proj1 (proj1 (andb_true_iff _ _) Hc)) H).
  - apply (all_chars_impl _ _ _ (fun c Hc => proj2 (proj1 (andb_true_iff _ _) Hc)) H).
Qed.

(** What the text of a number is made of, as far as the file format cares. *)
Lemma repr_plain x :
  all_chars (fun c => negb (isspace c)) (repr x) = true /\
  all_chars (is_not ":") (repr x) = true /\
  all_chars (is_not ",") (repr x) = true /\
  all_chars (is_not LF) (repr x) = true /\
  all_chars (is_not CR) (repr x) = true.
Proof.
  pose proof (float_chars_of_repr x) as H.
  repeat split; apply (all_chars_impl float_char); try exact H; intros c Hc;
    destruct (float_char_plain c Hc) as (H1 & H2 & H3 & H4 & H5 & H6);
    try assumption.
  now rewrite H1.
Qed.

Lemma strip_calibration_line entry :
  plain_level (fst entry) = true ->
  strip (calibration_line entry) = calibration_body entry.
Proof.
  intros Hlevel. destruct entry as [level c]. simpl in Hlevel.
  destruct (plain_level_facts level Hlevel) as (_ & Hl & Hr & _ & _).
  destruct (repr_plain (white_balance c)) as (_ & _ & _ & _ & _).
  destruct (repr_plain (tint c)) as (Hns & _ & _ & _ & _).
  unfold strip, calibration_line, calibration_body. simpl fst. simpl snd.
  change (":" ++ ?x) with (String ":" x).
  change ("," ++ ?x) with (String "," x).
  rewrite lstrip_app_nonspace by reflexivity. rewrite Hl.
  rewrite rstrip_app_nonspace by reflexivity.
  rewrite rstrip_app_nonspace by reflexivity.
  rewrite rstrip_app_space by reflexivity.
  now rewrite (rstrip_nonspace _ Hns).
Qed.

Lemma parse_calibration_body entry :
  survives entry ->
  parse_calibration_line (calibration_body entry) = Ok entry.
Proof.
  intros (Hlevel & Hwb & Htint). destruct entry as [level [x y]].
  cbn [fst snd white_balance tint] in *.
  destruct (plain_level_facts level Hlevel) as (Hlow & Hl & Hr & _ & Hcolon).
  destruct (repr_plain x) as (_ & Hwc & Hwk & _ & _).
  destruct (repr_plain y) as (_ & Htc & Htk & _ & _).
  unfold parse_calibration_line, calibration_body.
  cbn [fst snd white_balance tint].
  change (":" ++ ?x) with (String ":" x).
  rewrite split_app_sep by exact Hcolon.
  rewrite split_no_sep
    by (rewrite all_chars_app, Hwc; change ("," ++ ?x) with (String "," x);
        simpl; exact Htc).
  change ("," ++ ?x) with (String "," x).
  rewrite split_app_sep by exact Hwk.
  rewrite split_no_sep by exact Htk.
  unfold reads_back in Hwb, Htint. rewrite Hwb, Htint. simpl.
  unfold strip. now rewrite Hl, Hr, Hlow.
Qed.

Lemma calibration_body_nonempty entry : String.eqb (calibration_body entry) "" = false.
Proof.
  unfold calibration_body. destruct (fst entry); reflexivity.
Qed.

Lemma calibration_body_one_line entry :
  plain_level (fst entry) = true ->
  all_chars (is_not LF) (calibration_body entry) = true /\
  all_chars (is_not CR) (calibration_body entry) = true.
Proof.
  intros Hlevel.
  destruct (plain_level_facts _ Hlevel) as (_ & _ & _ & Hone & _).
  destruct (one_line_facts _ Hone) as (Hlf & Hcr).
  destruct (repr_plain (white_balance (snd entry))) as (_ & _ & _ & Hwlf & Hwcr).
  destruct (repr_plain (tint (snd entry))) as (_ & _ & _ & Htlf & Htcr).
  unfold calibration_body.
  rewrite !all_chars_app, Hlf, Hcr, Hwlf, Hwcr, Htlf, Htcr. split; reflexivity.
Qed.

Lemma calibration_text_no_cr cal :
  Forall survives cal -> all_chars (is_not CR) (calibration_text cal) = true.
Proof.
  unfold calibration_text. induction 1 as [|entry cal Hs _ IH]; [reflexivity|].
  simpl map. rewrite concat_cons, calibration_line_body, !all_chars_app, IH.
  destruct Hs as (Hlevel & _).
  destruct (calibration_body_one_line entry Hlevel) as (_ & ->). reflexivity.
Qed.

Lemma readlines_calibration_text cal :
  Forall survives cal ->
  readlines (calibration_text cal) = map calibration_line cal.
Proof.
  intros Hcal. unfold readlines.
  rewrite universal_newlines_id by now apply calibration_text_no_cr.
  unfold calibration_text. induction Hcal as [|entry cal Hs _ IH]; [reflexivity|].
  simpl map. rewrite concat_cons, calibration_line_body.
  destruct Hs as (Hlevel & _).
  destruct (calibration_body_one_line entry Hlevel) as (Hlf & _).
  unfold NL. rewrite append_assoc. simpl append at 2.
  rewrite splitlines_app by exact Hlf.
  now rewrite IH.
Qed.

Lemma set_fresh {V} k (v : V) d :
  ~ In k (Dict.keys d) -> Dict.set k v d = (d ++ [(k, v)])%list.
Proof.
  induction d as [|[k' v'] d IH]; simpl; intros H; [reflexivity|].
  destruct (String.eqb_spec k k') as [->|Hne]; [tauto|].
  f_equal. apply IH. tauto.
Qed.

Lemma load_saved_lines cal : forall cv out,
  Forall survives cal ->
  NoDup (Dict.keys cv ++ Dict.keys cal) ->
  load_calibration_lines (map calibration_line cal) cv out = ((cv ++ cal)%list, out).
Proof.
  induction cal as [|entry cal IH]; intros cv out Hcal Hnd.
  - simpl. now rewrite app_nil_r.
  - inversion Hcal as [|? ? Hs Hrest]; subst.
    simpl map. cbn [load_calibration_lines].
    rewrite strip_calibration_line by apply Hs.
    rewrite calibration_body_nonempty, (parse_calibration_body entry Hs).
    destruct entry as [level c].
    assert (Hfresh : ~ In level (Dict.keys cv)).
    { intros Hin. simpl in Hnd. apply NoDup_remove_2 in Hnd.
      apply Hnd, in_or_app. now left. }
    rewrite (set_fresh _ _ _ Hfresh).
    rewrite IH; [now rewrite <- app_assoc | exact Hrest |].
    unfold Dict.keys in *. rewrite map_app. simpl in *.
    now rewrite <- app_assoc.
Qed.

(** Saving a calibration whose records survive the file and loading it
    again returns it, record for record and in order, and prints nothing. *)
Lemma calibration_round_trip (w : env) (cal : Dict.t calib) :
  NoDup (Dict.keys cal) ->
  Forall survives cal ->
  load_calibration_data (snd (save_calibration_data cal w)) =
  (Ok cal, snd (save_calibration_data cal w)).
Proof.
  intros Hnd Hcal. unfold load_calibration_data, save_calibration_data.
  cbn [snd print write_file calibration_file].
  rewrite (readlines_calibration_text cal Hcal).
  rewrite (load_saved_lines cal [] [] Hcal Hnd). reflexivity.
Qed.

End CalibrationRoundTrip.

(** ** Lines written, lines read *)

Section WrittenLines.

Lemma universal_newlines_no_cr s :
  all_chars (is_not CR) (universal_newlines s) = true.
Proof.
  enough (H : all_chars (is_not CR) (universal_newlines s) = true /\
              forall c, all_chars (is_not CR) (universal_newlines (String c s)) = true)
    by apply H.
  induction s as [|d s [IH1 IH2]].
  - split; [reflexivity|]. intros c. simpl.
    destruct (Ascii.eqb c CR) eqn:Hc; [reflexivity|].
    simpl. unfold is_not. now rewrite Hc.
  - split; [apply IH2|]. intros c.
    change (universal_newlines (String c (String d s))) with
      (if Ascii.eqb c CR then
         if Ascii.eqb d LF then String LF (universal_newlines s)
         else String LF (universal_newlines (String d s))
       else String c (universal_newlines (String d s))).
    destruct (Ascii.eqb c CR) eqn:Hc.
    + destruct (Ascii.eqb d LF); cbn [all_chars];
        [rewrite IH1 | rewrite (IH2 d)]; reflexivity.
    + cbn [all_chars]. rewrite (IH2 d). unfold is_not. now rewrite Hc.
Qed.

Lemma one_line_cons c s :
  Ascii.eqb c LF = false -> Ascii.eqb c CR = false ->
  one_line s = true -> one_line (String c s) = true.
Proof.
  intros H1 H2 Hs. unfold one_line in *. cbn [all_chars]. rewrite Hs.
  unfold is_not. now rewrite H1, H2.
Qed.

Lemma lines_ok_splitlines s :
  all_chars (is_not CR) s = true -> lines_ok (splitlines_keepends s).
Proof.
  induction s as [|c s IH]; simpl; [auto|].
  intros H. apply andb_true_iff in H as [Hc Hs]. specialize (IH Hs).
  apply is_not_eqb in Hc.
  destruct (Ascii.eqb c LF) eqn:Hlf.
  - simpl. split; [|exact IH]. left. exists "". split; reflexivity.
  - destruct (splitlines_keepends s) as [|l ls].
    + simpl. split; [|exact I]. right. split; [|reflexivity].
      split; [discriminate|]. now apply one_line_cons.
    + destruct IH as [[(body & -> & Hb) | ((Hne & Hl) & ->)] Hrest];
        (split; [|exact Hrest]).
      * left. exists (String c body). split; [reflexivity|].
        now apply one_line_cons.
      * right. split; [|reflexivity]. split; [discriminate|].
        now apply one_line_cons.
Qed.

Lemma lines_ok_readlines content : lines_ok (readlines content).
Proof. apply lines_ok_splitlines, universal_newlines_no_cr. Qed.

Lemma lines_ok_filter f ls : lines_ok ls -> lines_ok (filter f ls).
Proof.
  induction ls as [|l rest IH]; simpl; [auto|].
  intros [Hl Hrest]. specialize (IH Hrest).
  destruct (f l); [|exact IH].
  simpl. split; [|exact IH].
  destruct Hl as [Ht | [Hu ->]]; [now left | right; auto].
Qed.

Lemma lines_ok_map g ls :
  (forall l, In l ls -> g l = l \/ terminated (g l)) ->
  lines_ok ls -> lines_ok (map g ls).
Proof.
  induction ls as [|l rest IH]; simpl; [auto|].
  intros Hg [Hl Hrest]. split; [|apply IH; auto].
  destruct (Hg l (or_introl eq_refl)) as [-> | Ht]; [|now left].
  destruct Hl as [Ht | [Hu ->]]; [now left | right; auto].
Qed.

Lemma splitlines_single l :
  l <> "" -> all_chars (is_not LF) l = true -> splitlines_keepends l = [l].
Proof.
  induction l as [|c l IH]; [intros H; now elim H|].
  intros _ H. simpl in H. apply andb_true_iff in H as [Hc Hl].
  simpl. rewrite (is_not_eqb _ _ Hc).
  destruct l as [|d l]; [reflexivity|].
  now rewrite IH.
Qed.

Lemma lines_ok_no_cr ls :
  lines_ok ls -> all_chars (is_not CR) (String.concat "" ls) = true.
Proof.
  induction ls as [|l rest IH]; [reflexivity|].
  intros [Hl Hrest]. rewrite concat_cons, all_chars_app, (IH Hrest), andb_true_r.
  destruct Hl as [(body & -> & Hb) | ((_ & Hl) & _)].
  - rewrite all_chars_app. now destruct (one_line_facts _ Hb) as (_ & ->).
  - now destruct (one_line_facts _ Hl) as (_ & ->).
Qed.

(** Reading back what [writelines] wrote yields the lines written. *)
Lemma readlines_writelines ls : lines_ok ls -> readlines (writelines ls) = ls.
Proof.
  intros Hok. unfold readlines, writelines.
  rewrite universal_newlines_id by now apply lines_ok_no_cr.
  induction ls as [|l rest IH]; [reflexivity|].
  destruct Hok as [Hl Hrest]. rewrite concat_cons.
  destruct Hl as [(body & -> & Hb) | ((Hne & Hl) & ->)].
  - destruct (one_line_facts _ Hb) as (Hlf & _).
    unfold NL. rewrite append_assoc. simpl append at 2.
    rewrite splitlines_app by exact Hlf. now rewrite (IH Hrest).
  - simpl String.concat. rewrite append_nil_r.
    destruct (one_line_facts _ Hl) as (Hlf & _).
    now apply splitlines_single.
Qed.

(** The text of a line the loaders look at has no line break left. *)
Lemma strip_of_line ls l :
  lines_ok ls -> In l ls -> one_line (strip l) = true.
Proof.
  induction ls as [|x rest IH]; simpl; [tauto|].
  intros [Hx Hrest] [-> | Hin]; [|now apply IH].
  destruct Hx as [(body & -> & Hb) | ((_ & Hl) & _)].
  - rewrite strip_app_space by reflexivity. now apply all_chars_strip.
  - now apply all_chars_strip.
Qed.

End WrittenLines.

(** ** The profile file read back *)

Section ProfileRoundTrip.

Import StageTwoUI.

Lemma new_profile_line_shape P T W Ti :
  new_profile_line P T W Ti =
  (P ++ " ") ++ String "|"
    ((String " " T ++ " ") ++ String "|"
       ((String " " W ++ " ") ++ String "|" (String " " Ti ++ NL))).
Proof.
  unfold new_profile_line. rewrite !append_assoc. reflexivity.
Qed.



(** What a name taken from a line of the file looks like. *)
Lemma names_profile_facts ls l P :
  lines_ok ls -> In l ls -> names_profile P l = true ->
  strip l <> "" /\ strip P = P /\ plain_field P = true.
Proof.
  intros Hok Hin Hname. unfold names_profile in Hname.
  pose proof (strip_of_line ls l Hok Hin) as Hone.
  split.
  { intros He. rewrite He in Hname. discriminate Hname. }
  unfold profile_parts in Hname.
  pose proof (split_parts _ "|" _ Hone) as Hparts.
  destruct (split "|" (strip l)) as [|a [|b [|c [|d rest]]]]; try discriminate Hname.
  cbn [map] in Hname. apply String.eqb_eq in Hname. subst P.
  inversion Hparts as [|? ? [Ha1 Ha2] _]; subst.
  split; [apply strip_idem|].
  unfold plain_field. apply andb_true_iff. split.
  - now apply all_chars_strip.
  - now apply (all_chars_strip _ a).
Qed.

Lemma blank_names_nothing P l : strip l = "" -> names_profile P l = false.
Proof. intros H. unfold names_profile. now rewrite H. Qed.


End ProfileRoundTrip.

Section ProfileStored.

Import StageTwoUI.

Lemma update_profile_stores n T W Ti (s s2 : t) :
  update_profile n T W Ti s = (Ok tt, s2) ->
  exists w ti,
    float_of_str W = Ok w /\ float_of_str Ti = Ok ti /\
    holds_profile n (mk_profile T w ti) s2.
Proof.
  unfold update_profile, get_phone_profiles.
  cbv beta iota zeta delta [bind modify lift raise].
  destruct (phone_profiles s) as [d|]; [|discriminate].
  destruct (Dict.get n d) as [p|]; [|discriminate].
  destruct (float_of_str W) as [w|]; [|discriminate].
  destruct (float_of_str Ti) as [ti|]; [|discriminate].
  intros H. injection H as <-.
  exists w, ti. split; [reflexivity|]. split; [reflexivity|].
  eexists. split; [reflexivity|]. apply get_set_same.
Qed.

(** After the loop of [on_save_changes], the selected profile holds the
    saved record as soon as one line named it (or it held it before). *)
Lemma save_lines_stores sel lines : forall acc (s : t) r s1,
  save_lines sel lines acc s = (Ok r, s1) ->
  phone_profile_var s = sel ->
  existsb (names_profile sel) lines = true \/
  (exists p, saved_record s p /\ holds_profile sel p s) ->
  exists p, saved_record s p /\ holds_profile sel p s1.
Proof.
  induction lines as [|line rest IH]; intros acc s r s1 Hrun Hsel Hor.
  - simpl in Hrun. injection Hrun as _ <-.
    destruct Hor as [H|H]; [discriminate H | exact H].
  - simpl in Hrun. cbn [existsb] in Hor. unfold names_profile at 1 in Hor.
    destruct (String.eqb (strip line) "") eqn:Hblank.
    + apply String.eqb_eq in Hblank. rewrite Hblank in Hor.
      apply (IH _ _ _ _ Hrun Hsel). exact Hor.
    + destruct (profile_parts (strip line)) as [[[[name p2] p3] p4]|].
      * destruct (String.eqb name sel) eqn:Hname.
        -- cbv beta iota zeta delta [bind gets] in Hrun.
           destruct (update_profile_only name (strip (phone_temp_var s))
                       (format_1f (user_wb_var s)) (format_1f (user_tint_var s)) s)
             as [x Hx].
           destruct (update_profile name (strip (phone_temp_var s))
                       (format_1f (user_wb_var s)) (format_1f (user_tint_var s)) s)
             as [[[]|e] s2] eqn:Hup; [|discriminate Hrun].
           cbn [snd] in Hx. subst s2.
           apply String.eqb_eq in Hname. subst name.
           apply update_profile_stores in Hup as (w & ti & Hw & Hti & Hholds).
           apply (IH _ _ _ _ Hrun Hsel). right.
           exists (mk_profile (strip (phone_temp_var s)) w ti).
           split; [|exact Hholds]. repeat split; assumption.
        -- apply (IH _ _ _ _ Hrun Hsel). exact Hor.
      * apply (IH _ _ _ _ Hrun Hsel). exact Hor.
Qed.

Lemma on_save_changes_result (s s' : t) :
  on_save_changes s = (Ok tt, s') ->
  phone_file_var s <> "" ->
  phone_file_var s <> "No files found" ->
  exists x new_lines,
    save_lines (phone_profile_var s) (profile_file_lines s) [] s
      = (Ok new_lines, set_phone_profiles x s) /\
    new_lines = map (rewritten s)
                  (filter (fun l => negb (is_blank l)) (profile_file_lines s)) /\
    s' = set_world
           (print ProfileChangesSaved
              (write_file (CCT_FILE (phone_file_var s)) (writelines new_lines) (world s)))
           (set_phone_profiles x s).
Proof.
  intros Hrun Hne Hnf.
  unfold on_save_changes in Hrun.
  cbv beta iota zeta delta [bind gets] in Hrun.
  destruct (String.eqb_spec (phone_file_var s) ""); [contradiction|].
  unfold mem, existsb in Hrun.
  destruct (String.eqb_spec (phone_file_var s) "No files found"); [contradiction|].
  cbn [orb] in Hrun.
  fold (profile_file_lines s) in Hrun.
  destruct (save_lines (phone_profile_var s) (profile_file_lines s) [] s)
    as [[new_lines|e] s1] eqn:Hsave; [|discriminate Hrun].
  pose proof (save_lines_spec _ _ _ _ _ _ Hsave eq_refl) as ((x & ->) & Hnew).
  cbv beta iota zeta delta [modify] in Hrun.
  injection Hrun as <-.
  exists x, new_lines. split; [reflexivity|]. split; [exact Hnew|]. reflexivity.
Qed.

Lemma on_phone_profile_change_keeps_profiles v (s : t) :
  phone_profiles (snd (on_phone_profile_change v s)) = phone_profiles s.
Proof.
  unfold on_phone_profile_change, get_phone_profiles.
  cbv beta iota zeta delta [bind].
  destruct (phone_profiles s) as [d|] eqn:Hp; [|exact Hp].
  destruct (Dict.get v d) as [p|];
    cbv beta iota zeta delta [bind modify ret lift];
    [destruct (scale_set (wb_correction p)) as [wb|e]; [|exact Hp];
     destruct (scale_set (tint_correction p)) as [ti|e]; [|exact Hp] |];
    rewrite update_background_eq;
    match goal with |- context [paints ?c ?st] =>
      destruct (paints_keeps_vars c st) as (_ & _ & _ & -> & _) end;
    exact Hp.
Qed.



End ProfileStored.

Section ProfileReload.

Import StageTwoUI.

Lemma format_1f_plain x :
  all_chars (is_not "|") (format_1f x) = true /\ one_line (format_1f x) = true.
Proof.
  pose proof (float_chars_of_format_1f x) as H. split.
  - apply (all_chars_impl float_char); [|exact H].
    intros c Hc. now destruct (float_char_plain c Hc) as (_ & _ & _ & ? & _).
  - apply (all_chars_impl float_char); [|exact H].
    intros c Hc. destruct (float_char_plain c Hc) as (_ & _ & _ & _ & H5 & H6).
    now rewrite H5, H6.
Qed.

Lemma plain_field_facts x :
  plain_field x = true -> all_chars (is_not "|") x = true /\ one_line x = true.
Proof. unfold plain_field. intros H. now apply andb_true_iff in H. Qed.

Lemma one_line_app a b : one_line (a ++ b) = one_line a && one_line b.
Proof. apply all_chars_app. Qed.



Lemma profile_file_lines_ok (s : t) : lines_ok (profile_file_lines s).
Proof.
  unfold profile_file_lines. destruct (read_file _ _); [|exact I].
  apply lines_ok_readlines.
Qed.


End ProfileReload.

(** ** The numbers of the scales read back *)

Section ScalePositions.

Lemma float_eqb_eq x y : float_eqb x y = true -> x = y.
Proof.
  destruct x as [a|a| |a m e], y as [b|b| |b m' e']; simpl; try discriminate.
  - intros H. apply Bool.eqb_prop in H. now subst.
  - intros H. apply Bool.eqb_prop in H. now subst.
  - reflexivity.
  - intros H. apply andb_true_iff in H as [H He].
    apply andb_true_iff in H as [Hs Hm].
    apply Bool.eqb_prop in Hs. apply Pos.eqb_eq in Hm. apply Z.eqb_eq in He.
    now subst.
Qed.

Lemma pow10_ge1 k : 0 <= k -> 1 <= 10 ^ k.
Proof. intros H. pose proof (Z.pow_pos_nonneg 10 k ltac:(lia) H). lia. Qed.

(** A number below [10^j] is below every later power of ten. *)
Lemma below_pow10_mono num den j j' :
  0 <= num -> 0 < den -> j <= j' ->
  below_pow10 num den j = true -> below_pow10 num den j' = true.
Proof.
  intros Hn Hd Hj. unfold below_pow10.
  destruct (Z.leb_spec 0 j) as [H0|H0], (Z.leb_spec 0 j') as [H0'|H0'];
    rewrite !Z.ltb_lt; intros H; try lia.
  - assert (10 ^ j <= 10 ^ j') by (apply Z.pow_le_mono_r; lia). nia.
  - pose proof (pow10_ge1 (- j) ltac:(lia)). pose proof (pow10_ge1 j' H0'). nia.
  - assert (10 ^ (- j') <= 10 ^ (- j)) by (apply Z.pow_le_mono_r; lia). nia.
Qed.

(** The search for the decimal point may start at any power of ten the
    number is not below. *)
Lemma decimal_point_skip n : forall fuel num den k,
  0 <= num -> 0 < den ->
  below_pow10 num den (k + Z.of_nat n - 1) = false ->
  decimal_point (n + fuel) num den k = decimal_point fuel num den (k + Z.of_nat n).
Proof.
  induction n as [|n IH]; intros fuel num den k Hn Hd Hb.
  - simpl. f_equal. lia.
  - change (S n + fuel)%nat with (S (n + fuel)). cbn [decimal_point].
    assert (Hk : below_pow10 num den k = false).
    { destruct (below_pow10 num den k) eqn:H; [|reflexivity].
      rewrite (below_pow10_mono num den k (k + Z.of_nat (S n) - 1) Hn Hd) in Hb;
        [discriminate Hb | lia | exact H]. }
    rewrite Hk, IH; [f_equal; lia | exact Hn | exact Hd |].
    now replace (k + 1 + Z.of_nat n - 1) with (k + Z.of_nat (S n) - 1) by lia.
Qed.

Lemma decimal_point_near num den :
  0 <= num -> 0 < den -> below_pow10 num den (-5) = false ->
  decimal_point 640 num den (-324) = decimal_point 320 num den (-4).
Proof.
  intros Hn Hd Hb.
  exact (decimal_point_skip 320 320 num den (-324) Hn Hd Hb).
Qed.

Lemma repr_near x : not_tiny x = true -> repr x = repr_from 320 (-4) x.
Proof.
  destruct x as [a|a| |a m e]; [reflexivity | reflexivity | reflexivity |].
  unfold not_tiny, repr, repr_from.
  destruct (0 <=? e) eqn:He; intros H; apply negb_true_iff in H.
  - rewrite decimal_point_near; [reflexivity | | lia | exact H].
    apply Z.leb_le in He. pose proof (Z.pow_nonneg 2 e ltac:(lia)). nia.
  - rewrite decimal_point_near; [reflexivity | lia | | exact H].
    apply Z.leb_gt in He. apply Z.pow_pos_nonneg; lia.
Qed.

Lemma reads_back_near_sound x : reads_back_near x = true -> reads_back x.
Proof.
  unfold reads_back_near, reads_back. intros H.
  apply andb_true_iff in H as [Hn H]. rewrite (repr_near x Hn).
  destruct (float_of_str (repr_from 320 (-4) x)) as [y|e]; [|discriminate H].
  now rewrite (float_eqb_eq y x H).
Qed.

Lemma in_scale_steps n : -500 <= n <= 500 -> In n scale_steps.
Proof.
  intros H. unfold scale_steps. apply in_map_iff.
  exists (Z.to_nat (n + 500)). split; [lia|]. apply in_seq. lia.
Qed.

(** Every position of the scales is a number whose [repr] reads back. *)
Lemma scale_position_reads_back x : scale_position x -> reads_back x.
Proof.
  intros (n & Hn & ->). apply reads_back_near_sound.
  assert (Hall : forallb (fun n => reads_back_near (tenth n)) scale_steps = true)
    by (vm_compute; reflexivity).
  rewrite forallb_forall in Hall. apply Hall. now apply in_scale_steps.
Qed.

Lemma level_names_plain level : In level level_names -> plain_level level = true.
Proof.
  simpl. intros [<- | [<- | [<- | [<- | [<- | []]]]]]; reflexivity.
Qed.

Lemma scale_record_survives entry : scale_record entry -> survives entry.
Proof.
  intros (Hl & Hw & Ht). split; [now apply level_names_plain|].
  split; now apply scale_position_reads_back.
Qed.

(** Saving the records of the wizard and loading them again returns them,
    record for record and in order, and prints nothing. *)
Lemma scale_records_round_trip (w : env) (cal : Dict.t calib) :
  NoDup (Dict.keys cal) ->
  Forall scale_record cal ->
  load_calibration_data (snd (save_calibration_data cal w)) =
  (Ok cal, snd (save_calibration_data cal w)).
Proof.
  intros Hnd Hcal. apply calibration_round_trip; [exact Hnd|].
  apply Forall_impl with (2 := Hcal). exact scale_record_survives.
Qed.

End ScalePositions.

(** ** Persistence *)



Lemma sample_calibration_records : Forall scale_record sample_calibration.
Proof.
  assert (H0 : scale_position fzero) by (exists 0; split; [lia | reflexivity]).
  assert (H125 : scale_position (fdiv (F 25) (F 2)))
    by (exists 125; split; [lia | reflexivity]).
  assert (H30 : scale_position (F (-3)))
    by (exists (-30); split; [lia | reflexivity]).
  unfold sample_calibration.
  repeat (apply Forall_cons;
          [split; [cbn; repeat (first [left; reflexivity | right])
                  | split; assumption] |]).
  apply Forall_nil.
Qed.


(* ===================================================================== *)
(** * Part IV.  Further properties of the code                            *)
(* ===================================================================== *)

(** ** Colours *)

Section MoreColour.

Lemma in_byte_values z : 0 <= z <= 255 -> In z byte_values.
Proof.
  intros Hz. unfold byte_values. apply in_map_iff.
  exists (Z.to_nat z). split; [lia|]. apply in_seq. lia.
Qed.

Lemma format_02x_byte z :
  0 <= z <= 255 ->
  String.length (format_02x z) = 2%nat /\
  all_chars hex_digit_char (format_02x z) = true.
Proof.
  intros Hz.
  assert (Hall : forallb format_02x_ok byte_values = true) by (vm_compute; reflexivity).
  pose proof (proj1 (forallb_forall _ _) Hall z (in_byte_values z Hz)) as H.
  unfold format_02x_ok in H. apply andb_true_iff in H as [Hl Hc].
  apply Nat.eqb_eq in Hl. auto.
Qed.

Lemma length_append a b :
  String.length (a ++ b) = (String.length a + String.length b)%nat.
Proof. induction a as [|c a IH]; simpl; [reflexivity | now rewrite IH]. Qed.

Lemma fadd_fneg x y : fadd x (fneg y) = fsub x y.
Proof.
  destruct x as [[]|[]| |sx mx ex], y as [[]|[]| |sy my ey]; try reflexivity.
  unfold fadd, fsub, fneg, SFadd, SFsub, SFopp.
  f_equal. destruct sy; simpl negb; unfold cond_Zopp; lia.
Qed.

Lemma fsub_fneg x y : fsub x (fneg y) = fadd x y.
Proof.
  destruct x as [[]|[]| |sx mx ex], y as [[]|[]| |[] my ey]; try reflexivity;
    unfold fadd, fsub, fneg, SFadd, SFsub, SFopp;
    f_equal; simpl negb; unfold cond_Zopp; lia.
Qed.

Lemma py_add_fneg base g : py_add base (PyFloat (fneg g)) = py_sub base (PyFloat g).
Proof.
  destruct base as [a|f]; simpl; [|now rewrite fadd_fneg].
  destruct (of_int a); simpl; [now rewrite fadd_fneg | reflexivity].
Qed.

Lemma py_sub_fneg base g : py_sub base (PyFloat (fneg g)) = py_add base (PyFloat g).
Proof.
  destruct base as [a|f]; simpl; [|now rewrite fsub_fneg].
  destruct (of_int a); simpl; [now rewrite fsub_fneg | reflexivity].
Qed.

End MoreColour.

(** X1. Whatever [compute_color] returns is a colour Tk accepts: a ["#"]
    followed by exactly six lower-case hexadecimal digits. *)
Theorem compute_color_is_hex_colour (base wb tint : pynum) (c : string) :
  compute_color base wb tint = Ok c ->
  exists body,
    c = String "#" body /\
    String.length body = 6%nat /\
    all_chars hex_digit_char body = true.
Proof.
  unfold compute_color.
  destruct (compute_channels base wb tint) as [[[r g] b]|e] eqn:Hch; [|discriminate].
  simpl. intros H. injection H as <-.
  apply compute_channels_split in Hch as (Hr & Hg & Hb).
  assert (Rr : 0 <= r <= 255).
  { destruct (py_add base wb); [|discriminate]. simpl in Hr.
    now apply clamp_bounds in Hr. }
  assert (Rg : 0 <= g <= 255).
  { destruct (py_add base tint); [|discriminate]. simpl in Hg.
    now apply clamp_bounds in Hg. }
  assert (Rb : 0 <= b <= 255).
  { destruct (py_sub base wb); [|discriminate]. simpl in Hb.
    now apply clamp_bounds in Hb. }
  destruct (format_02x_byte r Rr) as (Lr & Cr).
  destruct (format_02x_byte g Rg) as (Lg & Cg).
  destruct (format_02x_byte b Rb) as (Lb & Cb).
  exists (format_02x r ++ format_02x g ++ format_02x b).
  split; [reflexivity|]. split.
  - now rewrite !length_append, Lr, Lg, Lb.
  - now rewrite !all_chars_app, Cr, Cg, Cb.
Qed.

Lemma compute_color_is_hex_colour_witness :
  exists body,
    "#ff0000" = String "#" body /\
    String.length body = 6%nat /\
    all_chars hex_digit_char body = true.
Proof.
  apply (compute_color_is_hex_colour (PyInt 255) (PyFloat (F 1000)) (PyFloat (F (-500)))).
  reflexivity.
Defined.

(** X2. With both corrections at zero (of either sign) and a base value of
    one byte, each of the three channels is the base value itself: the
    swatch is the neutral gray of that level. *)
Theorem compute_color_neutral (b : Z) (s1 s2 : bool) :
  0 <= b <= 255 ->
  compute_channels (PyInt b) (PyFloat (S754_zero s1)) (PyFloat (S754_zero s2))
  = Ok (b, b, b).
Proof.
  intros Hb.
  assert (Hall : forallb neutral_ok byte_values = true) by (vm_compute; reflexivity).
  pose proof (proj1 (forallb_forall _ _) Hall b (in_byte_values b Hb)) as H.
  unfold neutral_ok in H.
  pose proof (proj1 (forallb_forall _ _) H (s1, s2)) as H'.
  cbn [fst snd] in H'.
  destruct (compute_channels (PyInt b) (PyFloat (S754_zero s1))
              (PyFloat (S754_zero s2))) as [[[r g] b']|e].
  - assert (Hin : In (s1, s2) [(false, false); (false, true); (true, false); (true, true)])
      by (destruct s1, s2; simpl; auto).
    specialize (H' Hin).
    apply andb_true_iff in H' as [H' H3]. apply andb_true_iff in H' as [H1 H2].
    apply Z.eqb_eq in H1, H2, H3. now subst.
  - assert (Hin : In (s1, s2) [(false, false); (false, true); (true, false); (true, true)])
      by (destruct s1, s2; simpl; auto).
    specialize (H' Hin). discriminate H'.
Qed.

Lemma compute_color_neutral_witness :
  compute_channels (PyInt 192) (PyFloat fzero) (PyFloat (S754_zero true))
  = Ok (192, 192, 192).
Proof. apply (compute_color_neutral 192 false true). lia. Defined.

(** X3. Negating the white-balance correction exchanges the red and the
    blue channel and leaves the green one alone. *)
Theorem compute_color_negated_white_balance
    (base tint : pynum) (wb : float) (r g b : Z) :
  compute_channels base (PyFloat wb) tint = Ok (r, g, b) ->
  compute_channels base (PyFloat (fneg wb)) tint = Ok (b, g, r).
Proof.
  intros H. apply compute_channels_split in H as (Hr & Hg & Hb).
  apply compute_channels_split.
  rewrite py_add_fneg, py_sub_fneg. auto.
Qed.

Lemma compute_color_negated_white_balance_witness :
  compute_channels (PyInt 128) (PyFloat (fneg (F 10))) (PyFloat (F (-5)))
  = Ok (118, 123, 138).
Proof.
  apply (compute_color_negated_white_balance (PyInt 128) (PyFloat (F (-5))) (F 10)).
  reflexivity.
Defined.

(** X4. [clamp] is idempotent, and on integers it is monotone: a larger
    value never clamps to a smaller one. *)
Theorem clamp_idempotent_monotone (lo hi : Z) :
  lo <= hi ->
  (forall value r, clamp value lo hi = Ok r -> clamp (PyInt r) lo hi = Ok r) /\
  (forall a b ra rb, a <= b ->
     clamp (PyInt a) lo hi = Ok ra -> clamp (PyInt b) lo hi = Ok rb -> ra <= rb).
Proof.
  intros Hlh. split.
  - intros value r H. pose proof (clamp_bounds _ _ _ _ Hlh H) as Hr.
    unfold clamp. simpl. f_equal. lia.
  - intros a b ra rb Hab Ha Hb. unfold clamp in Ha, Hb. simpl in Ha, Hb.
    injection Ha as <-. injection Hb as <-. lia.
Qed.

Lemma clamp_idempotent_monotone_witness :
  clamp (PyInt 255) 0 255 = Ok 255.
Proof.
  apply (proj1 (clamp_idempotent_monotone 0 255 ltac:(lia))
           (PyFloat (F 1255)) 255).
  reflexivity.
Defined.

(** ** Placement of the overlay *)

(** X5. [center_overlay] centres the overlay to the pixel: on each axis the
    right (bottom) margin exceeds the left (top) one by 0 or 1; and when the
    overlay fits on the screen the geometry is ["+x+y"] with both offsets
    written without a sign. *)
Theorem center_overlay_centred (sw sh ow oh : Z) :
  let '(x, y) := overlay_position sw sh ow oh in
  0 <= (sw - ow - x) - x <= 1 /\
  0 <= (sh - oh - y) - y <= 1 /\
  (ow <= sw -> oh <= sh ->
   0 <= x /\ 0 <= y /\
   center_overlay sw sh ow oh = "+" ++ dec x ++ "+" ++ dec y).
Proof.
  unfold center_overlay, overlay_position. cbv zeta.
  pose proof (Z.div_mod (sw - ow) 2 ltac:(lia)) as Hx.
  pose proof (Z.mod_pos_bound (sw - ow) 2 ltac:(lia)) as Hxb.
  pose proof (Z.div_mod (sh - oh) 2 ltac:(lia)) as Hy.
  pose proof (Z.mod_pos_bound (sh - oh) 2 ltac:(lia)) as Hyb.
  split; [lia|]. split; [lia|].
  intros Hw Hh.
  assert (Hx0 : 0 <= (sw - ow) / 2) by (apply Z.div_pos; lia).
  assert (Hy0 : 0 <= (sh - oh) / 2) by (apply Z.div_pos; lia).
  split; [exact Hx0|]. split; [exact Hy0|].
  unfold str_int.
  destruct (Z.ltb_spec ((sw - ow) / 2) 0); [lia|].
  destruct (Z.ltb_spec ((sh - oh) / 2) 0); [lia|].
  reflexivity.
Qed.

Lemma center_overlay_centred_witness :
  center_overlay 1920 1080 421 200 = "+749+440".
Proof.
  pose proof (center_overlay_centred 1920 1080 421 200) as H.
  cbv beta iota zeta delta [overlay_position] in H.
  destruct H as (_ & _ & H).
  destruct H as (_ & _ & ->); [lia | lia |].
  vm_compute. reflexivity.
Defined.

(** ** The wizard's preview and what it records *)

Section WizardMore.

Import CalibrationApp.

Lemma preview_after_update (s : t) : preview_ok (snd (update_background s)).
Proof.
  rewrite wizard_update_background_eq. unfold preview_ok.
  destruct (compute_color (PyInt (current_base s)) (PyFloat (current_wb s))
              (PyFloat (current_tint s))) as [c0|e] eqn:Hc; cbn [snd].
  - intros c. unfold set_root_bg.
    cbn [current_base current_wb current_tint root_bg].
    rewrite Hc. intros H. now injection H.
  - intros c H. rewrite Hc in H. discriminate H.
Qed.

Lemma on_next_repaints (s : t) :
  (S (current_index s) < 5)%nat ->
  on_next s = update_background (advanced s).
Proof.
  intros Hi. unfold on_next, advanced.
  cbv beta iota zeta delta [bind gets modify].
  cbn [current_index set_current_index set_calibration_values].
  change (List.length brightness_levels) with 5%nat.
  destruct (Nat.ltb_spec (S (current_index s)) 5) as [_|Hge]; [|lia].
  destruct (nth (S (current_index s)) brightness_levels ("", 0)) as [level' base'].
  reflexivity.
Qed.

Lemma float_or_zero_reported val : float_or_zero val = Ok (reported val).
Proof.
  unfold float_or_zero, reported.
  destruct (float_of_str val) as [v|e] eqn:H; [reflexivity|].
  now rewrite (float_of_str_raises _ _ H).
Qed.

Lemma dispatch_move_wb_eq val (s : t) :
  overlay_alive s = true ->
  dispatch (MoveWb val) s =
  snd (update_background
         (set_current_wb (reported val) (set_wb_scale (shown val (wb_scale s)) s))).
Proof.
  intros Ha. unfold dispatch. rewrite Ha. unfold on_wb_change.
  cbv beta iota zeta delta [bind lift modify].
  now rewrite float_or_zero_reported.
Qed.

Lemma dispatch_move_tint_eq val (s : t) :
  overlay_alive s = true ->
  dispatch (MoveTint val) s =
  snd (update_background
         (set_current_tint (reported val) (set_tint_scale (shown val (tint_scale s)) s))).
Proof.
  intros Ha. unfold dispatch. rewrite Ha. unfold on_tint_change.
  cbv beta iota zeta delta [bind lift modify].
  now rewrite float_or_zero_reported.
Qed.

Lemma preview_ok_dispatch ev (s : t) : preview_ok s -> preview_ok (dispatch ev s).
Proof.
  intros Hs. destruct (overlay_alive s) eqn:Ha;
    [|unfold dispatch; now rewrite Ha].
  destruct ev as [val|val|].
  - rewrite dispatch_move_wb_eq by exact Ha. apply preview_after_update.
  - rewrite dispatch_move_tint_eq by exact Ha. apply preview_after_update.
  - unfold dispatch. rewrite Ha.
    destruct (Nat.lt_ge_cases (S (current_index s)) 5) as [Hlt|Hge].
    + rewrite on_next_repaints by exact Hlt. apply preview_after_update.
    + rewrite on_next_completes by exact Hge. exact Hs.
Qed.

(** A scale move stores the reported number and leaves the progress of the
    wizard alone. *)
Lemma after_move_wb val (s : t) :
  overlay_alive s = true ->
  let s' := dispatch (MoveWb val) s in
  current_wb s' = reported val /\ current_tint s' = current_tint s /\
  calibration_values s' = calibration_values s /\
  current_level s' = current_level s.
Proof.
  intros Ha s'. subst s'. rewrite dispatch_move_wb_eq by exact Ha.
  rewrite wizard_update_background_eq.
  destruct (compute_color _ _ _); cbn; auto.
Qed.

Lemma after_move_tint val (s : t) :
  overlay_alive s = true ->
  let s' := dispatch (MoveTint val) s in
  current_wb s' = current_wb s /\ current_tint s' = reported val /\
  calibration_values s' = calibration_values s /\
  current_level s' = current_level s.
Proof.
  intros Ha s'. subst s'. rewrite dispatch_move_tint_eq by exact Ha.
  rewrite wizard_update_background_eq.
  destruct (compute_color _ _ _); cbn; auto.
Qed.

Lemma after_next (s : t) :
  overlay_alive s = true ->
  calibration_values (dispatch PressNext s) =
  Dict.set (current_level s) (mk_calib (current_wb s) (current_tint s))
    (calibration_values s).
Proof.
  intros Ha. unfold dispatch. rewrite Ha.
  destruct (Nat.lt_ge_cases (S (current_index s)) 5) as [Hlt|Hge].
  - destruct (on_next_advances s Hlt) as [c ->]. unfold advanced.
    destruct (nth (S (current_index s)) brightness_levels ("", 0)). reflexivity.
  - now rewrite on_next_completes.
Qed.

Lemma combine_snoc {A} (names : list string) (xs : list A) (x : A) :
  (List.length xs < List.length names)%nat ->
  combine names (xs ++ [x]) =
  (combine names xs ++ [(nth (List.length xs) names "", x)])%list.
Proof.
  revert xs. induction names as [|n names IH]; intros xs Hlen; [simpl in Hlen; lia|].
  destruct xs as [|y xs]; simpl; [now destruct names|].
  f_equal. apply IH. simpl in Hlen. lia.
Qed.

(** The wizard run level by level: after the events of [todo], the records
    are those of the levels done so far, in order. *)
Lemma wizard_levels w todo : forall done (s : t),
  (List.length done + List.length todo <= 5)%nat ->
  wizard_inv w (List.length done) s ->
  calibration_values s = combine level_names (map reported_calib done) ->
  let s' := run (flat_map level_events todo) s in
  wizard_inv w (List.length done + List.length todo) s' /\
  calibration_values s' = combine level_names (map reported_calib (done ++ todo)).
Proof.
  induction todo as [|entry todo IH]; intros done s Hlen Hinv Hcv.
  - cbn. rewrite Nat.add_0_r, app_nil_r. auto.
  - cbn [List.length] in Hlen.
    set (n := List.length done) in *.
    assert (Hn : (n < 5)%nat) by lia.
    pose proof Hinv as (Hk & Hrest). rewrite (proj2 (Nat.ltb_lt n 5) Hn) in Hrest.
    destruct Hrest as (Ha & Hi & Hl & Hw & Hf).
    set (s1 := dispatch (MoveWb (fst entry)) s).
    set (s2 := dispatch (MoveTint (snd entry)) s1).
    set (s3 := dispatch PressNext s2).
    assert (Hinv1 : wizard_inv w n s1) by (now apply wizard_inv_move).
    assert (Hinv2 : wizard_inv w n s2) by (now apply wizard_inv_move).
    assert (Hinv3 : wizard_inv w (S n) s3).
    { pose proof (wizard_inv_next w n s2 Hinv2) as H.
      now replace (Nat.min 5 (S n)) with (S n) in H by lia. }
    destruct (after_move_wb (fst entry) s Ha) as (Hwb1 & Htint1 & Hcv1 & Hl1).
    fold s1 in Hwb1, Htint1, Hcv1, Hl1.
    pose proof Hinv1 as (_ & Hrest1). rewrite (proj2 (Nat.ltb_lt n 5) Hn) in Hrest1.
    destruct Hrest1 as (Ha1 & _).
    destruct (after_move_tint (snd entry) s1 Ha1) as (Hwb2 & Htint2 & Hcv2 & Hl2).
    fold s2 in Hwb2, Htint2, Hcv2, Hl2.
    pose proof Hinv2 as (_ & Hrest2). rewrite (proj2 (Nat.ltb_lt n 5) Hn) in Hrest2.
    destruct Hrest2 as (Ha2 & _).
    pose proof (after_next s2 Ha2) as Hcv3. fold s3 in Hcv3.
    rewrite Hwb2, Htint2, Hwb1, Hcv2, Hcv1, Hl2, Hl1, Hl in Hcv3.
    destruct (next_level_fresh n Hn) as (Hfresh & _).
    rewrite set_fresh in Hcv3 by (rewrite Hk; exact Hfresh).
    assert (Hcv3' : calibration_values s3 =
                    combine level_names (map reported_calib (done ++ [entry]))).
    { rewrite Hcv3, Hcv, map_app. cbn [map].
      rewrite combine_snoc by (rewrite length_map; exact Hn).
      rewrite length_map. reflexivity. }
    change (run (flat_map level_events (entry :: todo)) s)
      with (run (flat_map level_events todo) s3).
    assert (Hlen' : List.length (done ++ [entry])%list = S n)
      by (rewrite length_app; cbn [List.length]; unfold n; lia).
    pose proof (IH (done ++ [entry])%list s3) as IH'.
    rewrite Hlen' in IH'.
    assert (Hle : (S n + List.length todo <= 5)%nat) by lia.
    destruct (IH' Hle Hinv3 Hcv3') as (Hfin & Hcvfin).
    cbv zeta. cbn [List.length]. fold n.
    split.
    + now replace (n + S (List.length todo))%nat
        with (S n + List.length todo)%nat by lia.
    + now rewrite <- app_assoc in Hcvfin.
Qed.

End WizardMore.

(** In the wizard's own state the background follows the current level and
    corrections after every event. *)
Lemma preview_ok_run (w : env) (evs : list CalibrationApp.event) :
  preview_ok (CalibrationApp.run evs (CalibrationApp.init w)).
Proof.
  assert (H0 : preview_ok (CalibrationApp.init w)).
  { unfold CalibrationApp.init.
    destruct (nth 0%nat brightness_levels ("", 0)) as [level base].
    apply preview_after_update. }
  revert H0. generalize (CalibrationApp.init w).
  induction evs as [|ev evs IH]; intros s Hs; [exact Hs|].
  change (CalibrationApp.run (ev :: evs) s)
    with (CalibrationApp.run evs (CalibrationApp.dispatch ev s)).
  apply IH. now apply preview_ok_dispatch.
Qed.

(** X7. A wizard session in which, at each of the five levels, the scales
    report a white-balance text and a tint text before "Next" is pressed
    ends with exactly those numbers recorded under the five level names in
    order (0.0 where a text is not a number); that map is what the finish
    callback receives and what the calibration file holds. *)
Theorem wizard_records_reported_values (w : env) (entries : list (string * string)) :
  List.length entries = 5%nat ->
  let s := CalibrationApp.run (flat_map level_events entries) (CalibrationApp.init w) in
  let cal := combine level_names (map reported_calib entries) in
  CalibrationApp.calibration_values s = cal /\
  CalibrationApp.finished s = Some cal /\
  calibration_file (CalibrationApp.world s) = Some (calibration_text cal).
Proof.
  intros Hlen s cal.
  destruct (wizard_levels w entries [] (CalibrationApp.init w)) as (Hinv & Hcv).
  - simpl. lia.
  - apply wizard_inv_init.
  - reflexivity.
  - fold s in Hinv, Hcv. cbn [List.length app] in Hinv, Hcv.
    rewrite Hlen in Hinv. destruct Hinv as (_ & Hrest).
    change (0 + 5 <? 5)%nat with false in Hrest. cbv iota in Hrest.
    destruct Hrest as (_ & Hf & Hw).
    fold cal in Hcv. rewrite Hcv in Hf, Hw.
    split; [exact Hcv|]. split; [exact Hf|]. now rewrite Hw.
Qed.

Lemma wizard_records_reported_values_witness :
  CalibrationApp.finished
    (CalibrationApp.run (flat_map level_events sample_entries)
       (CalibrationApp.init empty_env))
  = Some [ ("black", mk_calib (fdiv (F 25) (F 2)) fzero);
           ("dark gray", mk_calib fzero (F (-3)));
           ("gray", mk_calib fzero fzero);
           ("light gray", mk_calib fzero fzero);
           ("white", mk_calib fzero fzero) ].
Proof.
  destruct (wizard_records_reported_values empty_env sample_entries eq_refl)
    as (_ & H & _).
  rewrite H. vm_compute. reflexivity.
Defined.

(** ** The settings screen: what its handlers leave alone *)

Section ScreenFrames.

Import StageTwoUI.

Lemma same_but_profiles_refl (s : t) : s = set_phone_profiles (phone_profiles s) s.
Proof. now destruct s. Qed.

(** The loop of [on_save_changes] changes [phone_profiles] and nothing
    else, whether it completes or raises. *)
Lemma save_lines_only sel lines : forall acc (s : t),
  exists x, snd (save_lines sel lines acc s) = set_phone_profiles x s.
Proof.
  induction lines as [|line rest IH]; intros acc s.
  - exists (phone_profiles s). apply same_but_profiles_refl.
  - simpl. destruct (String.eqb (strip line) ""); [apply IH|].
    destruct (profile_parts (strip line)) as [[[[name p2] p3] p4]|]; [|apply IH].
    destruct (String.eqb name sel); [|apply IH].
    cbv beta iota zeta delta [bind gets].
    destruct (update_profile_only name (strip (phone_temp_var s))
                (format_1f (user_wb_var s)) (format_1f (user_tint_var s)) s)
      as [x Hx].
    destruct (update_profile name (strip (phone_temp_var s))
                (format_1f (user_wb_var s)) (format_1f (user_tint_var s)) s)
      as [[[]|e] s2]; cbn [snd] in Hx; subst s2.
    + destruct (IH (acc ++ [new_profile_line name (strip (phone_temp_var s))
                              (format_1f (user_wb_var s))
                              (format_1f (user_tint_var s))])%list
                   (set_phone_profiles x s)) as [y Hy].
      exists y. rewrite Hy. reflexivity.
    + exists x. reflexivity.
Qed.

(** The loop of [load_phone_profiles] changes [phone_profiles] and nothing
    else, whether it completes or raises. *)
Lemma load_profile_lines_only lines : forall (s : t),
  exists x, snd (load_profile_lines lines s) = set_phone_profiles x s.
Proof.
  induction lines as [|line rest IH]; intros s.
  - exists (phone_profiles s). apply same_but_profiles_refl.
  - simpl. destruct (String.eqb (strip line) ""); [apply IH|].
    destruct (profile_parts (strip line)) as [[[[name p2] p3] p4]|]; [|apply IH].
    cbv beta iota zeta delta [bind lift modify].
    destruct (correction_of p3) as [wv|];
      [|exists (phone_profiles s); apply same_but_profiles_refl].
    destruct (correction_of p4) as [tv|];
      [|exists (phone_profiles s); apply same_but_profiles_refl].
    unfold get_phone_profiles.
    destruct (phone_profiles s) as [d|] eqn:Hd;
      [|exists None; cbn [snd]; rewrite <- Hd; apply same_but_profiles_refl].
    destruct (IH (set_phone_profiles
                    (Some (Dict.set name (mk_profile p2 wv tv) d)) s)) as [y Hy].
    exists y. rewrite Hy. reflexivity.
Qed.

Lemma update_background_world (s : t) :
  world (snd (update_background s)) = world s /\
  calibration_data (snd (update_background s)) = calibration_data s /\
  phone_file_var (snd (update_background s)) = phone_file_var s /\
  phone_profile_var (snd (update_background s)) = phone_profile_var s /\
  phone_profile_menu (snd (update_background s)) = phone_profile_menu s /\
  test_color_var (snd (update_background s)) = test_color_var s.
Proof.
  rewrite update_background_eq. unfold paints.
  destruct (compute_color _ _ _); cbn; auto 6.
Qed.

Lemma on_phone_profile_change_world v (s : t) :
  world (snd (on_phone_profile_change v s)) = world s /\
  calibration_data (snd (on_phone_profile_change v s)) = calibration_data s /\
  phone_file_var (snd (on_phone_profile_change v s)) = phone_file_var s /\
  phone_profile_var (snd (on_phone_profile_change v s)) = phone_profile_var s /\
  phone_profile_menu (snd (on_phone_profile_change v s)) = phone_profile_menu s /\
  test_color_var (snd (on_phone_profile_change v s)) = test_color_var s.
Proof.
  unfold on_phone_profile_change, get_phone_profiles.
  cbv beta iota zeta delta [bind].
  destruct (phone_profiles s) as [d|]; [|cbn; auto 6].
  destruct (Dict.get v d) as [p|];
    cbv beta iota zeta delta [bind modify ret lift];
    [destruct (scale_set (wb_correction p)) as [wb|e]; [|cbn; auto 6];
     destruct (scale_set (tint_correction p)) as [ti|e]; [|cbn; auto 6] |];
    match goal with |- context [update_background ?st] =>
      destruct (update_background_world st) as (-> & -> & -> & -> & -> & ->) end;
    cbn; auto 6.
Qed.

Lemma load_phone_profiles_world filename (s : t) :
  world (snd (load_phone_profiles filename s)) = world s /\
  calibration_data (snd (load_phone_profiles filename s)) = calibration_data s /\
  phone_file_var (snd (load_phone_profiles filename s)) = phone_file_var s /\
  test_color_var (snd (load_phone_profiles filename s)) = test_color_var s.
Proof.
  unfold load_phone_profiles.
  cbv beta iota zeta delta [bind modify gets].
  cbn [world set_phone_profiles].
  destruct (read_file (CCT_FILE filename) (world s)) as [content|]; [|cbn; auto].
  cbv beta iota zeta delta [bind].
  destruct (load_profile_lines_only (readlines content)
              (set_phone_profiles (Some []) s)) as [x Hx].
  destruct (load_profile_lines (readlines content) (set_phone_profiles (Some []) s))
    as [[[]|e] s1]; cbn [snd] in Hx; subst s1; [|cbn; auto].
  unfold get_phone_profiles. cbn [phone_profiles set_phone_profiles].
  destruct x as [d|]; [|cbn; auto].
  cbv beta iota zeta delta [modify].
  destruct (Dict.keys d) as [|first_profile rest]; [cbn; auto|].
  cbv beta iota zeta delta [bind modify].
  match goal with |- context [on_phone_profile_change ?v ?st] =>
    destruct (on_phone_profile_change_world v st) as (-> & -> & -> & _ & _ & ->) end.
  cbn. auto.
Qed.

End ScreenFrames.

(** X8. [on_save_changes] is all or nothing towards the outside world: when
    it raises, no file has been written and nothing printed; and with no
    profile file selected (an empty name or ["No files found"]) it returns
    without changing anything at all. *)
Theorem on_save_changes_all_or_nothing (s : StageTwoUI.t) :
  (forall e, fst (StageTwoUI.on_save_changes s) = Raise e ->
     StageTwoUI.world (snd (StageTwoUI.on_save_changes s)) = StageTwoUI.world s) /\
  (StageTwoUI.phone_file_var s = "" \/ StageTwoUI.phone_file_var s = "No files found" ->
     StageTwoUI.on_save_changes s = (Ok tt, s)).
Proof.
  split.
  - intros e. unfold StageTwoUI.on_save_changes.
    cbv beta iota zeta delta [bind gets].
    destruct (_ || _); [discriminate|].
    destruct (save_lines_only (StageTwoUI.phone_profile_var s)
                match read_file (CCT_FILE (StageTwoUI.phone_file_var s))
                        (StageTwoUI.world s) with
                | Some content => readlines content
                | None => []
                end [] s) as [x Hx].
    destruct (StageTwoUI.save_lines _ _ _ _) as [[new_lines|e'] s1];
      cbn [snd] in Hx; subst s1.
    + cbv beta iota zeta delta [modify]. discriminate.
    + intros _. reflexivity.
  - intros H. unfold StageTwoUI.on_save_changes.
    cbv beta iota zeta delta [bind gets].
    destruct H as [-> | ->]; reflexivity.
Qed.

Lemma on_save_changes_all_or_nothing_witness :
  StageTwoUI.on_save_changes
    (set_phone_file_var "No files found" sample_stage_two_file)
  = (Ok tt, set_phone_file_var "No files found" sample_stage_two_file).
Proof.
  apply (proj2 (on_save_changes_all_or_nothing
                  (set_phone_file_var "No files found" sample_stage_two_file))).
  right. reflexivity.
Defined.

(** X9. Choosing a test colour, a profile file or a profile, and moving a
    slider of the settings screen never write a file and never print: each
    of these handlers leaves the outside world and the monitor calibration
    as they were, whether it returns or raises. *)
Theorem settings_handlers_read_only (value : string) (s : StageTwoUI.t) :
  let unchanged (s' : StageTwoUI.t) :=
    StageTwoUI.world s' = StageTwoUI.world s /\
    StageTwoUI.calibration_data s' = StageTwoUI.calibration_data s in
  unchanged (snd (StageTwoUI.on_test_color_change value s)) /\
  unchanged (snd (StageTwoUI.on_slider_change value s)) /\
  unchanged (snd (StageTwoUI.on_phone_profile_change value s)) /\
  unchanged (snd (StageTwoUI.on_phone_file_change value s)).
Proof.
  cbv zeta.
  unfold StageTwoUI.on_test_color_change, StageTwoUI.on_slider_change.
  destruct (update_background_world s) as (Hw & Hc & _).
  destruct (on_phone_profile_change_world value s) as (Hw2 & Hc2 & _).
  split; [auto|]. split; [auto|]. split; [auto|].
  unfold StageTwoUI.on_phone_file_change. cbv beta iota zeta delta [bind].
  destruct (load_phone_profiles_world value s) as (Hw3 & Hc3 & _).
  destruct (StageTwoUI.load_phone_profiles value s) as [[[]|e] s1];
    cbn [snd] in *; [|auto].
  destruct (update_background_world s1) as (Hw4 & Hc4 & _).
  rewrite Hw4, Hc4. auto.
Qed.

(** ** Loading a profile file *)





(** ** Loading the calibration file *)

Section LoadCalibration.

Lemma lower_char_idem c : lower_char (lower_char c) = lower_char c.
Proof. destruct c as [[] [] [] [] [] [] [] []]; reflexivity. Qed.

Lemma isspace_lower_char c : isspace (lower_char c) = isspace c.
Proof. destruct c as [[] [] [] [] [] [] [] []]; reflexivity. Qed.

Lemma lower_idem s : lower (lower s) = lower s.
Proof.
  induction s as [|c s IH]; [reflexivity|].
  unfold lower in *. simpl. now rewrite lower_char_idem, IH.
Qed.

Lemma lstrip_lower s : lstrip (lower s) = lower (lstrip s).
Proof.
  induction s as [|c s IH]; [reflexivity|].
  unfold lower in *. simpl. rewrite isspace_lower_char.
  destruct (isspace c); [exact IH | reflexivity].
Qed.

Lemma rstrip_lower s : rstrip (lower s) = lower (rstrip s).
Proof.
  induction s as [|c s IH]; [reflexivity|].
  unfold lower in *. simpl. rewrite IH, isspace_lower_char.
  destruct (rstrip s); simpl; [now destruct (isspace c) | reflexivity].
Qed.

Lemma strip_lower s : strip (lower s) = lower (strip s).
Proof. unfold strip. now rewrite lstrip_lower, rstrip_lower. Qed.

Lemma parsed_level_normal line level c :
  parse_calibration_line line = Ok (level, c) ->
  lower level = level /\ strip level = level.
Proof.
  unfold parse_calibration_line.
  destruct (split ":" line) as [|l [|params [|x rest]]]; try discriminate.
  destruct (split "," params) as [|wb [|ti [|y rest]]]; try discriminate.
  destruct (float_of_str wb); [|discriminate].
  destruct (float_of_str ti); [|discriminate].
  simpl. intros H. injection H as <- _. split.
  - apply lower_idem.
  - now rewrite strip_lower, strip_idem.
Qed.

Lemma load_calibration_lines_app a : forall b cv out,
  load_calibration_lines (a ++ b) cv out =
  let '(cv1, out1) := load_calibration_lines a cv out in
  load_calibration_lines b cv1 out1.
Proof.
  induction a as [|line a IH]; intros b cv out; [reflexivity|].
  simpl. destruct (String.eqb (strip line) ""); [apply IH|].
  destruct (parse_calibration_line (strip line)) as [[level values]|e]; apply IH.
Qed.

Lemma load_calibration_lines_other level post : forall cv out,
  Forall (other_level level) post ->
  Dict.get level (fst (load_calibration_lines post cv out)) = Dict.get level cv.
Proof.
  induction post as [|line post IH]; intros cv out Hpost; [reflexivity|].
  inversion Hpost as [|? ? Hline Hrest]; subst.
  simpl. destruct (String.eqb (strip line) ""); [now apply IH|].
  destruct (parse_calibration_line (strip line)) as [[level0 values]|e] eqn:Hp;
    [|now apply IH].
  rewrite (IH _ _ Hrest). apply get_set_other.
  intros ->. exact (Hline values Hp).
Qed.

Lemma load_calibration_lines_out lines : forall cv out,
  snd (load_calibration_lines lines cv out) =
  (out ++ flat_map (fun line =>
                      let line := strip line in
                      if String.eqb line "" then []
                      else match parse_calibration_line line with
                           | Ok _ => []
                           | Raise e => [ErrorParsingCalibrationLine line e]
                           end) lines)%list.
Proof.
  induction lines as [|line lines IH]; intros cv out.
  - simpl. now rewrite app_nil_r.
  - simpl. destruct (String.eqb (strip line) ""); [apply IH|].
    destruct (parse_calibration_line (strip line)) as [[level values]|e].
    + apply IH.
    + rewrite IH, <- app_assoc. reflexivity.
Qed.

Lemma fold_print out : forall w,
  fold_left (fun w m => print m w) out w =
  mk_env (calibration_file w) (cct_files w) (writes w) (stdout w ++ out).
Proof.
  induction out as [|m out IH]; intros w.
  - simpl. rewrite app_nil_r. now destruct w.
  - simpl. rewrite IH. unfold print. simpl. now rewrite <- app_assoc.
Qed.

End LoadCalibration.

(** X11. Every level under which [load_calibration_data] returns a record is
    in lower case and without surrounding whitespace, however the file
    spells it: the settings screen, which looks levels up by the lower-cased
    name of the test colour, can find them. *)
Theorem load_calibration_data_normal_keys
    (w : env) (cv : Dict.t calib) (level : string) :
  fst (load_calibration_data w) = Ok cv ->
  In level (Dict.keys cv) ->
  lower level = level /\ strip level = level.
Proof.
  intros Hload Hin. unfold Dict.keys in Hin.
  apply in_map_iff in Hin as ([k c] & <- & Hin). simpl.
  unfold load_calibration_data in Hload.
  destruct (calibration_file w) as [content|].
  - destruct (load_calibration_lines (readlines content) [] []) as [cv' out] eqn:Hl.
    simpl in Hload. injection Hload as ->.
    destruct (load_calibration_lines_provenance _ _ _ _ _ _ _ Hl Hin)
      as [[] | (line & _ & Hp)].
    exact (parsed_level_normal _ _ _ Hp).
  - simpl in Hload. injection Hload as <-. destruct Hin.
Qed.

Lemma load_calibration_data_normal_keys_witness :
  lower "gray" = "gray" /\ strip "gray" = "gray".
Proof.
  apply (load_calibration_data_normal_keys
           (mk_env (Some sample_calibration_text) [] [] [])
           [("gray", mk_calib (F 3) (F 4)); ("white", mk_calib (fdiv (F 1) (F 2)) fzero)]).
  - vm_compute. reflexivity.
  - simpl. auto.
Defined.

(** X12. When several lines of the calibration file name the same level, the
    last one that parses decides: the record loaded for a level is that of a
    line after which no line sets that level again. *)
Theorem load_calibration_data_last_line_wins
    (w : env) (content : string) (before after : list string)
    (line level : string) (c : calib) :
  calibration_file w = Some content ->
  readlines content = (before ++ line :: after)%list ->
  parse_calibration_line (strip line) = Ok (level, c) ->
  Forall (other_level level) after ->
  exists cv, fst (load_calibration_data w) = Ok cv /\ Dict.get level cv = Some c.
Proof.
  intros Hfile Hlines Hparse Hafter.
  unfold load_calibration_data. rewrite Hfile, Hlines.
  rewrite load_calibration_lines_app.
  destruct (load_calibration_lines before [] []) as [cv1 out1].
  cbn [load_calibration_lines].
  destruct (String.eqb_spec (strip line) "") as [He|_].
  { rewrite He in Hparse. discriminate Hparse. }
  rewrite Hparse.
  pose proof (load_calibration_lines_other level after
                (Dict.set level c cv1) out1 Hafter) as Hget.
  destruct (load_calibration_lines after (Dict.set level c cv1) out1) as [cv out].
  cbn [fst] in *. exists cv. split; [reflexivity|].
  rewrite Hget. apply get_set_same.
Qed.

(** A later line for the same level that [float] rejects does not count:
    the record of the first line stays. *)
Lemma load_calibration_data_last_line_wins_witness :
  exists cv,
    fst (load_calibration_data (mk_env (Some separator_calibration_text) [] [] []))
    = Ok cv /\
    Dict.get "gray" cv = Some (mk_calib (F 1) (F 2)).
Proof.
  apply (load_calibration_data_last_line_wins
           (mk_env (Some separator_calibration_text) [] [] [])
           separator_calibration_text
           [] [separator_line ++ NL] ("gray:1,2" ++ NL)).
  - reflexivity.
  - vm_compute. reflexivity.
  - vm_compute. reflexivity.
  - constructor; [|constructor]. intros c. vm_compute. discriminate.
Defined.

(** X13. [load_calibration_data] only reads: the calibration file, the
    profile files and the record of writes are as before. What it prints is
    one message for each line that is neither blank nor well formed, in file
    order, and nothing when the file is missing. *)
Theorem load_calibration_data_read_only (w : env) :
  let w' := snd (load_calibration_data w) in
  calibration_file w' = calibration_file w /\
  cct_files w' = cct_files w /\
  writes w' = writes w /\
  stdout w' =
    (stdout w ++ match calibration_file w with
                 | Some content => rejected_lines content
                 | None => []
                 end)%list.
Proof.
  unfold load_calibration_data.
  destruct (calibration_file w) as [content|] eqn:Hfile.
  - pose proof (load_calibration_lines_out (readlines content) [] []) as Hout.
    destruct (load_calibration_lines (readlines content) [] []) as [cv out].
    cbn [snd] in *. rewrite fold_print. cbn. rewrite Hout.
    repeat split; auto.
  - cbn. rewrite app_nil_r, Hfile. auto.
Qed.

(** The line with the separator is the one line reported. *)
Lemma load_calibration_data_read_only_witness :
  stdout (snd (load_calibration_data
                 (mk_env (Some separator_calibration_text) [] [] [])))
  = [ErrorParsingCalibrationLine separator_line ValueError].
Proof.
  destruct (load_calibration_data_read_only
              (mk_env (Some separator_calibration_text) [] [] []))
    as (_ & _ & _ & H).
  rewrite H. vm_compute. reflexivity.
Defined.

(** ** Start of the second stage *)

Section StageTwoStart.

Import StageTwoUI.

Lemma load_profile_lines_keeps_attribute lines : forall (s : t),
  phone_profiles s <> None ->
  phone_profiles (snd (load_profile_lines lines s)) <> None.
Proof.
  induction lines as [|line rest IH]; intros s Hs; [exact Hs|].
  simpl. destruct (String.eqb (strip line) ""); [now apply IH|].
  destruct (profile_parts (strip line)) as [[[[name p2] p3] p4]|]; [|now apply IH].
  cbv beta iota zeta delta [bind lift modify].
  destruct (correction_of p3); [|exact Hs].
  destruct (correction_of p4); [|exact Hs].
  unfold get_phone_profiles.
  destruct (phone_profiles s) as [d|]; [|now elim Hs].
  apply IH. discriminate.
Qed.

(** Once [load_phone_profiles] has run, the attribute [phone_profiles]
    exists, whatever the file holds. *)
Lemma load_phone_profiles_assigns filename (s : t) :
  phone_profiles (snd (load_phone_profiles filename s)) <> None.
Proof.
  unfold load_phone_profiles.
  cbv beta iota zeta delta [bind modify gets].
  cbn [world set_phone_profiles].
  destruct (read_file (CCT_FILE filename) (world s)) as [content|];
    [|cbn; discriminate].
  cbv beta iota zeta delta [bind].
  pose proof (load_profile_lines_keeps_attribute (readlines content)
                (set_phone_profiles (Some []) s)) as Hk.
  destruct (load_profile_lines (readlines content) (set_phone_profiles (Some []) s))
    as [[[]|e] s1]; cbn [snd] in Hk; [|apply Hk; discriminate].
  unfold get_phone_profiles.
  destruct (phone_profiles s1) as [d|] eqn:Hd; [|elim Hk; [discriminate | reflexivity]].
  cbv beta iota zeta delta [modify].
  destruct (Dict.keys d) as [|first_profile rest];
    [cbn; rewrite Hd; discriminate|].
  cbv beta iota zeta delta [bind modify].
  rewrite on_phone_profile_change_keeps_profiles. cbn. rewrite Hd. discriminate.
Qed.


(** [StageTwoUI.__init__] in one equation per case of the directory. *)
Lemma stage_two_init_spec bg title fs cd (w : env) :
  let s := snd (StageTwoSetup.init bg title fs cd w) in
  StageTwoSetup.phone_file_menu s = glob_txt (Dict.keys (cct_files w)) /\
  world (StageTwoSetup.ui s) = w /\
  calibration_data (StageTwoSetup.ui s) = cd /\
  test_color_var (StageTwoSetup.ui s) = "Gray" /\
  match glob_txt (Dict.keys (cct_files w)) with
  | [] =>
      phone_file_var (StageTwoSetup.ui s) = "No files found" /\
      phone_profiles (StageTwoSetup.ui s) = None
  | first :: _ =>
      phone_file_var (StageTwoSetup.ui s) = first /\
      phone_profiles (StageTwoSetup.ui s) <> None
  end.
Proof.
  unfold StageTwoSetup.init, StageTwoSetup.load_phone_files.
  cbv beta iota zeta delta [bind gets modify StageTwoSetup.in_ui].
  cbn [StageTwoSetup.ui world StageTwoSetup.set_phone_file_menu].
  destruct (glob_txt (Dict.keys (cct_files w))) as [|first rest].
  - cbv beta iota zeta delta [modify StageTwoSetup.in_ui].
    cbn [StageTwoSetup.ui StageTwoSetup.set_ui].
    match goal with |- context [update_background ?st] =>
      pose proof (update_background_world st) as (Hw & Hc & Hf & _ & _ & Ht);
      pose proof (update_background_eq st) as He;
      destruct (update_background st) as [r u]
    end.
    cbn [snd fst] in *. cbn. rewrite Hw, Hc, Hf, Ht.
    repeat split; try reflexivity.
    unfold paints in He. destruct (compute_color _ _ _); injection He as _ ->;
      reflexivity.
  - cbv beta iota zeta delta [bind modify StageTwoSetup.in_ui].
    cbn [StageTwoSetup.ui StageTwoSetup.set_ui].
    match goal with |- context [load_phone_profiles first ?st] =>
      pose proof (load_phone_profiles_world first st) as (Hw & Hc & Hf & Ht);
      pose proof (load_phone_profiles_assigns first st) as Hp;
      destruct (load_phone_profiles first st) as [[[]|e] u]
    end; cbn [snd fst] in *.
    + cbn [StageTwoSetup.ui StageTwoSetup.set_ui].
      match goal with |- context [update_background ?st] =>
        pose proof (update_background_world st) as (Hw' & Hc' & Hf' & _ & _ & Ht');
        pose proof (update_background_eq st) as He;
        destruct (update_background st) as [r u']
      end.
      cbn [snd fst] in *. cbn.
      rewrite Hw', Hc', Hf', Ht', Hw, Hc, Hf, Ht.
      repeat split; try reflexivity.
      unfold paints in He. destruct (compute_color _ _ _); injection He as _ ->;
        exact Hp.
    + cbn. rewrite Hw, Hc, Hf, Ht. repeat split; try reflexivity. exact Hp.
Qed.

End StageTwoStart.



(** ** The background of the main window is never read *)

Section RootBackground.

Import StageTwoUI.

Lemma set_root_bg_same (s : t) : set_root_bg (root_bg s) s = s.
Proof. now destruct s. Qed.

Lemma bg_blind_ret {A} (a : A) : bg_blind (ret a).
Proof. intros x s. exists x. reflexivity. Qed.

Lemma bg_blind_lift {A} (r : result A) : bg_blind (lift r).
Proof. intros x s. exists x. reflexivity. Qed.

Lemma bg_blind_bind {A B} (c : M t A) (k : A -> M t B) :
  bg_blind c -> (forall a, bg_blind (k a)) -> bg_blind (bind c k).
Proof.
  intros Hc Hk x s. unfold bind. destruct (Hc x s) as [y ->].
  destruct (c s) as [[a|e] s1]; cbn [fst snd].
  - apply Hk.
  - exists y. reflexivity.
Qed.

Lemma bg_blind_modify (f : t -> t) :
  (forall x s, f (set_root_bg x s) = set_root_bg x (f s)) -> bg_blind (modify f).
Proof. intros Hf x s. exists x. unfold modify. now rewrite Hf. Qed.

Lemma bg_blind_gets {A} (f : t -> A) :
  (forall x s, f (set_root_bg x s) = f s) -> bg_blind (gets f).
Proof. intros Hf x s. exists x. unfold gets. now rewrite Hf. Qed.

Lemma bg_blind_get_phone_profiles : bg_blind get_phone_profiles.
Proof.
  intros x s. exists x. unfold get_phone_profiles. cbn [phone_profiles set_root_bg].
  now destruct (phone_profiles s).
Qed.

(** A repaint started on another background ends on the same one when it
    succeeds, and leaves that other background when it fails. *)
Lemma update_background_bg x (s : t) :
  update_background (set_root_bg x s) =
  match update_background s with
  | (Ok a, s') => (Ok a, s')
  | (Raise e, _) => (Raise e, set_root_bg x s)
  end.
Proof.
  rewrite !update_background_eq.
  cbn [test_color_var calibration_data phone_temp_var user_wb_var user_tint_var
       set_root_bg].
  unfold paints. destruct (compute_color _ _ _); reflexivity.
Qed.

Lemma bg_blind_update_background : bg_blind update_background.
Proof.
  intros x s. rewrite update_background_bg.
  pose proof (update_background_eq s) as He. unfold paints in He.
  destruct (compute_color _ _ _); rewrite He; cbn [fst snd].
  - exists (root_bg (set_root_bg a s)). now rewrite set_root_bg_same.
  - exists x. reflexivity.
Qed.

Create HintDb bg_blind.

#[local] Hint Resolve bg_blind_ret bg_blind_lift bg_blind_get_phone_profiles
  bg_blind_update_background : bg_blind.

Ltac bg_blind_step :=
  first
    [ apply bg_blind_bind; [|intros ?]
    | apply bg_blind_modify; intros ? ?; reflexivity
    | apply bg_blind_gets; intros ? ?; reflexivity
    | solve [auto with bg_blind] ].

Lemma bg_blind_on_phone_profile_change v : bg_blind (on_phone_profile_change v).
Proof.
  unfold on_phone_profile_change.
  apply bg_blind_bind; [auto with bg_blind | intros profiles].
  apply bg_blind_bind; [|intros ?; auto with bg_blind].
  destruct (Dict.get v profiles) as [p|]; [|auto with bg_blind].
  repeat bg_blind_step.
Qed.

Lemma bg_blind_load_profile_lines lines : bg_blind (load_profile_lines lines).
Proof.
  induction lines as [|line rest IH]; [apply bg_blind_ret|].
  cbn [load_profile_lines].
  destruct (String.eqb (strip line) ""); [exact IH|].
  destruct (profile_parts (strip line)) as [[[[name p2] p3] p4]|]; [|exact IH].
  repeat (first [exact IH | bg_blind_step]).
Qed.

Lemma bg_blind_load_phone_profiles filename : bg_blind (load_phone_profiles filename).
Proof.
  unfold load_phone_profiles.
  apply bg_blind_bind; [bg_blind_step | intros ?].
  apply bg_blind_bind; [bg_blind_step | intros w].
  destruct (read_file (CCT_FILE filename) w) as [content|]; [|auto with bg_blind].
  apply bg_blind_bind; [apply bg_blind_load_profile_lines | intros ?].
  apply bg_blind_bind; [auto with bg_blind | intros profiles].
  apply bg_blind_bind; [bg_blind_step | intros ?].
  destruct (Dict.keys profiles) as [|first_profile rest]; [bg_blind_step|].
  apply bg_blind_bind; [bg_blind_step | intros ?].
  apply bg_blind_on_phone_profile_change.
Qed.

(** [StageTwoUI.__init__] does not depend on the background it finds: the
    outcome is the same, and so is the whole state when it returns. *)
Lemma stage_two_init_bg bg bg' title fs cd (w : env) :
  fst (StageTwoSetup.init bg' title fs cd w) = fst (StageTwoSetup.init bg title fs cd w) /\
  (fst (StageTwoSetup.init bg title fs cd w) = Ok tt ->
   snd (StageTwoSetup.init bg' title fs cd w) = snd (StageTwoSetup.init bg title fs cd w)).
Proof.
  unfold StageTwoSetup.init, StageTwoSetup.load_phone_files.
  cbv beta iota zeta delta [bind gets modify StageTwoSetup.in_ui].
  cbn [StageTwoSetup.ui world StageTwoSetup.set_phone_file_menu].
  set (u := mk bg cd "Gray" "Select Phone Profile File" "Select Phone Profile" "NA"
              fzero fzero None [""] w).
  change (mk bg' cd "Gray" "Select Phone Profile File" "Select Phone Profile" "NA"
            fzero fzero None [""] w) with (set_root_bg bg' u).
  destruct (glob_txt (Dict.keys (cct_files w))) as [|first rest].
  - cbv beta iota zeta delta [modify StageTwoSetup.in_ui].
    cbn [StageTwoSetup.ui StageTwoSetup.set_ui StageTwoSetup.set_phone_file_menu].
    change (set_phone_file_var "No files found" (set_root_bg bg' u))
      with (set_root_bg bg' (set_phone_file_var "No files found" u)).
    rewrite update_background_bg.
    destruct (update_background (set_phone_file_var "No files found" u))
      as [[[]|e] u1]; cbn [fst snd]; split; try reflexivity; discriminate.
  - cbv beta iota zeta delta [bind modify StageTwoSetup.in_ui].
    cbn [StageTwoSetup.ui StageTwoSetup.set_ui StageTwoSetup.set_phone_file_menu].
    change (set_phone_file_var first (set_root_bg bg' u))
      with (set_root_bg bg' (set_phone_file_var first u)).
    destruct (bg_blind_load_phone_profiles first bg' (set_phone_file_var first u))
      as [y ->].
    destruct (load_phone_profiles first (set_phone_file_var first u))
      as [[[]|e] u1]; cbn [fst snd];
      [|split; [reflexivity | discriminate]].
    cbn [StageTwoSetup.ui StageTwoSetup.set_ui StageTwoSetup.set_phone_file_menu].
    rewrite update_background_bg.
    destruct (update_background u1) as [[[]|e] u2]; cbn [fst snd];
      split; try reflexivity; discriminate.
Qed.

(** A repaint that succeeded has nothing left to do. *)
Lemma update_background_done (s s' : t) :
  update_background s = (Ok tt, s') -> update_background s' = (Ok tt, s').
Proof.
  intros H. pose proof (update_background_bg (root_bg s') s) as Hbg.
  rewrite H in Hbg.
  rewrite update_background_eq in H. unfold paints in H.
  destruct (compute_color _ _ _) as [c|]; [|discriminate H].
  injection H as <-. exact Hbg.
Qed.

(** When [StageTwoUI.__init__] returns, the window shows the colour of the
    screen it has set up. *)
Lemma stage_two_init_painted bg title fs cd (w : env) (s : StageTwoSetup.t) :
  StageTwoSetup.init bg title fs cd w = (Ok tt, s) ->
  update_background (StageTwoSetup.ui s) = (Ok tt, StageTwoSetup.ui s).
Proof.
  unfold StageTwoSetup.init, StageTwoSetup.load_phone_files.
  cbv beta iota zeta delta [bind gets modify StageTwoSetup.in_ui].
  cbn [StageTwoSetup.ui world StageTwoSetup.set_phone_file_menu].
  destruct (glob_txt (Dict.keys (cct_files w))) as [|first rest].
  - cbv beta iota zeta delta [modify StageTwoSetup.in_ui].
    cbn [StageTwoSetup.ui StageTwoSetup.set_ui].
    match goal with |- context [update_background ?st] =>
      destruct (update_background st) as [[[]|e] u1] eqn:Hu end;
      intros H; [|discriminate H].
    injection H as <-. cbn [StageTwoSetup.ui StageTwoSetup.set_ui].
    exact (update_background_done _ _ Hu).
  - cbv beta iota zeta delta [bind modify StageTwoSetup.in_ui].
    cbn [StageTwoSetup.ui StageTwoSetup.set_ui].
    match goal with |- context [load_phone_profiles first ?st] =>
      destruct (load_phone_profiles first st) as [[[]|e] u1] end;
      cbn [fst snd]; [|discriminate].
    cbn [StageTwoSetup.ui StageTwoSetup.set_ui].
    destruct (update_background u1) as [[[]|e] u2] eqn:Hu;
      intros H; [|discriminate H].
    injection H as <-. cbn [StageTwoSetup.ui StageTwoSetup.set_ui].
    exact (update_background_done _ _ Hu).
Qed.

End RootBackground.

(** ** The main program *)

Section MainProgram.

Lemma calibration_text_nonempty entry rest :
  String.eqb (calibration_text (entry :: rest)) "" = false.
Proof.
  unfold calibration_text. simpl map. rewrite concat_cons.
  destruct entry as [level c]. unfold calibration_line.
  destruct level; reflexivity.
Qed.

Lemma level_names_nodup : NoDup level_names.
Proof. repeat constructor; simpl; intuition discriminate. Qed.

Lemma run_stage_two_frame bg cd (w : env) :
  StageTwoUI.world (StageTwoSetup.ui (snd (run_stage_two bg cd w))) = w /\
  StageTwoUI.calibration_data (StageTwoSetup.ui (snd (run_stage_two bg cd w))) = cd.
Proof.
  unfold run_stage_two.
  destruct (stage_two_init_spec bg "Color Generator - Stage Two" false cd w)
    as (_ & Hw & Hc & _).
  auto.
Qed.

(** The wizard after five presses: the world is the one
    [save_calibration_data] leaves. *)
Lemma wizard_finished (w : env) (evs : list CalibrationApp.event) :
  (5 <= presses evs)%nat ->
  let c := CalibrationApp.run evs (CalibrationApp.init w) in
  let cal := CalibrationApp.calibration_values c in
  CalibrationApp.finished c = Some cal /\
  CalibrationApp.world c = snd (save_calibration_data cal w) /\
  Dict.keys cal = level_names.
Proof.
  intros Hp c cal.
  pose proof (wizard_inv_run w evs 0 (CalibrationApp.init w) (wizard_inv_init w))
    as (Hk & H).
  fold c in Hk, H. rewrite Nat.add_0_l in Hk, H.
  replace (Nat.min 5 (presses evs)) with 5%nat in Hk, H by lia.
  change (5 <? 5)%nat with false in H. cbv iota in H.
  destruct H as (_ & Hf & Hw). auto.
Qed.

(** While fewer than five presses have been made the wizard is not done. *)
Lemma wizard_open (w : env) (evs : list CalibrationApp.event) :
  (presses evs < 5)%nat ->
  CalibrationApp.finished (CalibrationApp.run evs (CalibrationApp.init w)) = None.
Proof.
  intros Hp.
  pose proof (wizard_inv_run w evs 0 (CalibrationApp.init w) (wizard_inv_init w))
    as (_ & H).
  rewrite Nat.add_0_l in H.
  replace (Nat.min 5 (presses evs)) with (presses evs) in H by lia.
  destruct (presses evs <? 5)%nat eqn:Hlt; [|apply Nat.ltb_ge in Hlt; lia].
  now destruct H as (_ & _ & _ & _ & Hf).
Qed.

End MainProgram.

(** X6. The main window shows the current colour at every stage of a first
    launch. While the wizard is open, whenever the colour of the current
    level with the current corrections can be computed, it is the
    background. Once the fifth "Next" has opened the settings screen and its
    construction has returned, the background is the colour of that screen:
    repainting it changes nothing. *)
Theorem wizard_preview_up_to_date (w : env) (evs : list CalibrationApp.event) :
  has_calibration w = false ->
  match main w evs with
  | Calibrating c =>
      (presses evs < 5)%nat /\ c = CalibrationApp.run evs (CalibrationApp.init w) /\
      preview_ok c
  | StageTwo (Ok _) s =>
      (5 <= presses evs)%nat /\
      StageTwoUI.update_background (StageTwoSetup.ui s) = (Ok tt, StageTwoSetup.ui s)
  | StageTwo (Raise _) _ => (5 <= presses evs)%nat
  | Crashed _ _ => False
  end.
Proof.
  intros Hno. unfold main. rewrite Hno.
  destruct (Nat.lt_ge_cases (presses evs) 5) as [Hp|Hp].
  - rewrite (wizard_open w evs Hp).
    split; [exact Hp|]. split; [reflexivity | apply preview_ok_run].
  - destruct (wizard_finished w evs Hp) as (-> & _ & _).
    unfold run_stage_two.
    destruct (StageTwoSetup.init _ _ _ _ _) as [[[]|e] s] eqn:Hinit; [|exact Hp].
    split; [exact Hp|]. exact (stage_two_init_painted _ _ _ _ _ _ Hinit).
Qed.

Lemma sample_launch :
  main empty_env sample_session =
  StageTwo (Ok tt)
    (snd (run_stage_two "#ffffff" sample_calibration
            (snd (save_calibration_data sample_calibration empty_env)))).
Proof. vm_compute. reflexivity. Qed.

(** After the sample session the window has left the white of the last
    level: the settings screen shows gray. *)
Lemma wizard_preview_up_to_date_witness :
  exists s,
    main empty_env sample_session = StageTwo (Ok tt) s /\
    StageTwoUI.root_bg (StageTwoSetup.ui s) = "#808080" /\
    StageTwoUI.update_background (StageTwoSetup.ui s) = (Ok tt, StageTwoSetup.ui s).
Proof.
  pose proof (wizard_preview_up_to_date empty_env sample_session eq_refl) as H.
  rewrite sample_launch in H. destruct H as (_ & H).
  eexists. split; [exact sample_launch|]. split; [|exact H].
  vm_compute. reflexivity.
Defined.

(** X15. A first launch (no calibration file, or an empty one) in which
    "Next" is pressed five times and the scales have reported positions
    opens the settings screen with the calibration the wizard collected. A
    later launch on the files it left skips the wizard, reads that same
    calibration back and changes nothing outside: when the construction of
    the screen returned on the first launch, the later launch reaches the
    very same second-stage state; when it raised (a profile file with a
    number [float] rejects), the later launch stops with that exception
    before the main loop. *)
Theorem relaunch_resumes_calibration
    (w : env) (evs evs' : list CalibrationApp.event) :
  has_calibration w = false ->
  (5 <= presses evs)%nat ->
  let cal := CalibrationApp.calibration_values
               (CalibrationApp.run evs (CalibrationApp.init w)) in
  (forall level c, In (level, c) cal ->
     scale_position (white_balance c) /\ scale_position (tint c)) ->
  exists r s,
    main w evs = StageTwo r s /\
    StageTwoUI.calibration_data (StageTwoSetup.ui s) = cal /\
    load_calibration_data (StageTwoUI.world (StageTwoSetup.ui s)) =
      (Ok cal, StageTwoUI.world (StageTwoSetup.ui s)) /\
    main (StageTwoUI.world (StageTwoSetup.ui s)) evs' =
      match r with
      | Ok _ => StageTwo r s
      | Raise e => Crashed e (StageTwoUI.world (StageTwoSetup.ui s))
      end.
Proof.
  intros Hno Hp cal Hvals.
  destruct (wizard_finished w evs Hp) as (Hf & Hw & Hk).
  fold cal in Hf, Hw, Hk.
  set (c := CalibrationApp.run evs (CalibrationApp.init w)) in *.
  set (w1 := snd (save_calibration_data cal w)) in *.
  destruct (run_stage_two_frame (CalibrationApp.root_bg c) cal w1) as (Hw1 & Hc1).
  destruct (run_stage_two_frame "" cal w1) as (Hw2 & _).
  destruct (stage_two_init_bg (CalibrationApp.root_bg c) ""
              "Color Generator - Stage Two" false cal w1) as (Hfst & Hsnd).
  fold (run_stage_two "" cal w1) in Hfst, Hsnd.
  fold (run_stage_two (CalibrationApp.root_bg c) cal w1) in Hfst, Hsnd.
  assert (Hnd : NoDup (Dict.keys cal)) by (rewrite Hk; exact level_names_nodup).
  assert (Hrec : Forall scale_record cal).
  { apply Forall_forall. intros [level v] Hin.
    destruct (Hvals level v Hin) as (H1 & H2).
    split; [|split; assumption]. cbn [fst]. rewrite <- Hk.
    unfold Dict.keys. apply in_map_iff. now exists (level, v). }
  pose proof (scale_records_round_trip w cal Hnd Hrec) as Hload. fold w1 in Hload.
  assert (Hhas : has_calibration w1 = true).
  { unfold w1, has_calibration, save_calibration_data.
    cbn [snd print write_file calibration_file].
    destruct cal as [|entry rest]; [discriminate Hk|].
    now rewrite calibration_text_nonempty. }
  destruct (run_stage_two (CalibrationApp.root_bg c) cal w1) as [r s] eqn:Hrun.
  cbn [fst snd] in Hw1, Hc1, Hfst, Hsnd.
  exists r, s. rewrite Hw1.
  split; [unfold main; rewrite Hno; fold c; rewrite Hf, Hw; fold w1;
          rewrite Hrun; reflexivity|].
  split; [exact Hc1|]. split; [exact Hload|].
  unfold main. rewrite Hhas, Hload.
  destruct (run_stage_two "" cal w1) as [r' s'].
  cbn [fst snd] in Hw2, Hfst, Hsnd. subst r'.
  destruct r as [[]|e]; [now rewrite (Hsnd eq_refl) | now rewrite Hw2].
Qed.

Lemma sample_session_values :
  CalibrationApp.calibration_values
    (CalibrationApp.run sample_session (CalibrationApp.init empty_env))
  = sample_calibration.
Proof. vm_compute. reflexivity. Qed.

(** The sample session, started without any file, ends in the settings
    screen with the sample calibration. *)
Lemma relaunch_resumes_calibration_witness :
  exists r s,
    main empty_env sample_session = StageTwo r s /\
    StageTwoUI.calibration_data (StageTwoSetup.ui s) = sample_calibration.
Proof.
  destruct (relaunch_resumes_calibration empty_env sample_session [])
    as (r & s & Hmain & Hcal & _).
  - reflexivity.
  - vm_compute. lia.
  - intros level c Hin. rewrite sample_session_values in Hin.
    destruct (proj1 (Forall_forall _ _) sample_calibration_records (level, c) Hin)
      as (_ & H).
    exact H.
  - exists r, s. split; [exact Hmain|].
    rewrite Hcal. exact sample_session_values.
Defined.

(** ** Saving twice *)

Section SaveTwice.

Import StageTwoUI.

Lemma split_length_app sep a b :
  List.length (split sep (a ++ String sep b)) =
  (List.length (split sep a) + List.length (split sep b))%nat.
Proof.
  induction a as [|c a IH]; simpl.
  - now rewrite Ascii.eqb_refl.
  - destruct (Ascii.eqb c sep); simpl.
    + now rewrite IH.
    + pose proof (split_nonempty sep a) as Ha.
      pose proof (split_nonempty sep (a ++ String sep b)) as Hab.
      destruct (split sep a); [now elim Ha|].
      destruct (split sep (a ++ String sep b)); [now elim Hab|].
      exact IH.
Qed.

Lemma split_length_pos sep s : (1 <= List.length (split sep s))%nat.
Proof.
  pose proof (split_nonempty sep s) as H.
  destruct (split sep s); [now elim H | simpl; lia].
Qed.

(** The line written for a profile names that profile, whatever the entry
    and the sliders hold. *)
Lemma new_profile_line_names P T W Ti :
  strip P = P -> all_chars (is_not "|") P = true ->
  names_profile P (new_profile_line P T W Ti) = true.
Proof.
  intros Hs HP. unfold names_profile.
  rewrite new_profile_line_shape. unfold strip at 1.
  rewrite lstrip_app_nonspace by reflexivity.
  rewrite !rstrip_app_nonspace by reflexivity.
  unfold profile_parts.
  rewrite split_app_sep
    by (apply all_chars_lstrip; rewrite all_chars_app, HP; reflexivity).
  pose proof (split_length_app "|" (String " " T ++ " ")
                ((String " " W ++ " ") ++ String "|" (rstrip (String " " Ti ++ NL))))
    as H1.
  pose proof (split_length_app "|" (String " " W ++ " ")
                (rstrip (String " " Ti ++ NL))) as H2.
  pose proof (split_length_pos "|" (String " " T ++ " ")) as H3.
  pose proof (split_length_pos "|" (String " " W ++ " ")) as H4.
  pose proof (split_length_pos "|" (rstrip (String " " Ti ++ NL))) as H5.
  rewrite H2 in H1.
  destruct (split "|" ((String " " T ++ " ") ++ String "|"
             ((String " " W ++ " ") ++ String "|" (rstrip (String " " Ti ++ NL)))))
    as [|b [|c [|d rest]]]; cbn [Datatypes.length] in H1; try lia.
  cbn [map].
  rewrite strip_lstrip, (strip_app_space P " "), Hs by reflexivity.
  apply String.eqb_refl.
Qed.

Lemma names_not_blank P l : names_profile P l = true -> is_blank l = false.
Proof.
  intros H. unfold is_blank.
  destruct (String.eqb_spec (strip l) "") as [He|]; [|reflexivity].
  now rewrite (blank_names_nothing P l He) in H.
Qed.

Lemma saved_line_one_line (s : t) :
  one_line (phone_profile_var s) = true ->
  one_line (strip (phone_temp_var s)) = true ->
  terminated (saved_line s).
Proof.
  intros HP HT.
  destruct (format_1f_plain (user_wb_var s)) as (_ & HW).
  destruct (format_1f_plain (user_tint_var s)) as (_ & HTi).
  exists (phone_profile_var s ++ " | " ++ strip (phone_temp_var s) ++ " | "
          ++ format_1f (user_wb_var s) ++ " | " ++ format_1f (user_tint_var s)).
  split.
  - unfold saved_line, new_profile_line. now rewrite !append_assoc.
  - rewrite !one_line_app, HP, HT, HW, HTi. reflexivity.
Qed.

(** What the loop of [on_save_changes] makes of a line of the file is a
    line it would keep as it is. *)
Lemma rewritten_fixed (s : t) ls l :
  one_line (strip (phone_temp_var s)) = true ->
  lines_ok ls -> In l ls -> is_blank l = false ->
  is_blank (rewritten s l) = false /\
  rewritten s (rewritten s l) = rewritten s l /\
  (rewritten s l = l \/ terminated (rewritten s l)).
Proof.
  intros HT Hok Hin Hnb.
  destruct (names_profile (phone_profile_var s) l) eqn:Hname.
  - assert (Hr : rewritten s l = saved_line s)
      by (unfold rewritten; now rewrite Hname).
    rewrite !Hr.
    destruct (names_profile_facts ls l _ Hok Hin Hname) as (_ & Hs & Hplain).
    destruct (plain_field_facts _ Hplain) as (Hbar & Hone).
    assert (Hn : names_profile (phone_profile_var s) (saved_line s) = true)
      by (unfold saved_line; now apply new_profile_line_names).
    split; [now apply (names_not_blank (phone_profile_var s))|].
    split; [unfold rewritten; now rewrite Hn|].
    right. now apply saved_line_one_line.
  - assert (Hr : rewritten s l = l) by (unfold rewritten; now rewrite Hname).
    rewrite !Hr. split; [exact Hnb|]. split; [reflexivity | now left].
Qed.

Lemma map_filter_fixed {A} (g : A -> A) (keep : A -> bool) ls :
  (forall l, In l ls -> keep (g l) = true /\ g (g l) = g l) ->
  map g (filter keep (map g ls)) = map g ls.
Proof.
  induction ls as [|l rest IH]; intros H; [reflexivity|].
  cbn [map filter].
  destruct (H l (or_introl eq_refl)) as (-> & Hg).
  cbn [map]. rewrite Hg, IH; [reflexivity|].
  intros x Hx. apply H. now right.
Qed.

(** The loop of [on_save_changes] completes when the selected profile is
    stored and the two sliders read back, or no line names the profile. *)
Lemma save_lines_completes sel lines : forall acc (s : t),
  phone_profile_var s = sel ->
  ((exists l, In l lines /\ names_profile sel l = true) ->
   exists p, saved_record s p /\ holds_profile sel p s) ->
  exists r s', save_lines sel lines acc s = (Ok r, s').
Proof.
  induction lines as [|line rest IH]; intros acc s Hsel Hpre.
  - eexists _, _. reflexivity.
  - assert (Hrest : (exists l, In l rest /\ names_profile sel l = true) ->
                    exists p, saved_record s p /\ holds_profile sel p s).
    { intros (l & Hl & Hn). apply Hpre. exists l. split; [now right | exact Hn]. }
    simpl.
    destruct (String.eqb (strip line) "") eqn:Hblank; [now apply IH|].
    destruct (profile_parts (strip line)) as [[[[name p2] p3] p4]|] eqn:Hparts;
      [|now apply IH].
    destruct (String.eqb name sel) eqn:Hname; [|now apply IH].
    apply String.eqb_eq in Hname. subst name.
    destruct Hpre as (p & (Htemp & Hwb & Htint) & d & Hd & Hget).
    { exists line. split; [now left|].
      unfold names_profile. rewrite Hparts. apply String.eqb_refl. }
    cbv beta iota zeta delta [bind gets].
    unfold update_profile at 1, get_phone_profiles.
    cbv beta iota zeta delta [bind modify lift].
    rewrite Hd, Hget, Hwb, Htint.
    apply IH; [now destruct s|].
    intros _. exists (mk_profile (strip (phone_temp_var s)) (wb_correction p)
                        (tint_correction p)).
    split.
    + destruct s; cbn in *. split; [reflexivity|]. split; assumption.
    + eexists. split; [now destruct s|]. apply get_set_same.
Qed.

Lemma on_save_changes_completes (s s' : t) r :
  phone_file_var s <> "" ->
  phone_file_var s <> "No files found" ->
  save_lines (phone_profile_var s) (profile_file_lines s) [] s = (Ok r, s') ->
  on_save_changes s =
  (Ok tt,
   set_world (print ProfileChangesSaved
                (write_file (CCT_FILE (phone_file_var s)) (writelines r) (world s')))
             s').
Proof.
  intros Hne Hnf Hsave.
  unfold on_save_changes. cbv beta iota zeta delta [bind gets].
  destruct (String.eqb_spec (phone_file_var s) ""); [contradiction|].
  unfold mem, existsb.
  destruct (String.eqb_spec (phone_file_var s) "No files found"); [contradiction|].
  cbn [orb]. fold (profile_file_lines s). rewrite Hsave.
  cbv beta iota zeta delta [modify]. reflexivity.
Qed.

Lemma read_back_written name content w p :
  read_file p (print ProfileChangesSaved (write_file (CCT_FILE name) content w)) =
  match p with
  | CCT_FILE other => if String.eqb other name then Some content
                      else read_file p w
  | CALIBRATION_FILE => read_file p w
  end.
Proof.
  destruct p as [|other]; [reflexivity|].
  cbn [read_file print write_file cct_files].
  destruct (String.eqb_spec other name) as [->|Hne].
  - apply get_set_same.
  - now apply get_set_other.
Qed.

(** The state after a completed save, seen from the first one. *)
Lemma saved_twice (s : t) x lines1 :
  one_line (strip (phone_temp_var s)) = true ->
  phone_file_var s <> "" ->
  phone_file_var s <> "No files found" ->
  save_lines (phone_profile_var s) (profile_file_lines s) [] s
    = (Ok lines1, set_phone_profiles x s) ->
  lines1 = map (rewritten s)
             (filter (fun l => negb (is_blank l)) (profile_file_lines s)) ->
  let s1 := set_world
              (print ProfileChangesSaved
                 (write_file (CCT_FILE (phone_file_var s)) (writelines lines1) (world s)))
              (set_phone_profiles x s) in
  exists s2,
    on_save_changes s1 = (Ok tt, s2) /\
    forall p, read_file p (world s2) = read_file p (world s1).
Proof.
  intros HT Hne Hnf Hsave Hlines s1.
  set (kept := filter (fun l => negb (is_blank l)) (profile_file_lines s)) in *.
  assert (Hkept : forall l, In l kept ->
            In l (profile_file_lines s) /\ is_blank l = false).
  { intros l Hl. apply filter_In in Hl as [Hl Hb]. split; [exact Hl|].
    now destruct (is_blank l). }
  pose proof (profile_file_lines_ok s) as Hok.
  assert (Hok1 : lines_ok lines1).
  { rewrite Hlines. apply lines_ok_map; [|now apply lines_ok_filter].
    intros l Hl. destruct (Hkept l Hl) as [Hin Hb].
    now destruct (rewritten_fixed s _ l HT Hok Hin Hb) as (_ & _ & H). }
  assert (Hfile : phone_file_var s1 = phone_file_var s) by (subst s1; now destruct s).
  assert (Hprof : phone_profile_var s1 = phone_profile_var s)
    by (subst s1; now destruct s).
  assert (Hx : phone_profiles s1 = x) by (subst s1; now destruct s).
  assert (Hrw : forall l, rewritten s1 l = rewritten s l)
    by (intros l; subst s1; now destruct s).
  assert (Hrec1 : forall p, saved_record s p -> saved_record s1 p)
    by (intros p; subst s1; now destruct s).
  assert (Hread : profile_file_lines s1 = lines1).
  { unfold profile_file_lines. rewrite Hfile.
    replace (world s1) with
      (print ProfileChangesSaved
         (write_file (CCT_FILE (phone_file_var s)) (writelines lines1) (world s)))
      by (subst s1; now destruct s).
    rewrite read_back_written, String.eqb_refl.
    now apply readlines_writelines. }
  assert (Hfixed : map (rewritten s1) (filter (fun l => negb (is_blank l)) lines1)
                   = lines1).
  { rewrite (map_ext _ (rewritten s) Hrw).
    rewrite Hlines. apply map_filter_fixed.
    intros l Hl. destruct (Hkept l Hl) as [Hin Hb].
    destruct (rewritten_fixed s _ l HT Hok Hin Hb) as (H1 & H2 & _).
    now rewrite H1. }
  destruct (save_lines_completes (phone_profile_var s1) (profile_file_lines s1) [] s1
              eq_refl) as (r & s1' & Hsave2).
  { rewrite Hread, Hprof. intros (l' & Hl' & Hn').
    assert (Hex : existsb (names_profile (phone_profile_var s)) (profile_file_lines s)
                  = true).
    { rewrite Hlines in Hl'. apply in_map_iff in Hl' as (l & <- & Hl).
      destruct (Hkept l Hl) as [Hin _].
      apply existsb_exists. exists l. split; [exact Hin|].
      unfold rewritten in Hn'.
      destruct (names_profile (phone_profile_var s) l) eqn:Hn; [reflexivity|].
      now rewrite Hn in Hn'. }
    destruct (save_lines_stores _ _ _ _ _ _ Hsave eq_refl (or_introl Hex))
      as (p & Hrec & d & Hd & Hget).
    exists p. split; [now apply Hrec1|].
    exists d. split; [|exact Hget].
    rewrite Hx. destruct s; exact Hd. }
  pose proof (save_lines_spec _ _ _ _ _ _ Hsave2 eq_refl) as ((x2 & Hs1') & Hr).
  rewrite Hread in Hsave2, Hr. cbn [app] in Hr. rewrite Hfixed in Hr. subst r.
  rewrite <- Hread in Hsave2 at 1.
  assert (Hne1 : phone_file_var s1 <> "") by now rewrite Hfile.
  assert (Hnf1 : phone_file_var s1 <> "No files found") by now rewrite Hfile.
  eexists. split; [exact (on_save_changes_completes s1 s1' lines1 Hne1 Hnf1 Hsave2)|].
  intros p.
  replace (world (set_world
             (print ProfileChangesSaved
                (write_file (CCT_FILE (phone_file_var s1)) (writelines lines1)
                   (world s1'))) s1'))
    with (print ProfileChangesSaved
            (write_file (CCT_FILE (phone_file_var s1)) (writelines lines1) (world s1')))
    by now destruct s1'.
  rewrite read_back_written.
  replace (world s1') with (world s1) by (rewrite Hs1'; now destruct s1).
  destruct p as [|other]; [reflexivity|].
  destruct (String.eqb_spec other (phone_file_var s1)) as [->|_]; [|reflexivity].
  rewrite Hfile.
  replace (world s1) with
    (print ProfileChangesSaved
       (write_file (CCT_FILE (phone_file_var s)) (writelines lines1) (world s)))
    by (subst s1; now destruct s).
  now rewrite read_back_written, String.eqb_refl.
Qed.

End SaveTwice.

(** X16. "Save changes" pressed a second time, with nothing touched in
    between, completes and leaves every file as the first save left it,
    provided the temperature entry holds no line break once stripped: the
    line written for the selected profile is one the second pass rewrites to
    itself, and every other line is kept as it is. *)
Theorem on_save_changes_twice (s s1 : StageTwoUI.t) :
  StageTwoUI.on_save_changes s = (Ok tt, s1) ->
  one_line (strip (StageTwoUI.phone_temp_var s)) = true ->
  exists s2,
    StageTwoUI.on_save_changes s1 = (Ok tt, s2) /\
    forall p, read_file p (StageTwoUI.world s2) = read_file p (StageTwoUI.world s1).
Proof.
  intros Hrun HT.
  destruct (String.eqb_spec (StageTwoUI.phone_file_var s) "") as [He|Hne].
  { assert (Hnone : StageTwoUI.on_save_changes s = (Ok tt, s)).
    { unfold StageTwoUI.on_save_changes. cbv beta iota zeta delta [bind gets].
      now rewrite He. }
    rewrite Hnone in Hrun. injection Hrun as <-.
    exists s. split; [exact Hnone | reflexivity]. }
  destruct (String.eqb_spec (StageTwoUI.phone_file_var s) "No files found")
    as [He|Hnf].
  { assert (Hnone : StageTwoUI.on_save_changes s = (Ok tt, s)).
    { unfold StageTwoUI.on_save_changes. cbv beta iota zeta delta [bind gets].
      now rewrite He. }
    rewrite Hnone in Hrun. injection Hrun as <-.
    exists s. split; [exact Hnone | reflexivity]. }
  destruct (on_save_changes_result s s1 Hrun Hne Hnf)
    as (x & lines1 & Hsave & Hlines & ->).
  exact (saved_twice s x lines1 HT Hne Hnf Hsave Hlines).
Qed.

Lemma on_save_changes_twice_witness :
  exists s2,
    StageTwoUI.on_save_changes (snd (StageTwoUI.on_save_changes sample_stage_two_file))
      = (Ok tt, s2) /\
    forall p, read_file p (StageTwoUI.world s2) =
              read_file p (StageTwoUI.world
                             (snd (StageTwoUI.on_save_changes sample_stage_two_file))).
Proof.
  apply (on_save_changes_twice sample_stage_two_file).
  - vm_compute. reflexivity.
  - vm_compute. reflexivity.
Defined.
